(** * The Janus Lua bridge (plugins/janus_lua.c): a shallow embedding

    The plugin keeps a registry of reference-counted sessions, exposes
    call-outs to a Lua script, relays media to recipient sessions and
    runs a scheduler thread for Lua coroutines.  The C functions are
    embedded as state-passing functions over an explicit plugin state:
    heap objects are addressed by pointers (positive numbers), the two
    GHashTables are finite maps, and everything the plugin asks of the
    Janus core, of Lua, of jansson or of the recorder is either written
    to a trace or taken from the environment. *)

From Stdlib Require Import Ascii String ZArith.
From stdpp Require Import gmap strings list fin_maps.

Open Scope Z_scope.

(** ** C library *)

(** tolower(3) in the C locale. *)
Definition tolower (c : ascii) : ascii :=
  let n := nat_of_ascii c in
  if ((65 <=? n) && (n <=? 90))%nat then ascii_of_nat (n + 32) else c.

Definition uchar (c : ascii) : Z := Z.of_nat (nat_of_ascii c).

(** strcasecmp(3): the strings are compared byte by byte, ignoring case,
    up to and including the terminating NUL.  A [string] holds the bytes
    before the terminator; an embedded NUL ends the comparison early. *)
Fixpoint strcasecmp (s1 s2 : string) : Z :=
  match s1, s2 with
  | EmptyString, EmptyString => 0
  | EmptyString, String c2 _ => 0 - uchar (tolower c2)
  | String c1 _, EmptyString => uchar (tolower c1)
  | String c1 r1, String c2 r2 =>
      let d := uchar (tolower c1) - uchar (tolower c2) in
      if d =? 0 then (if uchar c1 =? 0 then 0 else strcasecmp r1 r2) else d
  end.

(** The C string at the start of a byte buffer: the bytes before the
    first NUL. *)
Fixpoint c_string (s : string) : string :=
  match s with
  | EmptyString => EmptyString
  | String c r => if uchar c =? 0 then EmptyString else String c (c_string r)
  end.

(** g_snprintf(buf, n, ...) keeps at most n-1 bytes. *)
Definition g_snprintf (n : nat) (s : string) : string := substring 0 (n - 1) s.

(** Integer conversions of a lua_Number.  Numbers are modelled by their
    integral part.  A conversion out of the target's range is undefined
    in C; the definitions follow the compiled code.  To guint32 the
    number is converted in 64 bits and truncated, which wraps around.
    To int the conversion is the 32-bit one, which gives INT_MIN for
    every number outside the range of int; a guint16 is the low half of
    that int, so it is 0 for such a number. *)
Definition to_guint32 (z : Z) : Z := z mod 2 ^ 32.
Definition INT_MIN : Z := - 2 ^ 31.
Definition to_int (z : Z) : Z :=
  if (INT_MIN <=? z) && (z <? 2 ^ 31) then z else INT_MIN.
Definition to_guint16 (z : Z) : Z := to_int z mod 2 ^ 16.

Definition G_USEC_PER_SEC : Z := 1000000.

(** Byte swaps behind htonl/htons on a little-endian host. *)
Definition bswap16 (x : Z) : Z := (x mod 256) * 256 + (x / 256) mod 256.
Definition bswap32 (x : Z) : Z :=
  (x mod 256) * 16777216 + ((x / 256) mod 256) * 65536
  + ((x / 65536) mod 256) * 256 + (x / 16777216) mod 256.

(** ** Lua values on the call-out stack *)

Inductive lua_value :=
  | LNil
  | LBoolean (b : bool)
  | LNumber (n : Z)
  | LString (s : string).

(** The value at a (positive, 1-based) stack index, if any. *)
Definition lua_index (s : list lua_value) (i : nat) : option lua_value :=
  match i with
  | O => None
  | S k => s !! k
  end.

Definition lua_gettop (s : list lua_value) : Z := Z.of_nat (length s).

(** lua_toboolean: false for nil and false, true for everything else. *)
Definition lua_toboolean (s : list lua_value) (i : nat) : bool :=
  match lua_index s i with
  | None | Some LNil | Some (LBoolean false) => false
  | Some _ => true
  end.

(** ** Data model *)

(** The part of an RTP header the plugin reads and writes; the fields
    hold the values as stored in the buffer (network byte order). *)
Record rtp_header := {
  first_bytes : Z;
  seq_number : Z;
  timestamp : Z;
  ssrc : Z
}.

(** janus_lua_rtp_relay_packet. *)
Record janus_lua_rtp_relay_packet := {
  pkt_data : option rtp_header;
  pkt_length : Z;
  pkt_is_video : bool;
  pkt_timestamp : Z;
  pkt_seq_number : Z
}.

Inductive janus_lua_event :=
  | janus_lua_event_none
  | janus_lua_event_resume
  | janus_lua_event_exit.

Inductive janus_lua_async_event_type :=
  | janus_lua_async_event_type_none
  | janus_lua_async_event_type_pushevent
  | janus_lua_async_event_type_closepc.

(** janus_lua_async_event: the task handed to a helper thread. *)
Record janus_lua_async_event := {
  asev_session : positive;
  asev_type : janus_lua_async_event_type;
  asev_transaction : option positive;
  asev_event : option positive;
  asev_jsep : option positive
}.

(** Modelled from the spec: janus_plugin_session is declared in
    plugin.h, which is not part of the sources; the plugin uses the
    back-pointer to its own session and the stopped flag. *)
Record janus_plugin_session := {
  plugin_handle : option positive;
  stopped : Z
}.

(** Modelled from the spec: janus_lua_session is declared in
    janus_lua_data.h, which is not part of the sources; the fields are
    the ones janus_lua.c reads and writes (spec, section 3, Session).
    The switching context is a plain struct of integers, kept as the
    list of its values. *)
Record janus_lua_session := {
  handle : option positive;
  id : Z;
  accept_audio : bool;
  accept_video : bool;
  accept_data : bool;
  send_audio : bool;
  send_video : bool;
  send_data : bool;
  bitrate : Z;
  pli_freq : Z;
  pli_latest : Z;
  rtpctx : list Z;
  recipients : list positive;
  arc : option positive;
  vrc : option positive;
  drc : option positive;
  started : Z;
  hangingup : Z;
  destroyed : Z;
  ref : Z
}.

(** janus_config, as far as janus_config_get_item_drilldown needs it:
    categories of named items, an item holding an optional value. *)
Record janus_config_item := {
  item_name : string;
  value : option string
}.

Definition janus_config : Type := list (string * list janus_config_item).

(** Modelled from the spec: janus_recorder is declared in record.h,
    which is not part of the sources; a recorder is an open file that
    frames are appended to until it is closed. *)
Record janus_recorder := {
  rec_folder : option string;
  rec_codec : option string;
  rec_filename : option string;
  rec_writable : bool;
  rec_frames : list (option rtp_header * Z)
}.

(** Modelled from the spec: janus_plugin_result and its type are
    declared in plugin.h, which is not part of the sources; a result is
    what janus_plugin_result_new is given: a type, an error text and a
    JSON document. *)
Inductive janus_plugin_result_type :=
  | JANUS_PLUGIN_ERROR
  | JANUS_PLUGIN_OK
  | JANUS_PLUGIN_OK_WAIT.

Record janus_plugin_result := {
  res_type : janus_plugin_result_type;
  res_text : option string;
  res_content : option positive
}.

(** Other heap blocks the plugin owns: parsed JSON documents (json_t),
    duplicated strings and the task structure of a helper thread. *)
Inductive block :=
  | BJson (text : string)
  | BString (s : string)
  | BAsev.

Inductive mutex :=
  | sessions_mutex
  | lua_mutex
  | recipients_mutex (session : positive)
  | rec_mutex (session : positive).

Inductive log_level := LOG_FATAL | LOG_ERR | LOG_INFO | LOG_VERB | LOG_HUGE.

(** Buffers handed to the relay callbacks of the core: an RTP packet
    seen through its header, raw bytes, or an RTCP message the plugin
    built itself (janus_rtcp_pli, janus_rtcp_remb). *)
Inductive payload :=
  | RtpPacket (hdr : rtp_header)
  | Bytes (s : string)
  | RtcpPli
  | RtcpRemb (bitrate : Z).

(** What the plugin does to the outside world, in program order. *)
Inductive event :=
  | EvLock (m : mutex)
  | EvUnlock (m : mutex)
  | EvLog (level : log_level) (msg : string)
  | EvPushEvent (h : option positive) (transaction : option string)
                (ev : option positive) (jsep : option positive)
  | EvNotifyEvent (h : option positive) (ev : option positive)
  | EvClosePc (h : option positive)
  | EvRelayRtp (h : option positive) (video : bool) (buf : payload) (len : Z)
  | EvRelayRtcp (h : option positive) (video : bool) (buf : payload) (len : Z)
  | EvRelayData (h : option positive) (buf : payload) (len : Z)
  | EvLuaCall (fn : option string) (args : list lua_value)
  | EvHandleUnref (h : option positive)
  | EvThreadNew (name : string).

Record plugin_state := {
  initialized : Z;
  stopping : Z;
  gateway : bool;
  lua_state : bool;
  has_incoming_rtp : bool;
  has_incoming_rtcp : bool;
  has_incoming_data : bool;
  heap : gmap positive janus_lua_session;
  handles : gmap positive janus_plugin_session;
  sessions : gmap positive positive;
  ids : gmap Z positive;
  recorders : gmap positive janus_recorder;
  blocks : gmap positive block;
  next_block : positive;
  events : list janus_lua_event;
  threads : list (positive * janus_lua_async_event);
  trace : list event
}.

(** ** Field updates *)

Definition set_flags (f : bool * bool * bool * bool * bool * bool)
    (s : janus_lua_session) : janus_lua_session :=
  let '(aa, av, ad, sa, sv, sd) := f in
  {| handle := handle s; id := id s;
     accept_audio := aa; accept_video := av; accept_data := ad;
     send_audio := sa; send_video := sv; send_data := sd;
     bitrate := bitrate s; pli_freq := pli_freq s; pli_latest := pli_latest s;
     rtpctx := rtpctx s; recipients := recipients s;
     arc := arc s; vrc := vrc s; drc := drc s;
     started := started s; hangingup := hangingup s;
     destroyed := destroyed s; ref := ref s |}.

Definition set_accept_audio (b : bool) (s : janus_lua_session) :=
  set_flags (b, accept_video s, accept_data s, send_audio s, send_video s, send_data s) s.
Definition set_accept_video (b : bool) (s : janus_lua_session) :=
  set_flags (accept_audio s, b, accept_data s, send_audio s, send_video s, send_data s) s.
Definition set_accept_data (b : bool) (s : janus_lua_session) :=
  set_flags (accept_audio s, accept_video s, b, send_audio s, send_video s, send_data s) s.
Definition set_send_audio (b : bool) (s : janus_lua_session) :=
  set_flags (accept_audio s, accept_video s, accept_data s, b, send_video s, send_data s) s.
Definition set_send_video (b : bool) (s : janus_lua_session) :=
  set_flags (accept_audio s, accept_video s, accept_data s, send_audio s, b, send_data s) s.
Definition set_send_data (b : bool) (s : janus_lua_session) :=
  set_flags (accept_audio s, accept_video s, accept_data s, send_audio s, send_video s, b) s.

Definition set_rates (br pf pl : Z) (s : janus_lua_session) : janus_lua_session :=
  {| handle := handle s; id := id s;
     accept_audio := accept_audio s; accept_video := accept_video s;
     accept_data := accept_data s; send_audio := send_audio s;
     send_video := send_video s; send_data := send_data s;
     bitrate := br; pli_freq := pf; pli_latest := pl;
     rtpctx := rtpctx s; recipients := recipients s;
     arc := arc s; vrc := vrc s; drc := drc s;
     started := started s; hangingup := hangingup s;
     destroyed := destroyed s; ref := ref s |}.

Definition set_bitrate (z : Z) s := set_rates z (pli_freq s) (pli_latest s) s.
Definition set_pli_freq (z : Z) s := set_rates (bitrate s) z (pli_latest s) s.
Definition set_pli_latest (z : Z) s := set_rates (bitrate s) (pli_freq s) z s.

Definition set_rtpctx (c : list Z) (s : janus_lua_session) : janus_lua_session :=
  {| handle := handle s; id := id s;
     accept_audio := accept_audio s; accept_video := accept_video s;
     accept_data := accept_data s; send_audio := send_audio s;
     send_video := send_video s; send_data := send_data s;
     bitrate := bitrate s; pli_freq := pli_freq s; pli_latest := pli_latest s;
     rtpctx := c; recipients := recipients s;
     arc := arc s; vrc := vrc s; drc := drc s;
     started := started s; hangingup := hangingup s;
     destroyed := destroyed s; ref := ref s |}.

Definition set_recipients (l : list positive) (s : janus_lua_session) : janus_lua_session :=
  {| handle := handle s; id := id s;
     accept_audio := accept_audio s; accept_video := accept_video s;
     accept_data := accept_data s; send_audio := send_audio s;
     send_video := send_video s; send_data := send_data s;
     bitrate := bitrate s; pli_freq := pli_freq s; pli_latest := pli_latest s;
     rtpctx := rtpctx s; recipients := l;
     arc := arc s; vrc := vrc s; drc := drc s;
     started := started s; hangingup := hangingup s;
     destroyed := destroyed s; ref := ref s |}.

Definition set_recorders (a v d : option positive) (s : janus_lua_session) : janus_lua_session :=
  {| handle := handle s; id := id s;
     accept_audio := accept_audio s; accept_video := accept_video s;
     accept_data := accept_data s; send_audio := send_audio s;
     send_video := send_video s; send_data := send_data s;
     bitrate := bitrate s; pli_freq := pli_freq s; pli_latest := pli_latest s;
     rtpctx := rtpctx s; recipients := recipients s;
     arc := a; vrc := v; drc := d;
     started := started s; hangingup := hangingup s;
     destroyed := destroyed s; ref := ref s |}.

Definition set_arc (r : option positive) s := set_recorders r (vrc s) (drc s) s.
Definition set_vrc (r : option positive) s := set_recorders (arc s) r (drc s) s.
Definition set_drc (r : option positive) s := set_recorders (arc s) (vrc s) r s.

Definition set_life (st hu de rc : Z) (s : janus_lua_session) : janus_lua_session :=
  {| handle := handle s; id := id s;
     accept_audio := accept_audio s; accept_video := accept_video s;
     accept_data := accept_data s; send_audio := send_audio s;
     send_video := send_video s; send_data := send_data s;
     bitrate := bitrate s; pli_freq := pli_freq s; pli_latest := pli_latest s;
     rtpctx := rtpctx s; recipients := recipients s;
     arc := arc s; vrc := vrc s; drc := drc s;
     started := st; hangingup := hu; destroyed := de; ref := rc |}.

Definition set_started (z : Z) s := set_life z (hangingup s) (destroyed s) (ref s) s.
Definition set_hangingup (z : Z) s := set_life (started s) z (destroyed s) (ref s) s.
Definition set_destroyed (z : Z) s := set_life (started s) (hangingup s) z (ref s) s.
Definition set_ref (z : Z) s := set_life (started s) (hangingup s) (destroyed s) z s.

Definition set_globals (i sp : Z) (gw ls hr hc hd : bool) (st : plugin_state) : plugin_state :=
  {| initialized := i; stopping := sp; gateway := gw; lua_state := ls;
     has_incoming_rtp := hr; has_incoming_rtcp := hc; has_incoming_data := hd;
     heap := heap st; handles := handles st; sessions := sessions st;
     ids := ids st; recorders := recorders st; blocks := blocks st;
     next_block := next_block st; events := events st;
     threads := threads st; trace := trace st |}.

Definition set_initialized (z : Z) st :=
  set_globals z (stopping st) (gateway st) (lua_state st)
    (has_incoming_rtp st) (has_incoming_rtcp st) (has_incoming_data st) st.
Definition set_stopping (z : Z) st :=
  set_globals (initialized st) z (gateway st) (lua_state st)
    (has_incoming_rtp st) (has_incoming_rtcp st) (has_incoming_data st) st.
Definition set_gateway (b : bool) st :=
  set_globals (initialized st) (stopping st) b (lua_state st)
    (has_incoming_rtp st) (has_incoming_rtcp st) (has_incoming_data st) st.
Definition set_lua_state (b : bool) st :=
  set_globals (initialized st) (stopping st) (gateway st) b
    (has_incoming_rtp st) (has_incoming_rtcp st) (has_incoming_data st) st.
Definition set_has_incoming (hr hc hd : bool) st :=
  set_globals (initialized st) (stopping st) (gateway st) (lua_state st) hr hc hd st.

Definition set_store (hp : gmap positive janus_lua_session)
    (hd : gmap positive janus_plugin_session) (ss : gmap positive positive)
    (im : gmap Z positive) (rs : gmap positive janus_recorder)
    (st : plugin_state) : plugin_state :=
  {| initialized := initialized st; stopping := stopping st;
     gateway := gateway st; lua_state := lua_state st;
     has_incoming_rtp := has_incoming_rtp st;
     has_incoming_rtcp := has_incoming_rtcp st;
     has_incoming_data := has_incoming_data st;
     heap := hp; handles := hd; sessions := ss; ids := im; recorders := rs;
     blocks := blocks st; next_block := next_block st; events := events st;
     threads := threads st; trace := trace st |}.

Definition set_heap hp st :=
  set_store hp (handles st) (sessions st) (ids st) (recorders st) st.
Definition set_handles hd st :=
  set_store (heap st) hd (sessions st) (ids st) (recorders st) st.
Definition set_sessions ss st :=
  set_store (heap st) (handles st) ss (ids st) (recorders st) st.
Definition set_ids im st :=
  set_store (heap st) (handles st) (sessions st) im (recorders st) st.
Definition set_recorder_store rs st :=
  set_store (heap st) (handles st) (sessions st) (ids st) rs st.

Definition set_runtime (bs : gmap positive block) (nb : positive)
    (evs : list janus_lua_event) (ths : list (positive * janus_lua_async_event))
    (tr : list event) (st : plugin_state) : plugin_state :=
  {| initialized := initialized st; stopping := stopping st;
     gateway := gateway st; lua_state := lua_state st;
     has_incoming_rtp := has_incoming_rtp st;
     has_incoming_rtcp := has_incoming_rtcp st;
     has_incoming_data := has_incoming_data st;
     heap := heap st; handles := handles st; sessions := sessions st;
     ids := ids st; recorders := recorders st;
     blocks := bs; next_block := nb; events := evs; threads := ths; trace := tr |}.

Definition set_blocks bs nb st := set_runtime bs nb (events st) (threads st) (trace st) st.
Definition set_events evs st :=
  set_runtime (blocks st) (next_block st) evs (threads st) (trace st) st.
Definition set_threads ths st :=
  set_runtime (blocks st) (next_block st) (events st) ths (trace st) st.
Definition set_trace tr st :=
  set_runtime (blocks st) (next_block st) (events st) (threads st) tr st.

(** ** Faults, outcomes and the state monad

    A C function either returns, leaving a new plugin state, or
    dereferences a pointer it must not: NULL, or a session that was
    already freed.  [NoReturn] stands for a loop that is still running
    when the inputs given to the model are used up. *)

Inductive fault :=
  | NullDeref
  | UseAfterFree
  | NoReturn.

Inductive outcome (A : Type) :=
  | Done (a : A) (st : plugin_state)
  | Fault (f : fault).
Arguments Done {A} a st.
Arguments Fault {A} f.

Definition M (A : Type) : Type := plugin_state -> outcome A.

Definition ret {A} (a : A) : M A := fun st => Done a st.

Definition bind {A B} (m : M A) (k : A -> M B) : M B :=
  fun st => match m st with
            | Done a st' => k a st'
            | Fault f => Fault f
            end.

Declare Scope callout_scope.
Delimit Scope callout_scope with C.
Bind Scope callout_scope with M.
Notation "x <- c1 ;; c2" := (bind c1 (fun x => c2))
  (at level 100, c1 at next level, right associativity) : callout_scope.
Notation "c1 ;; c2" := (bind c1 (fun _ => c2))
  (at level 100, c2 at level 200, right associativity) : callout_scope.

Definition gets {A} (f : plugin_state -> A) : M A := fun st => Done (f st) st.
Definition modify (f : plugin_state -> plugin_state) : M unit :=
  fun st => Done tt (f st).
Definition crash {A} (f : fault) : M A := fun _ => Fault f.

Definition final_state {A} (o : outcome A) : option plugin_state :=
  match o with Done _ st => Some st | Fault _ => None end.
Definition result {A} (o : outcome A) : option A :=
  match o with Done a _ => Some a | Fault _ => None end.

Definition emit (e : event) : M unit :=
  modify (fun st => set_trace (trace st ++ [e]) st).

Definition JANUS_LOG (level : log_level) (msg : string) : M unit :=
  emit (EvLog level msg).
Definition janus_mutex_lock (m : mutex) : M unit := emit (EvLock m).
Definition janus_mutex_unlock (m : mutex) : M unit := emit (EvUnlock m).

(** Reading and writing through a session pointer. *)
Definition deref (p : positive) : M janus_lua_session :=
  fun st => match heap st !! p with
            | Some s => Done s st
            | None => Fault UseAfterFree
            end.

Definition store (p : positive) (f : janus_lua_session -> janus_lua_session) : M unit :=
  (s <- deref p ;;
   modify (fun st => set_heap (<[p := f s]> (heap st)) st))%C.

(** Reading through a handle pointer. *)
Definition deref_handle (h : option positive) : M janus_plugin_session :=
  fun st => match h with
            | None => Fault NullDeref
            | Some h =>
                match handles st !! h with
                | Some hs => Done hs st
                | None => Fault UseAfterFree
                end
            end.

(** Allocation: a fresh pointer is taken from a bump counter. *)
Definition fresh : M positive :=
  fun st => Done (next_block st)
                 (set_blocks (blocks st) (Pos.succ (next_block st)) st).

Definition alloc (b : block) : M positive :=
  (p <- fresh ;;
   modify (fun st => set_blocks (<[p := b]> (blocks st)) (next_block st) st) ;;
   ret p)%C.

Definition g_free (p : option positive) : M unit :=
  match p with
  | None => ret tt
  | Some p => modify (fun st => set_blocks (delete p (blocks st)) (next_block st) st)
  end.

Definition g_strdup (s : string) : M positive := alloc (BString s).

(** json_decref: the plugin holds the only reference to the documents it
    parses, so dropping it frees the document. *)
Definition json_decref (j : option positive) : M unit := g_free j.

(** ** The environment

    Functions of Lua, jansson and of Janus files that are not part of
    the sources (rtp.c, record.c, config.c) are parameters. *)
Class environment := {
  (** lua_tonumber on a string, lua_tostring on a number *)
  lua_str2number : string -> option Z;
  lua_number2str : Z -> string;
  (** does json_loads accept the text *)
  json_loads_ok : string -> bool;
  (** does janus_recorder_create(folder, codec, filename) open a file *)
  janus_recorder_create_ok :
    option string -> option string -> option string -> bool;
  (** janus_rtp_header_update(header, context, video, step) *)
  janus_rtp_header_update :
    rtp_header -> list Z -> bool -> Z -> rtp_header * list Z;
  (** the context after janus_rtp_switching_context_reset *)
  janus_rtp_switching_context_reset : list Z;
  (** byte order of the host *)
  big_endian_host : bool;
  (** janus_config_parse(filename) *)
  janus_config_parse : string -> option janus_config;
  (** luaL_dofile(state, file): None when loading fails, otherwise the
      global names that are bound to functions afterwards *)
  luaL_dofile : option string -> option (string -> bool);
  (** janus_rtcp_get_remb(buf, len) on an RTCP payload *)
  janus_rtcp_get_remb : string -> Z -> Z
}.

Section Bridge.
Context `{!environment}.

Definition htonl (x : Z) : Z := if big_endian_host then x else bswap32 x.
Definition ntohl (x : Z) : Z := if big_endian_host then x else bswap32 x.
Definition htons (x : Z) : Z := if big_endian_host then x else bswap16 x.
Definition ntohs (x : Z) : Z := if big_endian_host then x else bswap16 x.

Definition value_tonumber (v : option lua_value) : Z :=
  match v with
  | Some (LNumber n) => n
  | Some (LString t) => default 0 (lua_str2number t)
  | _ => 0
  end.

Definition value_tostring (v : option lua_value) : option string :=
  match v with
  | Some (LString t) => Some t
  | Some (LNumber n) => Some (lua_number2str n)
  | _ => None
  end.

Definition lua_tonumber (s : list lua_value) (i : nat) : Z :=
  value_tonumber (lua_index s i).

Definition lua_tostring (s : list lua_value) (i : nat) : option string :=
  value_tostring (lua_index s i).

(** lua_pushnumber(s, x); return 1; -- the number the script receives. *)
Definition lua_pushnumber (x : Z) : M Z := ret x.

(** A call into the script on a new Lua thread: lua_newthread, the
    lua_getglobal of the function (when the code has one), the pushes
    and lua_call.  What the script does is its own business. *)
Definition lua_call (fn : option string) (args : list lua_value) : M unit :=
  emit (EvLuaCall fn args).

Definition json_loads (text : option string) : M (option positive) :=
  match text with
  | None => ret None
  | Some t =>
      if json_loads_ok t then (p <- alloc (BJson t) ;; ret (Some p))%C
      else ret None
  end.

(** g_thread_try_new: on success the task belongs to the new thread. *)
Definition g_thread_try_new (spawn_ok : bool) (name : string)
    (asev : positive) (task : janus_lua_async_event) : M bool :=
  if spawn_ok then
    (emit (EvThreadNew name) ;;
     modify (fun st => set_threads (threads st ++ [(asev, task)]) st) ;;
     ret false)%C
  else ret true.

(** ** Recorders *)

Definition janus_recorder_create (folder codec filename : option string)
    : M (option positive) :=
  if janus_recorder_create_ok folder codec filename then
    (p <- fresh ;;
     modify (fun st => set_recorder_store
       (<[p := {| rec_folder := folder; rec_codec := codec;
                  rec_filename := filename; rec_writable := true;
                  rec_frames := [] |}]> (recorders st)) st) ;;
     ret (Some p))%C
  else ret None.

Definition janus_recorder_close (rc : option positive) : M unit :=
  match rc with
  | None => ret tt
  | Some r =>
      modify (fun st => set_recorder_store
        (alter (fun x => {| rec_folder := rec_folder x; rec_codec := rec_codec x;
                            rec_filename := rec_filename x; rec_writable := false;
                            rec_frames := rec_frames x |}) r (recorders st)) st)
  end.

(** janus_recorder_free closes the file and releases the recorder. *)
Definition janus_recorder_free (rc : option positive) : M unit :=
  match rc with
  | None => ret tt
  | Some r =>
      modify (fun st => set_recorder_store (delete r (recorders st)) st)
  end.

Definition janus_recorder_save_frame (rc : option positive)
    (buf : option rtp_header) (len : Z) : M unit :=
  match rc with
  | None => ret tt
  | Some r =>
      modify (fun st => set_recorder_store
        (alter (fun x =>
           if rec_writable x then
             {| rec_folder := rec_folder x; rec_codec := rec_codec x;
                rec_filename := rec_filename x; rec_writable := true;
                rec_frames := rec_frames x ++ [(buf, len)] |}
           else x) r (recorders st)) st)
  end.

(** ** Reference counting (refcount.h) and the end of a session *)

Definition janus_lua_session_free (session : positive) : M unit :=
  (s <- deref session ;;
   (* Remove the reference to the core plugin session *)
   _ <- deref_handle (handle s) ;;
   emit (EvHandleUnref (handle s)) ;;
   (* This session can be destroyed, free all the resources *)
   modify (fun st => set_ids (delete (id s) (ids st)) st) ;;
   janus_recorder_free (arc s) ;;
   janus_recorder_free (vrc s) ;;
   janus_recorder_free (drc s) ;;
   modify (fun st => set_heap (delete session (heap st)) st))%C.

Definition janus_refcount_increase (session : positive) : M unit :=
  store session (fun s => set_ref (ref s + 1) s).

(** The count is decremented and the free callback runs when it
    reaches zero. *)
Definition janus_refcount_decrease (session : positive) : M unit :=
  (s <- deref session ;;
   store session (set_ref (ref s - 1)) ;;
   if ref s - 1 =? 0 then janus_lua_session_free session else ret tt)%C.

Definition janus_lua_session_destroy (session : option positive) : M unit :=
  match session with
  | None => ret tt
  | Some p =>
      (s <- deref p ;;
       if destroyed s =? 0 then
         (store p (set_destroyed 1) ;;
          janus_refcount_decrease p)
       else ret tt)%C
  end.

(** The opening of most call-outs: with sessions_mutex taken, look the
    id up and give up (releasing the mutex) when
    [session == NULL || g_atomic_int_get(&session->destroyed)].
    On success the mutex is still held. *)
Definition find_session (sid : Z) : M (option positive) :=
  (janus_mutex_lock sessions_mutex ;;
   session <- gets (fun st => ids st !! sid) ;;
   match session with
   | None => janus_mutex_unlock sessions_mutex ;; ret None
   | Some p =>
       s <- deref p ;;
       if negb (destroyed s =? 0) then
         janus_mutex_unlock sessions_mutex ;; ret None
       else ret (Some p)
   end)%C.


(** A callback of the core through the [gateway] pointer. *)
Definition gateway_call (e : event) : M unit :=
  (gw <- gets gateway ;;
   if gw then emit e else crash NullDeref)%C.

(** session == NULL || g_atomic_int_get(&session->destroyed) *)
Definition null_or_destroyed (session : option positive) : M bool :=
  match session with
  | None => ret true
  | Some p => (s <- deref p ;; ret (negb (destroyed s =? 0)))%C
  end.

Definition is_Some_b {A} (o : option A) : bool :=
  match o with Some _ => true | None => false end.

(** GSList of session pointers. *)
Definition g_slist_find (l : list positive) (data : positive) : bool :=
  existsb (Pos.eqb data) l.

Definition g_slist_append (l : list positive) (data : positive) : list positive :=
  l ++ [data].

Fixpoint g_slist_remove (l : list positive) (data : positive) : list positive :=
  match l with
  | [] => []
  | x :: r => if Pos.eqb x data then r else x :: g_slist_remove r data
  end.

(** ** Methods exposed to the Lua script *)

Definition janus_lua_method_pokescheduler (s : list lua_value) : M Z :=
  (modify (fun st => set_events (events st ++ [janus_lua_event_resume]) st) ;;
   lua_pushnumber 0)%C.

(** [spawn_ok]: does g_thread_try_new start the thread;
    [push_res]: what gateway->push_event returns. *)
Definition janus_lua_method_pushevent (spawn_ok : bool) (push_res : Z)
    (s : list lua_value) : M Z :=
  let n := lua_gettop s in
  if negb (n =? 4) then
    (JANUS_LOG LOG_ERR "Wrong number of arguments: %d (expected 4)" ;;
     lua_pushnumber (-1))%C
  else
    let sid := to_guint32 (lua_tonumber s 1) in
    let transaction := lua_tostring s 2 in
    let event_text := lua_tostring s 3 in
    let jsep_text := lua_tostring s 4 in
    (event <- json_loads event_text ;;
     match event with
     | None =>
         JANUS_LOG LOG_ERR "JSON error: on line %d: %s" ;;
         lua_pushnumber (-1)
     | Some _ =>
         jsep <- match jsep_text with
                 | None => ret None
                 | Some _ => json_loads jsep_text
                 end ;;
         match jsep_text, jsep with
         | Some _, None =>
             JANUS_LOG LOG_ERR "JSON error: on line %d: %s" ;;
             json_decref event ;;
             lua_pushnumber (-1)
         | _, _ =>
             found <- find_session sid ;;
             match found with
             | None =>
                 json_decref event ;;
                 json_decref jsep ;;
                 lua_pushnumber (-1)
             | Some session =>
                 janus_refcount_increase session ;;
                 janus_mutex_unlock sessions_mutex ;;
                 match jsep with
                 | Some _ =>
                     asev <- alloc BAsev ;;
                     tr <- match transaction with
                           | Some t => (p <- g_strdup t ;; ret (Some p))
                           | None => ret None
                           end ;;
                     error <- g_thread_try_new spawn_ok "lua pushevent" asev
                       {| asev_session := session;
                          asev_type := janus_lua_async_event_type_pushevent;
                          asev_transaction := tr;
                          asev_event := event;
                          asev_jsep := jsep |} ;;
                     (if error : bool then
                        JANUS_LOG LOG_ERR
                          "Got error %d (%s) trying to launch the Lua pushevent thread..." ;;
                        json_decref event ;;
                        json_decref jsep ;;
                        g_free tr ;;
                        janus_refcount_decrease session ;;
                        g_free (Some asev)
                      else ret tt) ;;
                     (* Return a success/error right away *)
                     lua_pushnumber (if error : bool then 1 else 0)
                 | None =>
                     (* No SDP, send the event now *)
                     ss <- deref session ;;
                     gateway_call (EvPushEvent (handle ss) transaction event None) ;;
                     janus_refcount_decrease session ;;
                     json_decref event ;;
                     lua_pushnumber push_res
                 end
             end
         end
     end)%C.

Definition janus_lua_method_notifyevent (s : list lua_value) : M Z :=
  let n := lua_gettop s in
  if negb (n =? 2) then
    (JANUS_LOG LOG_ERR "Wrong number of arguments: %d (expected 2)" ;;
     lua_pushnumber (-1))%C
  else
    let sid := to_guint32 (lua_tonumber s 1) in
    let event_text := lua_tostring s 2 in
    (event <- json_loads event_text ;;
     match event with
     | None =>
         JANUS_LOG LOG_ERR "JSON error: on line %d: %s" ;;
         lua_pushnumber (-1)
     | Some _ =>
         (* Find the session (optional) *)
         janus_mutex_lock sessions_mutex ;;
         session <- gets (fun st => ids st !! sid) ;;
         match session with
         | Some p =>
             janus_refcount_increase p ;;
             janus_mutex_unlock sessions_mutex ;;
             ss <- deref p ;;
             gateway_call (EvNotifyEvent (handle ss) event) ;;
             janus_refcount_decrease p ;;
             lua_pushnumber 0
         | None =>
             janus_mutex_unlock sessions_mutex ;;
             gateway_call (EvNotifyEvent None event) ;;
             lua_pushnumber 0
         end
     end)%C.

Definition janus_lua_method_closepc (spawn_ok : bool) (s : list lua_value) : M Z :=
  let n := lua_gettop s in
  if negb (n =? 1) then
    (JANUS_LOG LOG_ERR "Wrong number of arguments: %d (expected 1)" ;;
     lua_pushnumber (-1))%C
  else
    let sid := to_guint32 (lua_tonumber s 1) in
    (found <- find_session sid ;;
     match found with
     | None => lua_pushnumber (-1)
     | Some session =>
         janus_refcount_increase session ;;
         janus_mutex_unlock sessions_mutex ;;
         asev <- alloc BAsev ;;
         error <- g_thread_try_new spawn_ok "lua closepc" asev
           {| asev_session := session;
              asev_type := janus_lua_async_event_type_closepc;
              asev_transaction := None;
              asev_event := None;
              asev_jsep := None |} ;;
         (if error : bool then
            JANUS_LOG LOG_ERR
              "Got error %d (%s) trying to launch the Lua closepc thread..." ;;
            janus_refcount_decrease session ;;
            g_free (Some asev)
          else ret tt) ;;
         (* Return a success/error right away *)
         lua_pushnumber (if error : bool then 1 else 0)
     end)%C.

(** The helper thread of pushEvent (with a jsep) and closePc. *)
Definition janus_lua_async_event_helper
    (data : option (positive * janus_lua_async_event)) : M unit :=
  match data with
  | None => ret tt
  | Some (asev, task) =>
      (ss <- deref (asev_session task) ;;
       match asev_type task with
       | janus_lua_async_event_type_pushevent =>
           tr <- gets (fun st =>
                   match asev_transaction task with
                   | Some p =>
                       match blocks st !! p with
                       | Some (BString t) => Some t
                       | _ => None
                       end
                   | None => None
                   end) ;;
           gateway_call (EvPushEvent (handle ss) tr (asev_event task) (asev_jsep task))
       | janus_lua_async_event_type_closepc =>
           gateway_call (EvClosePc (handle ss))
       | janus_lua_async_event_type_none => ret tt
       end ;;
       json_decref (asev_event task) ;;
       json_decref (asev_jsep task) ;;
       g_free (asev_transaction task) ;;
       janus_refcount_decrease (asev_session task) ;;
       g_free (Some asev))%C
  end.

Definition janus_lua_method_configuremedium (s : list lua_value) : M Z :=
  let n := lua_gettop s in
  if negb (n =? 4) then
    (JANUS_LOG LOG_ERR "Wrong number of arguments: %d (expected 4)" ;;
     lua_pushnumber (-1))%C
  else
    let sid := to_guint32 (lua_tonumber s 1) in
    let medium := lua_tostring s 2 in
    let direction := lua_tostring s 3 in
    let enabled := lua_toboolean s 4 in
    (found <- find_session sid ;;
     match found with
     | None => lua_pushnumber (-1)
     | Some session =>
         janus_refcount_increase session ;;
         janus_mutex_unlock sessions_mutex ;;
         (* Modify the session media property *)
         match medium, direction with
         | Some medium, Some direction =>
             if strcasecmp medium "audio" =? 0 then
               if strcasecmp direction "in" =? 0 then
                 store session (set_accept_audio (if enabled then true else false))
               else
                 store session (set_send_audio (if enabled then true else false))
             else if strcasecmp medium "video" =? 0 then
               if strcasecmp direction "in" =? 0 then
                 store session (set_accept_video (if enabled then true else false))
               else
                 store session (set_send_video (if enabled then true else false))
             else if strcasecmp medium "data" =? 0 then
               if strcasecmp direction "in" =? 0 then
                 store session (set_accept_data (if enabled then true else false))
               else
                 store session (set_send_data (if enabled then true else false))
             else ret tt
         | _, _ => ret tt
         end ;;
         janus_refcount_decrease session ;;
         lua_pushnumber 0
     end)%C.

Definition janus_lua_method_addrecipient (s : list lua_value) : M Z :=
  let n := lua_gettop s in
  if negb (n =? 2) then
    (JANUS_LOG LOG_ERR "Wrong number of arguments: %d (expected 2)" ;;
     lua_pushnumber (-1))%C
  else
    let sid := to_guint32 (lua_tonumber s 1) in
    let rid := to_guint32 (lua_tonumber s 2) in
    (* Find the sessions *)
    (found <- find_session sid ;;
     match found with
     | None => lua_pushnumber (-1)
     | Some session =>
         janus_refcount_increase session ;;
         recipient <- gets (fun st => ids st !! rid) ;;
         dead <- null_or_destroyed recipient ;;
         match recipient, dead with
         | Some recipient, false =>
             janus_refcount_increase recipient ;;
             (* Add to the list of recipients *)
             janus_mutex_lock (recipients_mutex session) ;;
             janus_mutex_unlock sessions_mutex ;;
             ss <- deref session ;;
             (if negb (g_slist_find (recipients ss) recipient) then
                janus_refcount_increase session ;;
                janus_refcount_increase recipient ;;
                store session (fun x =>
                  set_recipients (g_slist_append (recipients x) recipient) x)
              else ret tt) ;;
             janus_mutex_unlock (recipients_mutex session) ;;
             (* Done *)
             janus_refcount_decrease session ;;
             janus_refcount_decrease recipient ;;
             lua_pushnumber 0
         | _, _ =>
             janus_refcount_decrease session ;;
             janus_mutex_unlock sessions_mutex ;;
             lua_pushnumber (-1)
         end
     end)%C.

Definition janus_lua_method_removerecipient (s : list lua_value) : M Z :=
  let n := lua_gettop s in
  if negb (n =? 2) then
    (JANUS_LOG LOG_ERR "Wrong number of arguments: %d (expected 2)" ;;
     lua_pushnumber (-1))%C
  else
    let sid := to_guint32 (lua_tonumber s 1) in
    let rid := to_guint32 (lua_tonumber s 2) in
    (* Find the sessions *)
    (janus_mutex_lock sessions_mutex ;;
     session <- gets (fun st => ids st !! sid) ;;
     match session with
     | None =>
         janus_mutex_unlock sessions_mutex ;;
         lua_pushnumber (-1)
     | Some session =>
         janus_refcount_increase session ;;
         recipient <- gets (fun st => ids st !! rid) ;;
         match recipient with
         | None =>
             janus_refcount_decrease session ;;
             janus_mutex_unlock sessions_mutex ;;
             lua_pushnumber (-1)
         | Some recipient =>
             janus_refcount_increase recipient ;;
             (* Remove from the list of recipients *)
             janus_mutex_lock (recipients_mutex session) ;;
             janus_mutex_unlock sessions_mutex ;;
             ss <- deref session ;;
             let unref := g_slist_find (recipients ss) recipient in
             (if unref then
                store session (fun x =>
                  set_recipients (g_slist_remove (recipients x) recipient) x)
              else ret tt) ;;
             janus_mutex_unlock (recipients_mutex session) ;;
             (if unref then
                janus_refcount_decrease session ;;
                janus_refcount_decrease recipient
              else ret tt) ;;
             (* Done *)
             janus_refcount_decrease session ;;
             janus_refcount_decrease recipient ;;
             lua_pushnumber 0
         end
     end)%C.


Definition janus_lua_method_setbitrate (s : list lua_value) : M Z :=
  let n := lua_gettop s in
  if negb (n =? 2) then
    (JANUS_LOG LOG_ERR "Wrong number of arguments: %d (expected 2)" ;;
     lua_pushnumber (-1))%C
  else
    let sid := to_guint32 (lua_tonumber s 1) in
    let new_bitrate := to_guint32 (lua_tonumber s 2) in
    (found <- find_session sid ;;
     match found with
     | None => lua_pushnumber (-1)
     | Some session =>
         janus_refcount_increase session ;;
         janus_mutex_unlock sessions_mutex ;;
         store session (set_bitrate new_bitrate) ;;
         (* Send a REMB right away too, if the PeerConnection is up *)
         ss <- deref session ;;
         (if (0 <? bitrate ss) && negb (started ss =? 0) then
            gateway_call (EvRelayRtcp (handle ss) true (RtcpRemb (bitrate ss)) 24)
          else ret tt) ;;
         janus_refcount_decrease session ;;
         lua_pushnumber 0
     end)%C.

Definition janus_lua_method_setplifreq (s : list lua_value) : M Z :=
  let n := lua_gettop s in
  if negb (n =? 2) then
    (JANUS_LOG LOG_ERR "Wrong number of arguments: %d (expected 2)" ;;
     lua_pushnumber (-1))%C
  else
    let sid := to_guint32 (lua_tonumber s 1) in
    let new_pli_freq := to_guint16 (lua_tonumber s 2) in
    (found <- find_session sid ;;
     match found with
     | None => lua_pushnumber (-1)
     | Some session =>
         janus_refcount_increase session ;;
         janus_mutex_unlock sessions_mutex ;;
         store session (set_pli_freq new_pli_freq) ;;
         janus_refcount_decrease session ;;
         lua_pushnumber 0
     end)%C.

(** [now]: what janus_get_monotonic_time returns. *)
Definition janus_lua_method_sendpli (now : Z) (s : list lua_value) : M Z :=
  let n := lua_gettop s in
  if negb (n =? 1) then
    (JANUS_LOG LOG_ERR "Wrong number of arguments: %d (expected 1)" ;;
     lua_pushnumber (-1))%C
  else
    let sid := to_guint32 (lua_tonumber s 1) in
    (found <- find_session sid ;;
     match found with
     | None => lua_pushnumber (-1)
     | Some session =>
         janus_refcount_increase session ;;
         janus_mutex_unlock sessions_mutex ;;
         (* Send a PLI *)
         store session (set_pli_latest now) ;;
         ss <- deref session ;;
         JANUS_LOG LOG_HUGE "Sending PLI to session %u" ;;
         gateway_call (EvRelayRtcp (handle ss) true RtcpPli 12) ;;
         janus_refcount_decrease session ;;
         lua_pushnumber 0
     end)%C.

Definition janus_lua_method_relayrtp (s : list lua_value) : M Z :=
  let n := lua_gettop s in
  if negb (n =? 4) then
    (JANUS_LOG LOG_ERR "Wrong number of arguments: %d (expected 4)" ;;
     lua_pushnumber (-1))%C
  else
    let sid := to_guint32 (lua_tonumber s 1) in
    let is_video := lua_toboolean s 2 in
    let buf := lua_tostring s 3 in
    let len := to_int (lua_tonumber s 4) in
    match buf with
    | Some bytes =>
        if len <? 1 then
          (JANUS_LOG LOG_ERR "Invalid payload" ;; lua_pushnumber (-1))%C
        else
          (found <- find_session sid ;;
           match found with
           | None => lua_pushnumber (-1)
           | Some session =>
               janus_mutex_unlock sessions_mutex ;;
               ss <- deref session ;;
               gateway_call (EvRelayRtp (handle ss) is_video (Bytes bytes) len) ;;
               lua_pushnumber 0
           end)%C
    | None => (JANUS_LOG LOG_ERR "Invalid payload" ;; lua_pushnumber (-1))%C
    end.

Definition janus_lua_method_relayrtcp (s : list lua_value) : M Z :=
  let n := lua_gettop s in
  if negb (n =? 4) then
    (JANUS_LOG LOG_ERR "Wrong number of arguments: %d (expected 4)" ;;
     lua_pushnumber (-1))%C
  else
    let sid := to_guint32 (lua_tonumber s 1) in
    let is_video := lua_toboolean s 2 in
    let buf := lua_tostring s 3 in
    let len := to_int (lua_tonumber s 4) in
    match buf with
    | Some bytes =>
        if len <? 1 then
          (JANUS_LOG LOG_ERR "Invalid payload" ;; lua_pushnumber (-1))%C
        else
          (found <- find_session sid ;;
           match found with
           | None => lua_pushnumber (-1)
           | Some session =>
               janus_mutex_unlock sessions_mutex ;;
               ss <- deref session ;;
               gateway_call (EvRelayRtcp (handle ss) is_video (Bytes bytes) len) ;;
               lua_pushnumber 0
           end)%C
    | None => (JANUS_LOG LOG_ERR "Invalid payload" ;; lua_pushnumber (-1))%C
    end.

Definition janus_lua_method_relaydata (s : list lua_value) : M Z :=
  let n := lua_gettop s in
  if negb (n =? 3) then
    (JANUS_LOG LOG_ERR "Wrong number of arguments: %d (expected 2)" ;;
     lua_pushnumber (-1))%C
  else
    let sid := to_guint32 (lua_tonumber s 1) in
    let buf := lua_tostring s 2 in
    let len := to_int (lua_tonumber s 3) in
    match buf with
    | Some bytes =>
        if len <? 1 then
          (JANUS_LOG LOG_ERR "Invalid data" ;; lua_pushnumber (-1))%C
        else
          (found <- find_session sid ;;
           match found with
           | None => lua_pushnumber (-1)
           | Some session =>
               janus_refcount_increase session ;;
               janus_mutex_unlock sessions_mutex ;;
               ss <- deref session ;;
               gateway_call (EvRelayData (handle ss) (Bytes bytes) len) ;;
               janus_refcount_decrease session ;;
               lua_pushnumber 0
           end)%C
    | None => (JANUS_LOG LOG_ERR "Invalid data" ;; lua_pushnumber (-1))%C
    end.

(** The local variables arc, vrc and drc of startRecording. *)
Definition recorder_locals : Type :=
  option positive * option positive * option positive.

(** One turn of the while loop of startRecording, after the four
    strings were read; [continue] is the rest of the loop.  The boolean
    of the result is false when the loop left through [goto error]. *)
Definition startrecording_turn (session : positive)
    (type codec folder filename : option string) (loc : recorder_locals)
    (continue : recorder_locals -> M (bool * recorder_locals))
    : M (bool * recorder_locals) :=
  let '(a, v, d) := loc in
  (rc <- janus_recorder_create folder codec filename ;;
   match rc with
   | None =>
       JANUS_LOG LOG_ERR "Error creating '%s' recorder..." ;;
       ret (false, loc)
   | Some _ =>
       match type with
       | None => crash NullDeref
       | Some type =>
           ss <- deref session ;;
           if strcasecmp type "audio" =? 0 then
             if is_Some_b a || is_Some_b (arc ss) then
               JANUS_LOG LOG_ERR "Duplicate audio recording" ;;
               ret (false, loc)
             else continue (rc, v, d)
           else if strcasecmp type "video" =? 0 then
             if is_Some_b v || is_Some_b (vrc ss) then
               JANUS_LOG LOG_ERR "Duplicate video recording" ;;
               ret (false, loc)
             else continue (a, rc, d)
           else if strcasecmp type "data" =? 0 then
             if is_Some_b d || is_Some_b (drc ss) then
               JANUS_LOG LOG_ERR "Duplicate data recording" ;;
               ret (false, loc)
             else continue (a, v, rc)
           else continue loc
       end
   end)%C.

(** The loop over the arguments after the session id, four at a time
    (the argument count was checked before); an index past the top of
    the stack reads as NULL. *)
Fixpoint startrecording_loop (session : positive) (rest : list lua_value)
    (loc : recorder_locals) : M (bool * recorder_locals) :=
  match rest with
  | [] => ret (true, loc)
  | t :: c :: f :: fn :: rest' =>
      startrecording_turn session
        (value_tostring (Some t)) (value_tostring (Some c))
        (value_tostring (Some f)) (value_tostring (Some fn)) loc
        (startrecording_loop session rest')
  | t :: rest' =>
      startrecording_turn session
        (value_tostring (Some t)) (value_tostring (rest' !! 0%nat))
        (value_tostring (rest' !! 1%nat)) None loc
        (fun l => ret (true, l))
  end.

Definition janus_lua_method_startrecording (s : list lua_value) : M Z :=
  let n := lua_gettop s in
  if negb (n =? 5) && negb (n =? 9) && negb (n =? 13) then
    (JANUS_LOG LOG_ERR "Wrong number of arguments: %d (expected 5, 9 or 13)" ;;
     lua_pushnumber (-1))%C
  else
    let sid := to_guint32 (lua_tonumber s 1) in
    (found <- find_session sid ;;
     match found with
     | None => lua_pushnumber (-1)
     | Some session =>
         janus_refcount_increase session ;;
         janus_mutex_lock (rec_mutex session) ;;
         janus_mutex_unlock sessions_mutex ;;
         (* Iterate on all arguments, to see what we're being asked to record *)
         out <- startrecording_loop session (tail s) (None, None, None) ;;
         match out with
         | (true, (a, v, d)) =>
             (if is_Some_b a then store session (set_arc a) else ret tt) ;;
             (if is_Some_b v then store session (set_vrc v) else ret tt) ;;
             (if is_Some_b d then store session (set_drc d) else ret tt) ;;
             janus_refcount_decrease session ;;
             janus_mutex_unlock (rec_mutex session) ;;
             lua_pushnumber 0
         | (false, (a, v, d)) =>
             janus_recorder_free a ;;
             janus_recorder_free v ;;
             janus_recorder_free d ;;
             janus_mutex_unlock (rec_mutex session) ;;
             (* Something went wrong *)
             janus_refcount_decrease session ;;
             lua_pushnumber (-1)
         end
     end)%C.

Fixpoint stoprecording_loop (session : positive) (rest : list lua_value) : M unit :=
  match rest with
  | [] => ret tt
  | t :: rest' =>
      match value_tostring (Some t) with
      | None => crash NullDeref
      | Some type =>
          (ss <- deref session ;;
           (if strcasecmp type "audio" =? 0 then
              if is_Some_b (arc ss) then
                janus_recorder_close (arc ss) ;;
                janus_recorder_free (arc ss) ;;
                store session (set_arc None)
              else ret tt
            else if strcasecmp type "video" =? 0 then
              if is_Some_b (vrc ss) then
                janus_recorder_close (vrc ss) ;;
                janus_recorder_free (vrc ss) ;;
                store session (set_vrc None)
              else ret tt
            else if strcasecmp type "data" =? 0 then
              if is_Some_b (drc ss) then
                janus_recorder_close (drc ss) ;;
                janus_recorder_free (drc ss) ;;
                store session (set_drc None)
              else ret tt
            else ret tt) ;;
           stoprecording_loop session rest')%C
      end
  end.

Definition janus_lua_method_stoprecording (s : list lua_value) : M Z :=
  let n := lua_gettop s in
  if negb (n =? 2) && negb (n =? 3) && negb (n =? 4) then
    (JANUS_LOG LOG_ERR "Wrong number of arguments: %d (expected 2, 3 or 4)" ;;
     lua_pushnumber (-1))%C
  else
    let sid := to_guint32 (lua_tonumber s 1) in
    (found <- find_session sid ;;
     match found with
     | None => lua_pushnumber (-1)
     | Some session =>
         janus_refcount_increase session ;;
         janus_mutex_lock (rec_mutex session) ;;
         janus_mutex_unlock sessions_mutex ;;
         stoprecording_loop session (tail s) ;;
         janus_mutex_unlock (rec_mutex session) ;;
         janus_refcount_decrease session ;;
         lua_pushnumber 0
     end)%C.


(** ** Plugin implementation *)

Definition JANUS_LUA_PACKAGE : string := "janus.plugin.lua".

Definition lua_functions : list string :=
  ["init"; "destroy"; "resumeScheduler";
   "createSession"; "destroySession"; "querySession";
   "handleMessage";
   "setupMedia"; "hangupMedia"]%string.

(** Modelled from the spec: config.c is not part of the sources; an
    item is found by its category and its name. *)
Definition janus_config_get_item_drilldown (config : janus_config)
    (category name : string) : option janus_config_item :=
  match find (fun c => String.eqb (fst c) category) config with
  | None => None
  | Some (_, items) => find (fun it => String.eqb (item_name it) name) items
  end.

(** item->value, through a pointer that may be NULL. *)
Definition item_value (item : option janus_config_item) : M (option string) :=
  match item with
  | None => crash NullDeref
  | Some it => ret (value it)
  end.

(** g_strdup of a string that may be NULL. *)
Definition g_strdup_opt (s : option string) : M (option positive) :=
  match s with
  | None => ret None
  | Some t => (p <- g_strdup t ;; ret (Some p))%C
  end.

Definition lua_close : M unit := modify (set_lua_state false).

(** [spawn_ok]: does the scheduler thread start; [callback]: is the
    callbacks pointer of the core non-NULL. *)
Definition janus_lua_init (spawn_ok : bool) (callback : bool)
    (config_path : option string) : M Z :=
  (stp <- gets stopping ;;
   if negb (stp =? 0) then ret (-1)
   else
     match callback, config_path with
     | true, Some path =>
         (* Read configuration *)
         let filename :=
           g_snprintf 255 (path ++ "/" ++ JANUS_LUA_PACKAGE ++ ".cfg") in
         JANUS_LOG LOG_VERB "Configuration file: %s" ;;
         match janus_config_parse filename with
         | None =>
             JANUS_LOG LOG_ERR "Failed to load configuration file for Lua plugin..." ;;
             ret (-1)
         | Some config =>
             let folder := janus_config_get_item_drilldown config "general" "path" in
             lua_folder <- match folder with
                           | Some it => g_strdup_opt (value it)
                           | None => ret None
                           end ;;
             let script := janus_config_get_item_drilldown config "general" "script" in
             (* if(script == NULL && script->value == NULL) *)
             missing <- match script with
                        | None => v <- item_value script ;; ret (negb (is_Some_b v))
                        | Some _ => ret false
                        end ;;
             if missing : bool then
               JANUS_LOG LOG_ERR "Missing script path in Lua plugin configuration..." ;;
               g_free lua_folder ;;
               ret (-1)
             else
               script_value <- item_value script ;;
               lua_file <- g_strdup_opt script_value ;;
               let conf := janus_config_get_item_drilldown config "general" "config" in
               lua_config <- match conf with
                             | Some it => g_strdup_opt (value it)
                             | None => ret None
                             end ;;
               (* Initialize Lua *)
               modify (set_lua_state true) ;;
               (* Now load the script *)
               match luaL_dofile script_value with
               | None =>
                   JANUS_LOG LOG_ERR "Error loading Lua script %s: %s" ;;
                   lua_close ;;
                   g_free lua_folder ;;
                   g_free lua_file ;;
                   ret (-1)
               | Some lua_isfunction =>
                   (* Make sure that all the functions we need are there *)
                   match find (fun f => negb (lua_isfunction f)) lua_functions with
                   | Some _ =>
                       JANUS_LOG LOG_ERR "Function '%s' is missing in %s" ;;
                       lua_close ;;
                       g_free lua_folder ;;
                       g_free lua_file ;;
                       ret (-1)
                   | None =>
                       modify (fun st => set_has_incoming
                         (has_incoming_rtp st || lua_isfunction "incomingRtp")
                         (has_incoming_rtcp st || lua_isfunction "incomingRtcp")
                         (has_incoming_data st || lua_isfunction "incomingData") st) ;;
                       (* Init the Lua script, in case it's needed *)
                       lua_call (Some "init"%string)
                         [match conf with
                          | Some {| value := Some c |} => LString c
                          | _ => LNil
                          end] ;;
                       modify (set_sessions ∅) ;;
                       modify (set_ids ∅) ;;
                       modify (set_events []) ;;
                       (* Launch the scheduler thread *)
                       if spawn_ok then
                         emit (EvThreadNew "lua scheduler") ;;
                         g_free lua_folder ;;
                         g_free lua_file ;;
                         g_free lua_config ;;
                         modify (set_gateway callback) ;;
                         modify (set_initialized 1) ;;
                         JANUS_LOG LOG_INFO "%s initialized!" ;;
                         ret 0
                       else
                         modify (set_initialized 0) ;;
                         JANUS_LOG LOG_ERR
                           "Got error %d (%s) trying to launch the Lua scheduler thread..." ;;
                         lua_close ;;
                         g_free lua_folder ;;
                         g_free lua_file ;;
                         g_free lua_config ;;
                         ret (-1)
                   end
               end
         end
     | _, _ => ret (-1)
     end)%C.

(** ** The scheduler thread *)

Inductive scheduler_status :=
  | SchedulerRunning
  | SchedulerWaiting
  | SchedulerLeft.

(** while(g_atomic_int_get(&initialized) && !g_atomic_int_get(&stopping)) *)
Definition scheduler_condition : M bool :=
  (i <- gets initialized ;;
   sp <- gets stopping ;;
   ret (negb (i =? 0) && (sp =? 0)))%C.

(** One turn of the loop, from g_async_queue_pop to the next
    evaluation of the loop condition.  With an empty queue the pop
    blocks and the thread waits. *)
Definition janus_lua_scheduler_turn : M scheduler_status :=
  (queue <- gets events ;;
   match queue with
   | [] => ret SchedulerWaiting
   | ev :: rest =>
       modify (set_events rest) ;;
       match ev with
       | janus_lua_event_exit =>
           JANUS_LOG LOG_VERB "Leaving Lua scheduler thread" ;;
           ret SchedulerLeft
       | _ =>
           match ev with
           | janus_lua_event_resume =>
               (* There are coroutines to resume *)
               janus_mutex_lock lua_mutex ;;
               lua_call (Some "resumeScheduler"%string) [] ;;
               janus_mutex_unlock lua_mutex
           | _ => ret tt
           end ;;
           again <- scheduler_condition ;;
           if again : bool then ret SchedulerRunning
           else
             JANUS_LOG LOG_VERB "Leaving Lua scheduler thread" ;;
             ret SchedulerLeft
       end
   end)%C.

(** The turns the thread takes on the tokens of [queue] (the content of
    the event queue, oldest first), until it leaves or has to wait. *)
Fixpoint janus_lua_scheduler_loop (queue : list janus_lua_event) : M scheduler_status :=
  match queue with
  | [] => ret SchedulerWaiting
  | _ :: rest =>
      (status <- janus_lua_scheduler_turn ;;
       match status with
       | SchedulerRunning => janus_lua_scheduler_loop rest
       | _ => ret status
       end)%C
  end.

Definition janus_lua_scheduler : M scheduler_status :=
  (JANUS_LOG LOG_VERB "Joining Lua scheduler thread" ;;
   enter <- scheduler_condition ;;
   if enter : bool then
     queue <- gets events ;;
     janus_lua_scheduler_loop queue
   else
     JANUS_LOG LOG_VERB "Leaving Lua scheduler thread" ;;
     ret SchedulerLeft)%C.

(** g_hash_table_destroy(sessions): the value destructor
    janus_lua_session_destroy runs on every entry. *)
Fixpoint destroy_all (l : list (positive * positive)) : M unit :=
  match l with
  | [] => ret tt
  | (_, session) :: rest =>
      (janus_lua_session_destroy (Some session) ;; destroy_all rest)%C
  end.

(** g_thread_join(scheduler_thread) lets the scheduler, which waits in
    g_async_queue_pop, run until it leaves. *)
Definition janus_lua_destroy : M unit :=
  (i <- gets initialized ;;
   if i =? 0 then ret tt
   else
     modify (set_stopping 1) ;;
     modify (fun st => set_events (events st ++ [janus_lua_event_exit]) st) ;;
     queue <- gets events ;;
     _ <- janus_lua_scheduler_loop queue ;;
     (* Deinit the Lua script, in case it's needed *)
     janus_mutex_lock lua_mutex ;;
     lua_call (Some "destroy"%string) [] ;;
     janus_mutex_unlock lua_mutex ;;
     janus_mutex_lock sessions_mutex ;;
     all <- gets (fun st => map_to_list (sessions st)) ;;
     destroy_all all ;;
     modify (set_sessions ∅) ;;
     modify (set_ids ∅) ;;
     modify (set_events []) ;;
     janus_mutex_unlock sessions_mutex ;;
     janus_mutex_lock lua_mutex ;;
     lua_close ;;
     janus_mutex_unlock lua_mutex ;;
     modify (set_initialized 0) ;;
     modify (set_stopping 0) ;;
     JANUS_LOG LOG_INFO "%s destroyed!")%C.


(** ** Sessions *)

(** The loop that draws a session id: [draws] are the values
    janus_random_uint32 returns; zero and ids already in use are
    skipped. *)
Fixpoint draw_session_id (draws : list Z) (taken : gmap Z positive) : option Z :=
  match draws with
  | [] => None
  | r :: rest =>
      if r =? 0 then draw_session_id rest taken
      else if is_Some_b (taken !! r) then draw_session_id rest taken
      else Some r
  end.

(** g_hash_table_remove(sessions, handle): the entry goes and its value
    destructor janus_lua_session_destroy runs. *)
Definition g_hash_table_remove_sessions (h : positive) : M unit :=
  (old <- gets (fun st => sessions st !! h) ;;
   match old with
   | None => ret tt
   | Some session =>
       modify (fun st => set_sessions (delete h (sessions st)) st) ;;
       janus_lua_session_destroy (Some session)
   end)%C.

(** g_hash_table_insert(sessions, handle, session): a value already
    stored under the key is destroyed first. *)
Definition g_hash_table_insert_sessions (h session : positive) : M unit :=
  (old <- gets (fun st => sessions st !! h) ;;
   modify (fun st => set_sessions (<[h := session]> (sessions st)) st) ;;
   janus_lua_session_destroy old)%C.

(** The result is what the function writes to [*error], if anything. *)
Definition janus_lua_create_session (draws : list Z) (h : option positive)
    : M (option Z) :=
  (sp <- gets stopping ;;
   i <- gets initialized ;;
   if negb (sp =? 0) || (i =? 0) then ret (Some (-1))
   else
     janus_mutex_lock sessions_mutex ;;
     taken <- gets ids ;;
     match draw_session_id draws taken with
     | None => crash NoReturn
     | Some new_id =>
         JANUS_LOG LOG_VERB "Creating new Lua session %u..." ;;
         session <- fresh ;;
         modify (fun st => set_heap
           (<[session := {| handle := h; id := new_id;
                accept_audio := false; accept_video := false;
                accept_data := false; send_audio := false;
                send_video := false; send_data := false;
                bitrate := 0; pli_freq := 0; pli_latest := 0;
                rtpctx := janus_rtp_switching_context_reset;
                recipients := []; arc := None; vrc := None; drc := None;
                started := 0; hangingup := 0; destroyed := 0;
                ref := 1 |}]> (heap st)) st) ;;
         hs <- deref_handle h ;;
         match h with
         | None => crash NullDeref
         | Some hp =>
             modify (fun st => set_handles
               (<[hp := {| plugin_handle := Some session;
                           stopped := stopped hs |}]> (handles st)) st) ;;
             g_hash_table_insert_sessions hp session ;;
             modify (fun st => set_ids (<[new_id := session]> (ids st)) st) ;;
             janus_mutex_unlock sessions_mutex ;;
             (* Notify the Lua script *)
             janus_mutex_lock lua_mutex ;;
             lua_call (Some "createSession"%string) [LNumber new_id] ;;
             janus_mutex_unlock lua_mutex ;;
             ret None
         end
     end)%C.

Definition janus_lua_destroy_session (h : option positive) : M (option Z) :=
  (sp <- gets stopping ;;
   i <- gets initialized ;;
   if negb (sp =? 0) || (i =? 0) then ret (Some (-1))
   else
     hs <- deref_handle h ;;
     match h, plugin_handle hs with
     | Some hp, Some session =>
         ss <- deref session ;;
         let old_id := id ss in
         JANUS_LOG LOG_VERB "Removing Lua session %u..." ;;
         janus_mutex_lock sessions_mutex ;;
         g_hash_table_remove_sessions hp ;;
         janus_mutex_unlock sessions_mutex ;;
         (* Notify the Lua script *)
         janus_mutex_lock lua_mutex ;;
         lua_call (Some "destroySession"%string) [LNumber old_id] ;;
         janus_mutex_unlock lua_mutex ;;
         ret None
     | _, _ =>
         JANUS_LOG LOG_ERR "No session associated with this handle..." ;;
         ret (Some (-2))
     end)%C.

Definition janus_plugin_result_new (type : janus_plugin_result_type)
    (text : option string) (content : option positive) : M janus_plugin_result :=
  ret {| res_type := type; res_text := text; res_content := content |}.

(** lua_pushstring pushes nil for a NULL string. *)
Definition lua_pushstring (s : option string) : lua_value :=
  match s with
  | Some t => LString t
  | None => LNil
  end.

(** json_dumps of a document the plugin was handed; [dumps] is the
    serializer of jansson on the content of the document.  The text
    comes in a string allocated for it, which is the caller's to free. *)
Definition json_dumps (dumps : string -> option string) (j : positive)
    : M (option positive) :=
  (b <- gets (fun st => blocks st !! j) ;;
   match b with
   | Some (BJson t) =>
       match dumps t with
       | Some text => p <- alloc (BString text) ;; ret (Some p)
       | None => ret None
       end
   | _ => crash UseAfterFree
   end)%C.

(** The C string a char pointer leads to, for lua_pushstring. *)
Definition c_str (s : option positive) : M (option string) :=
  match s with
  | None => ret None
  | Some p =>
      (b <- gets (fun st => blocks st !! p) ;;
       match b with
       | Some (BString t) => ret (Some t)
       | _ => crash UseAfterFree
       end)%C
  end.

(** [reply]: the value the script leaves on the stack of the new
    thread.  The result is the document the function returns. *)
Definition janus_lua_query_session (reply : lua_value) (h : option positive)
    : M (option positive) :=
  (sp <- gets stopping ;;
   i <- gets initialized ;;
   if negb (sp =? 0) || (i =? 0) then ret None
   else
     hs <- deref_handle h ;;
     match plugin_handle hs with
     | None =>
         JANUS_LOG LOG_ERR "No session associated with this handle..." ;;
         ret None
     | Some session =>
         (* Ask the Lua script for information on this session *)
         janus_mutex_lock lua_mutex ;;
         ss <- deref session ;;
         lua_call (Some "querySession"%string) [LNumber (id ss)] ;;
         let info := value_tostring (Some reply) in
         (* We need a Jansson object *)
         json <- json_loads info ;;
         janus_mutex_unlock lua_mutex ;;
         match json with
         | None =>
             JANUS_LOG LOG_ERR "JSON error: on line %d: %s" ;;
             ret None
         | Some _ => ret json
         end
     end)%C.

(** [dumps]: the serializer behind json_dumps; [reply]: the stack of
    the new thread when lua_call returns. *)
Definition janus_lua_handle_message (dumps : string -> option string)
    (reply : list lua_value) (h : option positive)
    (transaction : option string) (message jsep : option positive)
    : M janus_plugin_result :=
  (sp <- gets stopping ;;
   i <- gets initialized ;;
   if negb (sp =? 0) || (i =? 0) then
     janus_plugin_result_new JANUS_PLUGIN_ERROR
       (Some (if negb (sp =? 0) then "Shutting down"%string
              else "Plugin not initialized"%string))
       None
   else
     hs <- deref_handle h ;;
     match plugin_handle hs with
     | None =>
         janus_plugin_result_new JANUS_PLUGIN_ERROR
           (Some "No session associated with this handle"%string) None
     | Some session =>
         (* Processing the message is up to the Lua script: serialize the
            Jansson objects to strings *)
         message_text <- match message with
                         | Some m => json_dumps dumps m
                         | None => ret None
                         end ;;
         json_decref message ;;
         jsep_text <- match jsep with
                      | Some j => json_dumps dumps j
                      | None => ret None
                      end ;;
         json_decref jsep ;;
         (* Invoke the script function *)
         janus_mutex_lock lua_mutex ;;
         ss <- deref session ;;
         message_str <- c_str message_text ;;
         jsep_str <- c_str jsep_text ;;
         lua_call (Some "handleMessage"%string)
           [LNumber (id ss); lua_pushstring transaction;
            lua_pushstring message_str; lua_pushstring jsep_str] ;;
         let n := lua_gettop reply in
         if negb (n =? 2) then
           janus_mutex_unlock lua_mutex ;;
           JANUS_LOG LOG_ERR "Wrong number of arguments: %d (expected 2)" ;;
           janus_plugin_result_new JANUS_PLUGIN_ERROR (Some "Lua error"%string) None
         else
           (* Check if this is a synchronous or asynchronous response *)
           let res := to_int (lua_tonumber reply 1) in
           let response := lua_tostring reply 2 in
           if res <? 0 then
             (* We got an error *)
             janus_mutex_unlock lua_mutex ;;
             janus_plugin_result_new JANUS_PLUGIN_ERROR
               (Some (default "Lua error"%string response)) None
           else if res =? 0 then
             (* Synchronous response: we need a Jansson object *)
             json <- json_loads response ;;
             janus_mutex_unlock lua_mutex ;;
             match json with
             | None =>
                 JANUS_LOG LOG_ERR "JSON error: on line %d: %s" ;;
                 janus_plugin_result_new JANUS_PLUGIN_ERROR
                   (Some "Lua error"%string) None
             | Some _ => janus_plugin_result_new JANUS_PLUGIN_OK None json
             end
           else
             janus_mutex_unlock lua_mutex ;;
             (* If we got here, it's an asynchronous response *)
             janus_plugin_result_new JANUS_PLUGIN_OK_WAIT None None
     end)%C.

(** [now]: what janus_get_monotonic_time returns. *)
Definition janus_lua_setup_media (now : Z) (h : option positive) : M unit :=
  (JANUS_LOG LOG_INFO "WebRTC media is now available" ;;
   sp <- gets stopping ;;
   i <- gets initialized ;;
   if negb (sp =? 0) || (i =? 0) then ret tt
   else
     hs <- deref_handle h ;;
     match plugin_handle hs with
     | None => JANUS_LOG LOG_ERR "No session associated with this handle..."
     | Some session =>
         ss <- deref session ;;
         if negb (destroyed ss =? 0) then ret tt
         else
           store session (set_hangingup 0) ;;
           store session (set_started 1) ;;
           store session (set_pli_latest now) ;;
           (* Notify the Lua script *)
           janus_mutex_lock lua_mutex ;;
           lua_call (Some "setupMedia"%string) [LNumber (id ss)] ;;
           janus_mutex_unlock lua_mutex
     end)%C.

(** ** Buffers of the core

    A buffer the core hands over is [buf] with its length [len]: the
    bytes that are read are the first [len] ones. *)
Definition first_bytes_of (buf : string) (len : Z) : string :=
  substring 0 (Z.to_nat len) buf.

(** lua_pushlstring(t, buf, len) *)
Definition lua_pushlstring (buf : string) (len : Z) : lua_value :=
  LString (first_bytes_of buf len).

(** g_malloc0(n): a zeroed block, and NULL for a size that is not
    positive (g_malloc0(0) is NULL). *)
Definition g_malloc0 (n : Z) : M (option positive) :=
  if n <=? 0 then ret None
  else (p <- alloc (BString EmptyString) ;; ret (Some p))%C.

(** memcpy(dst, src, n) into a zeroed block of n + 1 bytes, which
    leaves the copy terminated by a NUL byte. *)
Definition memcpy (dst : positive) (src : string) (n : Z) : M unit :=
  modify (fun st => set_blocks (<[dst := BString (first_bytes_of src n)]> (blocks st))
                      (next_block st) st).

(** ** Relaying *)

(** Helpers to quickly relay RTP and data packets to the intended
    recipients; the packet is returned as the helper leaves it. *)
Definition janus_lua_relay_rtp_packet (data : option positive)
    (packet : janus_lua_rtp_relay_packet) : M janus_lua_rtp_relay_packet :=
  match pkt_data packet with
  | None => (JANUS_LOG LOG_ERR "Invalid packet..." ;; ret packet)%C
  | Some hdr =>
      if pkt_length packet <? 1 then
        (JANUS_LOG LOG_ERR "Invalid packet..." ;; ret packet)%C
      else
        match data with
        | None => ret packet
        | Some session =>
            (ss <- deref session ;;
             if negb (is_Some_b (handle ss)) || (started ss =? 0) then ret packet
             else if (pkt_is_video packet && negb (accept_video ss))
                     || (negb (pkt_is_video packet) && negb (accept_audio ss))
             then ret packet
             else
               (* Fix sequence number and timestamp *)
               let '(hdr', ctx') :=
                 janus_rtp_header_update hdr (rtpctx ss) (pkt_is_video packet)
                   (if pkt_is_video packet then 4500 else 960) in
               store session (set_rtpctx ctx') ;;
               (* Send the packet *)
               gw <- gets gateway ;;
               (if gw : bool then
                  emit (EvRelayRtp (handle ss) (pkt_is_video packet)
                          (RtpPacket hdr') (pkt_length packet))
                else ret tt) ;;
               (* Restore the timestamp and sequence number *)
               ret {| pkt_data := Some
                        {| first_bytes := first_bytes hdr';
                           seq_number := htons (pkt_seq_number packet);
                           timestamp := htonl (pkt_timestamp packet);
                           ssrc := ssrc hdr' |};
                      pkt_length := pkt_length packet;
                      pkt_is_video := pkt_is_video packet;
                      pkt_timestamp := pkt_timestamp packet;
                      pkt_seq_number := pkt_seq_number packet |})%C
        end
  end.

Definition janus_lua_relay_data_packet (data : option positive)
    (text : option string) : M unit :=
  match data with
  | None => ret tt
  | Some session =>
      (ss <- deref session ;;
       if negb (is_Some_b (handle ss)) || (started ss =? 0)
          || negb (accept_data ss) then ret tt
       else
         gw <- gets gateway ;;
         match gw, text with
         | true, Some t =>
             JANUS_LOG LOG_VERB
               "Forwarding DataChannel message (%zu bytes) to session %u: %s" ;;
             emit (EvRelayData (handle ss) (Bytes t)
                     (Z.of_nat (String.length (c_string t))))
         | _, _ => ret tt
         end)%C
  end.

(** g_slist_foreach over the recipients, for the two helpers. *)
Fixpoint foreach_relay_rtp (l : list positive)
    (packet : janus_lua_rtp_relay_packet) : M janus_lua_rtp_relay_packet :=
  match l with
  | [] => ret packet
  | r :: rest =>
      (packet' <- janus_lua_relay_rtp_packet (Some r) packet ;;
       foreach_relay_rtp rest packet')%C
  end.

Fixpoint foreach_relay_data (l : list positive) (text : option string) : M unit :=
  match l with
  | [] => ret tt
  | r :: rest =>
      (janus_lua_relay_data_packet (Some r) text ;;
       foreach_relay_data rest text)%C
  end.

(** The result is the content of the packet buffer when the function
    returns.  [now]: what janus_get_monotonic_time returns. *)
Definition janus_lua_incoming_rtp (now : Z) (h : option positive)
    (video : bool) (buf : option rtp_header) (len : Z) : M (option rtp_header) :=
  match h with
  | None => ret buf
  | Some _ =>
      (hs <- deref_handle h ;;
       sp <- gets stopping ;;
       i <- gets initialized ;;
       if negb (stopped hs =? 0) || negb (sp =? 0) || (i =? 0) then ret buf
       else
         match plugin_handle hs with
         | None =>
             JANUS_LOG LOG_ERR "No session associated with this handle..." ;;
             ret buf
         | Some session =>
             ss <- deref session ;;
             if negb (destroyed ss =? 0) || negb (hangingup ss =? 0) then ret buf
             else
               has <- gets has_incoming_rtp ;;
               if has : bool then
                 (* Yep, pass the data to the Lua script and return *)
                 janus_mutex_lock lua_mutex ;;
                 (* no lua_getglobal here; the packet bytes are not modelled *)
                 lua_call None
                   [LNumber (id ss); LBoolean video; LNil; LNumber len] ;;
                 janus_mutex_unlock lua_mutex ;;
                 ret buf
               else if (video && negb (send_video ss))
                       || (negb video && negb (send_audio ss)) then ret buf
               else
                 (* Are we recording? *)
                 janus_recorder_save_frame
                   (if video then vrc ss else arc ss) buf len ;;
                 (* Handle the packet *)
                 match buf with
                 | None => crash NullDeref
                 | Some rtp =>
                     let packet :=
                       {| pkt_data := Some rtp;
                          pkt_length := len;
                          pkt_is_video := video;
                          pkt_timestamp := ntohl (timestamp rtp);
                          pkt_seq_number := ntohs (seq_number rtp) |} in
                     (* Relay to all recipients *)
                     janus_mutex_lock (recipients_mutex session) ;;
                     packet' <- foreach_relay_rtp (recipients ss) packet ;;
                     janus_mutex_unlock (recipients_mutex session) ;;
                     (* Check if we need to send any PLI to this media source *)
                     ss' <- deref session ;;
                     (if video && (0 <? pli_freq ss') then
                        if pli_freq ss' * G_USEC_PER_SEC <=? now - pli_latest ss' then
                          store session (set_pli_latest now) ;;
                          JANUS_LOG LOG_HUGE "Sending PLI to session %u" ;;
                          gateway_call (EvRelayRtcp h true RtcpPli 12)
                        else ret tt
                      else ret tt) ;;
                     ret (pkt_data packet')
                 end
         end)%C
  end.


Definition janus_lua_incoming_rtcp (h : option positive) (video : bool)
    (buf : string) (len : Z) : M unit :=
  match h with
  | None => ret tt
  | Some _ =>
      (hs <- deref_handle h ;;
       sp <- gets stopping ;;
       i <- gets initialized ;;
       if negb (stopped hs =? 0) || negb (sp =? 0) || (i =? 0) then ret tt
       else
         match plugin_handle hs with
         | None => JANUS_LOG LOG_ERR "No session associated with this handle..."
         | Some session =>
             ss <- deref session ;;
             if negb (destroyed ss =? 0) || negb (hangingup ss =? 0) then ret tt
             else
               has <- gets has_incoming_rtcp ;;
               if has : bool then
                 janus_mutex_lock lua_mutex ;;
                 lua_call (Some "incomingRtcp"%string)
                   [LNumber (id ss); LBoolean video; lua_pushlstring buf len;
                    LNumber len] ;;
                 janus_mutex_unlock lua_mutex
               else
                 (* If a REMB arrived, make sure we cap it to our configuration *)
                 let remb := janus_rtcp_get_remb buf len in
                 if 0 <? remb then
                   if 0 <? bitrate ss then
                     gateway_call (EvRelayRtcp h true (RtcpRemb (bitrate ss)) 24)
                   else
                     gateway_call (EvRelayRtcp h true (Bytes buf) len)
                 else ret tt
         end)%C
  end.

Definition janus_lua_incoming_data (h : option positive) (buf : string) (len : Z)
    : M unit :=
  match h with
  | None => ret tt
  | Some _ =>
      (hs <- deref_handle h ;;
       sp <- gets stopping ;;
       i <- gets initialized ;;
       if negb (stopped hs =? 0) || negb (sp =? 0) || (i =? 0) then ret tt
       else
         match plugin_handle hs with
         | None => JANUS_LOG LOG_ERR "No session associated with this handle..."
         | Some session =>
             ss <- deref session ;;
             if negb (destroyed ss =? 0) || negb (hangingup ss =? 0) then ret tt
             else
               has <- gets has_incoming_data ;;
               if has : bool then
                 janus_mutex_lock lua_mutex ;;
                 lua_call (Some "incomingData"%string)
                   [LNumber (id ss); lua_pushlstring buf len; LNumber len] ;;
                 janus_mutex_unlock lua_mutex
               else if negb (send_data ss) then ret tt
               else
                 (* Are we recording? *)
                 janus_recorder_save_frame (drc ss) None len ;;
                 (* Get a string out of the data *)
                 text <- g_malloc0 (len + 1) ;;
                 match text with
                 | None => JANUS_LOG LOG_FATAL "Memory error!"
                 | Some text =>
                     memcpy text buf len ;;
                     let copy := first_bytes_of buf len in
                     JANUS_LOG LOG_VERB
                       "Got a DataChannel message (%zu bytes) to forward: %s" ;;
                     (* Relay to all recipients *)
                     janus_mutex_lock (recipients_mutex session) ;;
                     foreach_relay_data (recipients ss) (Some copy) ;;
                     janus_mutex_unlock (recipients_mutex session) ;;
                     g_free (Some text)
                 end
         end)%C
  end.

Definition janus_lua_slow_link (h : option positive) (uplink video : bool)
    : M unit :=
  match h with
  | None => ret tt
  | Some _ =>
      (hs <- deref_handle h ;;
       sp <- gets stopping ;;
       i <- gets initialized ;;
       if negb (stopped hs =? 0) || negb (sp =? 0) || (i =? 0) then ret tt
       else
         match plugin_handle hs with
         | None => JANUS_LOG LOG_ERR "No session associated with this handle..."
         | Some session =>
             ss <- deref session ;;
             if negb (destroyed ss =? 0) || negb (hangingup ss =? 0) then ret tt
             else ret tt
         end)%C
  end.

(** while(session->recipients): the first recipient is unlinked and
    both references of the relation are dropped; [l] is the list the
    loop works through. *)
Fixpoint hangup_recipients (session : positive) (l : list positive) : M unit :=
  match l with
  | [] => ret tt
  | recipient :: rest =>
      (store session (fun x =>
         set_recipients (g_slist_remove (recipients x) recipient) x) ;;
       janus_refcount_decrease session ;;
       janus_refcount_decrease recipient ;;
       hangup_recipients session rest)%C
  end.

Definition janus_lua_hangup_media (h : option positive) : M unit :=
  (JANUS_LOG LOG_INFO "No WebRTC media anymore" ;;
   sp <- gets stopping ;;
   i <- gets initialized ;;
   if negb (sp =? 0) || (i =? 0) then ret tt
   else
     hs <- deref_handle h ;;
     match plugin_handle hs with
     | None => JANUS_LOG LOG_ERR "No session associated with this handle..."
     | Some session =>
         ss <- deref session ;;
         if negb (destroyed ss =? 0) then ret tt
         else
           store session (set_hangingup (hangingup ss + 1)) ;;
           if negb (hangingup ss =? 0) then ret tt
           else
             store session (set_started 0) ;;
             (* Reset the media properties *)
             store session (set_flags (false, false, false, false, false, false)) ;;
             store session (set_rates 0 0 0) ;;
             store session (set_rtpctx janus_rtp_switching_context_reset) ;;
             (* Get rid of the recipients *)
             janus_mutex_lock (recipients_mutex session) ;;
             hangup_recipients session (recipients ss) ;;
             janus_mutex_unlock (recipients_mutex session) ;;
             (* Notify the Lua script *)
             janus_mutex_lock lua_mutex ;;
             lua_call (Some "hangupMedia"%string) [LNumber (id ss)] ;;
             janus_mutex_unlock lua_mutex
     end)%C.


(** ** What the code decides, read off the state *)

(** The session an id resolves to in the call-outs that test the
    destroyed flag. *)
Definition lookup_by_id (st : plugin_state) (sid : Z) : option positive :=
  match ids st !! sid with
  | Some p =>
      match heap st !! p with
      | Some ss => if destroyed ss =? 0 then Some p else None
      | None => None
      end
  | None => None
  end.

(** Every id of the registry leads to a session that is allocated,
    carries that id and is referenced at least once. *)
Definition registry_ok (st : plugin_state) : bool :=
  forallb (fun e : Z * positive =>
             match heap st !! e.2 with
             | Some ss => (0 <? ref ss) && (id ss =? e.1)
             | None => false
             end)
          (map_to_list (ids st)).

End Bridge.

(** ** Observations on traces and queues *)

Definition is_resume_call (e : event) : bool :=
  match e with
  | EvLuaCall (Some fn) [] => String.eqb fn "resumeScheduler"
  | _ => false
  end.

(** How many times the script was asked to resume its coroutines. *)
Fixpoint resume_calls (tr : list event) : nat :=
  match tr with
  | [] => 0
  | e :: rest => (if is_resume_call e then 1 else 0) + resume_calls rest
  end%nat.

Definition is_resume_token (ev : janus_lua_event) : bool :=
  match ev with
  | janus_lua_event_resume => true
  | _ => false
  end.

Fixpoint resume_tokens (q : list janus_lua_event) : nat :=
  match q with
  | [] => 0
  | ev :: rest => (if is_resume_token ev then 1 else 0) + resume_tokens rest
  end%nat.

(** A session without what the fan-out to a recipient may change in
    it, the switching context; and without what an incoming packet may
    change in it, which adds the time of the last keyframe request. *)
Definition ctxless (s : janus_lua_session) : janus_lua_session :=
  set_rtpctx [] s.

Definition timeless (s : janus_lua_session) : janus_lua_session :=
  set_pli_latest 0 (ctxless s).

(** The plugin state without the trace, without the frames written to
    the recorders, and with every session seen through [norm]. *)
Definition frame_by (norm : janus_lua_session -> janus_lua_session)
    (st : plugin_state) : plugin_state :=
  set_trace [] (set_recorder_store ∅ (set_heap (norm <$> heap st) st)).

Definition frame : plugin_state -> plugin_state := frame_by timeless.

(** What the fan-out over the recipients may add to the trace. *)
Definition fanout_event (e : event) : bool :=
  match e with
  | EvRelayRtp _ _ _ _ | EvRelayData _ _ _ | EvLog _ _ => true
  | _ => false
  end.

Definition is_recipient_relay (e : event) : bool :=
  match e with
  | EvRelayRtp _ _ _ _ | EvRelayData _ _ _ => true
  | _ => false
  end.

Definition no_relay (tr : list event) : bool :=
  forallb (fun e => negb (is_recipient_relay e)) tr.

(** The events of one incoming packet: nothing is relayed at all, or
    the relays sit between the lock and the unlock of the recipients
    mutex of the source session. *)
Definition relay_trace (p : positive) (new : list event) : Prop :=
  no_relay new = true \/
  exists pre evs post,
    new = pre ++ EvLock (recipients_mutex p) :: evs
              ++ EvUnlock (recipients_mutex p) :: post
    /\ no_relay pre = true /\ forallb fanout_event evs = true
    /\ no_relay post = true.

Definition mutex_eqb (a b : mutex) : bool :=
  match a, b with
  | sessions_mutex, sessions_mutex | lua_mutex, lua_mutex => true
  | recipients_mutex p, recipients_mutex q | rec_mutex p, rec_mutex q => Pos.eqb p q
  | _, _ => false
  end.

(** Walks a trace and checks every relay to a recipient against the
    state of the mutex [m] at that moment: with [want = true] the
    relays must happen while [m] is held, with [want = false] while it
    is not.  [held] is the state of the mutex at the start. *)
Fixpoint relays_while (m : mutex) (want held : bool) (tr : list event) : bool :=
  match tr with
  | [] => true
  | EvLock m' :: rest =>
      relays_while m want (if mutex_eqb m m' then true else held) rest
  | EvUnlock m' :: rest =>
      relays_while m want (if mutex_eqb m m' then false else held) rest
  | e :: rest =>
      (if is_recipient_relay e then Bool.eqb held want else true)
      && relays_while m want held rest
  end.

Definition valid_header (rtp : rtp_header) : bool :=
  (0 <=? seq_number rtp) && (seq_number rtp <? 65536)
  && (0 <=? timestamp rtp) && (timestamp rtp <? 4294967296).

(** Keyframe requests at [times], each at least [gap] after the one
    before, the first at least [gap] after [last]. *)
Fixpoint spaced (gap last : Z) (times : list Z) : Prop :=
  match times with
  | [] => True
  | t :: rest => gap <= t - last /\ spaced gap t rest
  end.

Definition is_pli (e : event) : bool :=
  match e with
  | EvRelayRtcp _ _ RtcpPli _ => true
  | _ => false
  end.

(** How many keyframe requests went out. *)
Fixpoint pli_count (tr : list event) : nat :=
  match tr with
  | [] => 0
  | e :: rest => (if is_pli e then 1 else 0) + pli_count rest
  end%nat.

(** The handle is known to the plugin, the core callbacks are set, and
    the session of the handle and its recipients are allocated. *)
Definition relay_ready (st : plugin_state) (h : positive) : bool :=
  gateway st &&
  match handles st !! h with
  | Some hs =>
      match plugin_handle hs with
      | Some p =>
          match heap st !! p with
          | Some ss => forallb (fun r => is_Some_b (heap st !! r)) (recipients ss)
          | None => false
          end
      | None => true
      end
  | None => false
  end.

Section PacketBackup.
Context `{!environment}.

(** The backup in the relay packet still describes the header the
    source sent: the buffer holds the original sequence number and
    timestamp, and the saved host-order values convert back to them. *)
Definition packet_backs (orig : rtp_header) (packet : janus_lua_rtp_relay_packet) : Prop :=
  exists hdr,
    pkt_data packet = Some hdr /\
    seq_number hdr = seq_number orig /\ timestamp hdr = timestamp orig /\
    htons (pkt_seq_number packet) = seq_number orig /\
    htonl (pkt_timestamp packet) = timestamp orig.

(** A sequence of incoming video packets on one handle, each with the
    time at which it arrives; the result lists the arrival times of the
    packets that made the plugin send a keyframe request. *)
Fixpoint incoming_video_packets (h : positive)
    (packets : list (Z * rtp_header * Z)) : M (list Z) :=
  match packets with
  | [] => ret []
  | (now, rtp, len) :: rest =>
      (before <- gets (fun st => pli_count (trace st)) ;;
       _ <- janus_lua_incoming_rtp now (Some h) true (Some rtp) len ;;
       after <- gets (fun st => pli_count (trace st)) ;;
       sent <- incoming_video_packets h rest ;;
       ret (if (before <? after)%nat then now :: sent else sent))%C
  end.

End PacketBackup.

(** ** The net effect of linking and unlinking a recipient

    What addRecipient does to the heap when the recipient is new to the
    list, and what removeRecipient does to it when the recipient is in
    the list: one reference more (or less) on both sessions, and the
    list entry.  Written with [alter] so that a session that is its own
    recipient is counted twice. *)
Definition add_link (pA pB : positive) (hp : gmap positive janus_lua_session)
    : gmap positive janus_lua_session :=
  alter (fun s => set_ref (ref s + 1) s) pB
    (alter (fun s => set_recipients (g_slist_append (recipients s) pB)
                       (set_ref (ref s + 1) s)) pA hp).

Definition remove_link (pA pB : positive) (hp : gmap positive janus_lua_session)
    : gmap positive janus_lua_session :=
  alter (fun s => set_ref (ref s - 1) s) pB
    (alter (fun s => set_recipients (g_slist_remove (recipients s) pB)
                       (set_ref (ref s - 1) s)) pA hp).

(** A call repeated [n] times, as long as it answers 0. *)
Fixpoint repeated (n : nat) (call : M Z) : M Z :=
  match n with
  | O => ret 0
  | S k => (r <- call ;; if r =? 0 then repeated k call else ret r)%C
  end.

(** ** Looking a session up by its handle

    The handle-keyed table, and the back-pointer handle->plugin_handle
    that the callbacks of the plugin follow. *)
Definition lookup_by_handle (st : plugin_state) (h : positive) : option positive :=
  sessions st !! h.

Definition back_pointer (st : plugin_state) (h : positive) : option positive :=
  match handles st !! h with
  | Some hs => plugin_handle hs
  | None => None
  end.

(** Allocation has not run past the bump counter: no block lives at
    or above the next free pointer. *)
Definition blocks_fresh (st : plugin_state) : Prop :=
  forall q, (next_block st <= q)%positive -> blocks st !! q = None.

(** The duplicate tests of startRecording, by medium: is the medium
    named by [type] already being recorded for the session? *)
Definition already_recording (type : string) (ss : janus_lua_session) : bool :=
  if strcasecmp type "audio" =? 0 then is_Some_b (arc ss)
  else if strcasecmp type "video" =? 0 then is_Some_b (vrc ss)
  else if strcasecmp type "data" =? 0 then is_Some_b (drc ss)
  else false.

(** ** Rejected calls

    A call-out that turns its arguments down answers -1 and leaves one
    line in the log, nothing else. *)
Definition rejected (st : plugin_state) (o : outcome Z) : Prop :=
  exists msg, o = Done (-1) (set_trace (trace st ++ [EvLog LOG_ERR msg]) st).

(** ** Recording, by medium

    startRecording and stopRecording tell three media apart by name
    (ignoring case); a recording request is a group of four arguments:
    medium, codec, folder and file name. *)
Inductive medium := Audio | Video | Data.

#[global] Instance medium_eq_dec : EqDecision medium.
Proof. solve_decision. Defined.

Definition medium_of (type : string) : option medium :=
  if strcasecmp type "audio" =? 0 then Some Audio
  else if strcasecmp type "video" =? 0 then Some Video
  else if strcasecmp type "data" =? 0 then Some Data
  else None.

Definition recorder_of (m : medium) (ss : janus_lua_session) : option positive :=
  match m with
  | Audio => arc ss
  | Video => vrc ss
  | Data => drc ss
  end.

Definition set_recorder_of (m : medium) (rc : option positive)
    (ss : janus_lua_session) : janus_lua_session :=
  match m with
  | Audio => set_arc rc ss
  | Video => set_vrc rc ss
  | Data => set_drc rc ss
  end.

Definition local_of (m : medium) (loc : recorder_locals) : option positive :=
  let '(a, v, d) := loc in
  match m with
  | Audio => a
  | Video => v
  | Data => d
  end.

Definition set_local (m : medium) (rc : option positive) (loc : recorder_locals)
    : recorder_locals :=
  let '(a, v, d) := loc in
  match m with
  | Audio => (rc, v, d)
  | Video => (a, rc, d)
  | Data => (a, v, rc)
  end.

Definition recording_spec : Type := lua_value * lua_value * lua_value * lua_value.

Definition spec_args (specs : list recording_spec) : list lua_value :=
  flat_map (fun spec : recording_spec =>
              let '(type, codec, folder, filename) := spec in
              [type; codec; folder; filename]) specs.

(** A recorder as janus_recorder_create leaves it: open, no frame
    written. *)
Definition new_recorder (folder codec filename : option string) : janus_recorder :=
  {| rec_folder := folder; rec_codec := codec; rec_filename := filename;
     rec_writable := true; rec_frames := [] |}.

(** No recorder lives at or above the next free pointer. *)
Definition recorders_fresh (st : plugin_state) : Prop :=
  forall q, (next_block st <= q)%positive -> recorders st !! q = None.

(** What the three janus_recorder_free calls of the error path of
    startRecording leave of a recorder store. *)
Definition free_locals (loc : recorder_locals)
    (rs : gmap positive janus_recorder) : gmap positive janus_recorder :=
  let '(a, v, d) := loc in
  let drop rc m := match rc with Some r => delete r m | None => m end in
  drop d (drop v (drop a rs)).

Section RecordingSpecs.
Context `{!environment}.

(** The request names the medium [m]. *)
Definition has_medium (spec : recording_spec) (m : medium) : Prop :=
  exists ty, value_tostring (Some spec.1.1.1) = Some ty /\ medium_of ty = Some m.

(** Does janus_recorder_create succeed for the request? *)
Definition spec_creates (spec : recording_spec) : bool :=
  let '(_, codec, folder, filename) := spec in
  janus_recorder_create_ok (value_tostring (Some folder))
    (value_tostring (Some codec)) (value_tostring (Some filename)).

(** The state after janus_recorder_create has opened a recorder. *)
Definition created (folder codec filename : option string) (st : plugin_state)
    : plugin_state :=
  set_recorder_store
    (<[next_block st := new_recorder folder codec filename]> (recorders st))
    (set_blocks (blocks st) (Pos.succ (next_block st)) st).

End RecordingSpecs.

(** What stopRecording does for one medium name, on the session and
    the recorder store: the recorder of a medium that is being recorded
    goes and the field is cleared; anything else changes nothing. *)
Definition stop_medium (type : string)
    (x : janus_lua_session * gmap positive janus_recorder)
    : janus_lua_session * gmap positive janus_recorder :=
  match medium_of type with
  | Some m =>
      match recorder_of m x.1 with
      | Some r => (set_recorder_of m None x.1, delete r x.2)
      | None => x
      end
  | None => x
  end.

Definition stop_media (types : list string)
    (x : janus_lua_session * gmap positive janus_recorder)
    : janus_lua_session * gmap positive janus_recorder :=
  foldl (fun acc type => stop_medium type acc) x types.

(** ** Documents handed to the script

    The text json_dumps gives for a document of the block store;
    [dumps] is the serializer of jansson. *)
Definition dumped (dumps : string -> option string) (st : plugin_state)
    (doc : option positive) : option string :=
  match doc with
  | Some j =>
      match blocks st !! j with
      | Some (BJson t) => dumps t
      | _ => None
      end
  | None => None
  end.

(** The pointer is NULL or leads to a JSON document. *)
Definition is_document (st : plugin_state) (doc : option positive) : Prop :=
  match doc with
  | Some j => exists t, blocks st !! j = Some (BJson t)
  | None => True
  end.

(** The plugin is initialized and not shutting down. *)
Definition active (st : plugin_state) : Prop :=
  initialized st <> 0 /\ stopping st = 0.

(** janus_plugin_result_new(JANUS_PLUGIN_ERROR, text, NULL). *)
Definition error_result (text : string) : janus_plugin_result :=
  {| res_type := JANUS_PLUGIN_ERROR; res_text := Some text; res_content := None |}.

Definition is_log (e : event) : bool :=
  match e with
  | EvLog _ _ => true
  | _ => false
  end.

(** The state after json_decref on a document the plugin was handed. *)
Definition released (doc : option positive) (st : plugin_state) : plugin_state :=
  match doc with
  | Some m => set_blocks (delete m (blocks st)) (next_block st) st
  | None => st
  end.

(** json_dumps followed by json_decref on a document the plugin was
    handed: the pointer to the text (NULL when the document is absent
    or cannot be serialized) and the state afterwards, in which the
    text has a block of its own and the document is released. *)
Definition serialized (dumps : string -> option string) (doc : option positive)
    (st : plugin_state) : option positive * plugin_state :=
  match dumped dumps st doc with
  | Some text =>
      (Some (next_block st),
       released doc
         (set_blocks (<[next_block st := BString text]> (blocks st))
            (Pos.succ (next_block st)) st))
  | None => (None, released doc st)
  end.

(** ** The configuration of the plugin *)

(** The file janus_lua_init reads. *)
Definition config_filename (path : string) : string :=
  g_snprintf 255 (path ++ "/" ++ JANUS_LUA_PACKAGE ++ ".cfg").

(** item ? item->value : NULL *)
Definition item_text (item : option janus_config_item) : option string :=
  match item with
  | Some it => value it
  | None => None
  end.

Section Configuration.
Context `{!environment}.

(** The configuration file, when it loads, has a script item. *)
Definition script_configured (path : string) : bool :=
  match janus_config_parse (config_filename path) with
  | Some config =>
      is_Some_b (janus_config_get_item_drilldown config "general" "script")
  | None => true
  end.

End Configuration.

(** ** Media callbacks of the core

    The handle is stopped, the plugin is not active, or the session of
    the handle is destroyed or hanging up. *)
Definition gated (st : plugin_state) (hs : janus_plugin_session) : Prop :=
  stopped hs <> 0 \/ ~ active st \/
  exists p ss, plugin_handle hs = Some p /\ heap st !! p = Some ss /\
               (destroyed ss <> 0 \/ hangingup ss <> 0).

(** The handle has a live session that is not hanging up, in an active
    plugin. *)
Definition flowing (st : plugin_state) (hs : janus_plugin_session)
    (p : positive) (ss : janus_lua_session) : Prop :=
  stopped hs = 0 /\ active st /\ plugin_handle hs = Some p /\
  heap st !! p = Some ss /\ destroyed ss = 0 /\ hangingup ss = 0.

(** ** Hanging up

    The session janus_lua_hangup_media leaves behind when it had [n]
    recipients ([reset] is the cleared switching context), and what the
    loop over the recipients relies on: no recipient is listed twice,
    the session is not its own recipient, and the session and each
    recipient hold the references of the links besides their own. *)
Definition hung_up (reset : list Z) (n : nat) (ss : janus_lua_session) : janus_lua_session :=
  set_ref (ref ss - Z.of_nat n)
    (set_recipients []
       (set_rtpctx reset
          (set_rates 0 0 0
             (set_flags (false, false, false, false, false, false)
                (set_started 0 (set_hangingup 1 ss)))))).

Definition linked (st : plugin_state) (p : positive) (ss : janus_lua_session) : Prop :=
  NoDup (recipients ss) /\ (p ∉ recipients ss) /\
  Z.of_nat (length (recipients ss)) < ref ss /\
  forall r, r ∈ recipients ss -> exists sr, heap st !! r = Some sr /\ 1 < ref sr.

(** ** Forwarding a data message

    The handles of the recipients that take data (a handle, a
    PeerConnection that is up, data accepted), in the order of the
    list, and what forwarding the text [buf] to them shows to the
    outside: the text goes with its length as a C string. *)
Definition data_targets (hp : gmap positive janus_lua_session) (l : list positive)
    : list positive :=
  omap (fun r =>
          match hp !! r with
          | Some sr =>
              if negb (started sr =? 0) && accept_data sr then handle sr else None
          | None => None
          end) l.

Definition data_relays (buf : string) (targets : list positive) : list event :=
  flat_map (fun t =>
              [EvLog LOG_VERB
                 "Forwarding DataChannel message (%zu bytes) to session %u: %s";
               EvRelayData (Some t) (Bytes buf)
                 (Z.of_nat (String.length (c_string buf)))]) targets.

(** ** Shutting down

    What g_hash_table_destroy(sessions) relies on: every session of
    the handle-keyed table is allocated and points back to a handle the
    core still has, and no session is stored under two handles. *)
Definition sessions_ok (st : plugin_state) : Prop :=
  (forall h p, sessions st !! h = Some p ->
     exists ss h' hs,
       heap st !! p = Some ss /\ handle ss = Some h' /\ handles st !! h' = Some hs) /\
  (forall h1 h2 p,
     sessions st !! h1 = Some p -> sessions st !! h2 = Some p -> h1 = h2).

(** The session is freed, or flagged as destroyed. *)
Definition gone (st : plugin_state) (p : positive) : Prop :=
  match heap st !! p with
  | Some ss => destroyed ss <> 0
  | None => True
  end.

(** ** A sample environment and sample states

    Concrete inputs on which the functions are run further down. *)

Definition sample_header_update (hdr : rtp_header) (ctx : list Z)
    (video : bool) (step : Z) : rtp_header * list Z :=
  ({| first_bytes := first_bytes hdr;
      seq_number := (seq_number hdr + 257) mod 65536;
      timestamp := (timestamp hdr + step) mod 4294967296;
      ssrc := ssrc hdr |}, step :: ctx).

Definition sample_env : environment :=
  {| lua_str2number := fun _ => None;
     lua_number2str := fun _ => "0"%string;
     json_loads_ok := fun t => negb (String.eqb t "");
     janus_recorder_create_ok := fun _ _ _ => true;
     janus_rtp_header_update := sample_header_update;
     janus_rtp_switching_context_reset := [];
     big_endian_host := false;
     janus_config_parse := fun _ =>
       Some [("general"%string,
              [ {| item_name := "path"; value := Some "/opt/lua"%string |} ])];
     luaL_dofile := fun _ => Some (fun _ => true);
     janus_rtcp_get_remb := fun _ _ => 0 |}.

Definition sample_session (h : positive) (sid : Z) : janus_lua_session :=
  {| handle := Some h; id := sid;
     accept_audio := false; accept_video := false; accept_data := false;
     send_audio := false; send_video := false; send_data := false;
     bitrate := 0; pli_freq := 0; pli_latest := 0;
     rtpctx := []; recipients := [];
     arc := None; vrc := None; drc := None;
     started := 0; hangingup := 0; destroyed := 0; ref := 1 |}.

Definition empty_state : plugin_state :=
  {| initialized := 1; stopping := 0; gateway := true; lua_state := true;
     has_incoming_rtp := false; has_incoming_rtcp := false;
     has_incoming_data := false;
     heap := ∅; handles := ∅; sessions := ∅; ids := ∅;
     recorders := ∅; blocks := ∅; next_block := 100%positive;
     events := []; threads := []; trace := [] |}.

(** Two attached users: handle 11 owns session 1 (id 7), handle 12 owns
    session 2 (id 8). *)
Definition two_sessions : plugin_state :=
  set_store
    (<[1%positive := sample_session 11 7]>
       (<[2%positive := sample_session 12 8]> ∅))
    (<[11%positive := {| plugin_handle := Some 1%positive; stopped := 0 |}]>
       (<[12%positive := {| plugin_handle := Some 2%positive; stopped := 0 |}]> ∅))
    (<[11%positive := 1%positive]> (<[12%positive := 2%positive]> ∅))
    (<[7 := 1%positive]> (<[8 := 2%positive]> ∅))
    ∅
    empty_state.

(** A queue in which two resume tokens sit behind the exit token. *)
Definition busy_queue : plugin_state :=
  set_events [janus_lua_event_resume; janus_lua_event_exit;
              janus_lua_event_resume; janus_lua_event_resume] empty_state.

Definition sample_rtp : rtp_header :=
  {| first_bytes := 32864; seq_number := 513; timestamp := 16909060; ssrc := 99 |}.

(** Session 1 sends audio and video to session 2, whose PeerConnection
    is up and which accepts both; session 1 asks for a keyframe every
    two seconds and last did so at time 0. *)
Definition relaying : plugin_state :=
  set_heap
    (<[1%positive :=
         set_rates 0 2 0
           (set_recipients [2%positive]
              (set_flags (false, false, false, true, true, true)
                 (set_ref 2 (sample_session 11 7))))]>
       (<[2%positive :=
            set_started 1
              (set_flags (true, true, true, false, false, false)
                 (set_ref 2 (sample_session 12 8)))]>
          (heap two_sessions)))
    two_sessions.

(** Four video packets, arriving 1 s, 2 s, 2.5 s and 4.5 s after the
    last keyframe request. *)
Definition video_burst : list (Z * rtp_header * Z) :=
  [(1000000, sample_rtp, 900); (2000000, sample_rtp, 900);
   (2500000, sample_rtp, 900); (4500000, sample_rtp, 900)].

(** The core knows handle 13; no session is attached to it yet. *)
Definition unattached : plugin_state :=
  set_handles (<[13%positive := {| plugin_handle := None; stopped := 0 |}]> ∅)
    empty_state.

(** Session 7 is recording its audio. *)
Definition recording : plugin_state :=
  set_store
    (<[1%positive := set_arc (Some 50%positive) (sample_session 11 7)]>
       (heap two_sessions))
    (handles two_sessions) (sessions two_sessions) (ids two_sessions)
    (<[50%positive := {| rec_folder := Some "/tmp"%string;
                         rec_codec := Some "opus"%string;
                         rec_filename := Some "first"%string;
                         rec_writable := true; rec_frames := [] |}]> ∅)
    two_sessions.

(** The core has handed the plugin a request for session 7: document
    60 of the block store. *)
Definition inbox : plugin_state :=
  set_blocks (<[60%positive := BJson "{request}"]> ∅) 100 two_sessions.

(** A configuration with all three items, and environments in which
    the script loads and defines the required functions, or fails to
    load. *)
Definition scripted_config : janus_config :=
  [("general"%string,
    [ {| item_name := "path"; value := Some "/opt/lua"%string |};
      {| item_name := "script"; value := Some "/opt/lua/echo.lua"%string |};
      {| item_name := "config"; value := Some "/etc/echo.json"%string |} ])].

Definition scripted_env : environment :=
  {| lua_str2number := fun _ => None;
     lua_number2str := fun _ => "0"%string;
     json_loads_ok := fun t => negb (String.eqb t "");
     janus_recorder_create_ok := fun _ _ _ => true;
     janus_rtp_header_update := sample_header_update;
     janus_rtp_switching_context_reset := [];
     big_endian_host := false;
     janus_config_parse := fun _ => Some scripted_config;
     luaL_dofile := fun _ => Some (fun f => existsb (String.eqb f) lua_functions);
     janus_rtcp_get_remb := fun _ _ => 0 |}.

Definition unloadable_env : environment :=
  {| lua_str2number := fun _ => None;
     lua_number2str := fun _ => "0"%string;
     json_loads_ok := fun t => negb (String.eqb t "");
     janus_recorder_create_ok := fun _ _ _ => true;
     janus_rtp_header_update := sample_header_update;
     janus_rtp_switching_context_reset := [];
     big_endian_host := false;
     janus_config_parse := fun _ => Some scripted_config;
     luaL_dofile := fun _ => None;
     janus_rtcp_get_remb := fun _ _ => 0 |}.

(** The plugin before janus_lua_init. *)
Definition cold : plugin_state :=
  set_initialized 0 (set_gateway false (set_lua_state false empty_state)).

(** [relaying] after session 7 hung up; with a script that handles
    incoming media itself; and with a bitrate cap of 128000 on session
    7. *)
Definition hung : plugin_state :=
  set_heap
    (<[1%positive := set_hangingup 1 (set_ref 2 (sample_session 11 7))]>
       (heap relaying))
    relaying.

Definition delegating : plugin_state := set_has_incoming true true true relaying.

Definition capped : plugin_state :=
  set_heap
    (<[1%positive := set_bitrate 128000 (set_ref 2 (sample_session 11 7))]>
       (heap relaying))
    relaying.

(** An environment in which every RTCP packet carries a REMB of 500000. *)
Definition remb_env : environment :=
  {| lua_str2number := fun _ => None;
     lua_number2str := fun _ => "0"%string;
     json_loads_ok := fun t => negb (String.eqb t "");
     janus_recorder_create_ok := fun _ _ _ => true;
     janus_rtp_header_update := sample_header_update;
     janus_rtp_switching_context_reset := [];
     big_endian_host := false;
     janus_config_parse := fun _ => Some scripted_config;
     luaL_dofile := fun _ => None;
     janus_rtcp_get_remb := fun _ _ => 500000 |}.

(** [two_sessions] with a third handle, 13, that the core knows and
    that has no session yet. *)
Definition newcomer : plugin_state :=
  set_handles (<[13%positive := {| plugin_handle := None; stopped := 0 |}]>
                 (handles two_sessions))
    two_sessions.

Global Arguments bind : simpl never.
Global Arguments ret : simpl never.
Global Arguments emit : simpl never.
Global Arguments gets : simpl never.
Global Arguments modify : simpl never.
Global Arguments deref : simpl never.
Global Arguments crash : simpl never.
Global Arguments fresh : simpl never.
Global Arguments janus_recorder_free : simpl never.
Global Arguments janus_recorder_create : simpl never.
Global Arguments g_slist_find : simpl never.
Global Arguments g_slist_append : simpl never.
Global Arguments g_slist_remove : simpl never.
Global Arguments strcasecmp : simpl never.
Global Arguments to_guint32 : simpl never.
Global Arguments to_guint16 : simpl never.
Global Arguments value_tonumber : simpl never.
Global Arguments value_tostring : simpl never.
Global Arguments lua_toboolean : simpl never.
Global Arguments janus_refcount_increase : simpl never.
Global Arguments janus_refcount_decrease : simpl never.
Global Arguments frame_by : simpl never.
Global Arguments frame : simpl never.

(** * Properties *)

(** ** Running the monad one step at a time *)

Section Steps.
Context `{!environment}.

Lemma bind_bind {A B C} (m : M A) (f : A -> M B) (g : B -> M C) st :
  bind (bind m f) g st = bind m (fun x => bind (f x) g) st.
Proof. unfold bind. by destruct (m st). Qed.

Lemma bind_ret {A B} (a : A) (k : A -> M B) st : bind (ret a) k st = k a st.
Proof. done. Qed.

Lemma bind_emit {B} e (k : unit -> M B) st :
  bind (emit e) k st = k tt (set_trace (trace st ++ [e]) st).
Proof. done. Qed.

Lemma bind_gets {A B} (f : plugin_state -> A) (k : A -> M B) st :
  bind (gets f) k st = k (f st) st.
Proof. done. Qed.

Lemma bind_modify {B} f (k : unit -> M B) st :
  bind (modify f) k st = k tt (f st).
Proof. done. Qed.

Lemma bind_crash {A B} f (k : A -> M B) st : bind (crash f) k st = Fault f.
Proof. done. Qed.

Lemma bind_fresh {B} (k : positive -> M B) st :
  bind fresh k st
  = k (next_block st) (set_blocks (blocks st) (Pos.succ (next_block st)) st).
Proof. done. Qed.

Lemma bind_deref {B} p (k : janus_lua_session -> M B) st s :
  heap st !! p = Some s -> bind (deref p) k st = k s st.
Proof. intros E. unfold bind, deref. by rewrite E. Qed.

Lemma bind_Done {A B} (m : M A) (k : A -> M B) st a st' :
  m st = Done a st' -> bind m k st = k a st'.
Proof. intros E. unfold bind. by rewrite E. Qed.

Lemma bind_Fault {A B} (m : M A) (k : A -> M B) st f :
  m st = Fault f -> bind m k st = Fault f.
Proof. intros E. unfold bind. by rewrite E. Qed.

Lemma run_ret {A} (a : A) st : ret a st = Done a st.
Proof. done. Qed.

Lemma run_emit e st : emit e st = Done tt (set_trace (trace st ++ [e]) st).
Proof. done. Qed.

Lemma run_modify f st : modify f st = Done tt (f st).
Proof. done. Qed.

Lemma run_deref p st s : heap st !! p = Some s -> deref p st = Done s st.
Proof. intros E. unfold deref. by rewrite E. Qed.

Lemma run_refcount_increase p st s :
  heap st !! p = Some s ->
  janus_refcount_increase p st
  = Done tt (set_heap (<[p := set_ref (ref s + 1) s]> (heap st)) st).
Proof.
  intros E. unfold janus_refcount_increase, store.
  by rewrite (bind_deref _ _ _ _ E).
Qed.

Lemma bind_refcount_increase {B} p (k : unit -> M B) st s :
  heap st !! p = Some s ->
  bind (janus_refcount_increase p) k st
  = k tt (set_heap (<[p := set_ref (ref s + 1) s]> (heap st)) st).
Proof. intros E. by rewrite (bind_Done _ _ _ _ _ (run_refcount_increase _ _ _ E)). Qed.

(** Dropping a reference that is not the last one only lowers the count. *)
Lemma run_refcount_decrease p st s :
  heap st !! p = Some s -> ref s <> 1 ->
  janus_refcount_decrease p st
  = Done tt (set_heap (<[p := set_ref (ref s - 1) s]> (heap st)) st).
Proof.
  intros E Hr. unfold janus_refcount_decrease, store.
  rewrite (bind_deref _ _ _ _ E), bind_bind, (bind_deref _ _ _ _ E), bind_modify.
  destruct (Z.eqb_spec (ref s - 1) 0) as [Hz|_]; [lia|done].
Qed.

Lemma bind_refcount_decrease {B} p (k : unit -> M B) st s :
  heap st !! p = Some s -> ref s <> 1 ->
  bind (janus_refcount_decrease p) k st
  = k tt (set_heap (<[p := set_ref (ref s - 1) s]> (heap st)) st).
Proof.
  intros E Hr. by rewrite (bind_Done _ _ _ _ _ (run_refcount_decrease _ _ _ E Hr)).
Qed.

Lemma registry_ok_lookup st sid p :
  registry_ok st = true -> ids st !! sid = Some p ->
  exists ss, heap st !! p = Some ss /\ 0 < ref ss /\ id ss = sid.
Proof.
  unfold registry_ok. rewrite forallb_forall. intros Hall Hl.
  specialize (Hall (sid, p)). cbn in Hall.
  destruct (heap st !! p) as [ss|].
  - exists ss. apply andb_prop in Hall.
    + destruct Hall as [H1 H2]. split; [done|]. split; lia.
    + apply list_elem_of_In. by apply elem_of_map_to_list.
  - discriminate Hall. apply list_elem_of_In. by apply elem_of_map_to_list.
Qed.

Lemma set_ref_same ss : set_ref (ref ss) ss = ss.
Proof. by destruct ss. Qed.

Lemma lookup_by_id_Some st sid p :
  lookup_by_id st sid = Some p ->
  exists ss, ids st !! sid = Some p /\ heap st !! p = Some ss /\ destroyed ss = 0.
Proof.
  unfold lookup_by_id. destruct (ids st !! sid) as [q|]; [|done].
  destruct (heap st !! q) as [ss|] eqn:E; [|done].
  destruct (Z.eqb_spec (destroyed ss) 0); [|done].
  intros [= <-]. eauto.
Qed.

End Steps.

Ltac solve_lookup :=
  cbn; rewrite ?lookup_insert_eq;
  first [ eassumption | reflexivity
        | rewrite lookup_insert_ne by congruence; solve_lookup ].

Ltac unfold_prims :=
  unfold find_session, null_or_destroyed, store,
    janus_mutex_lock, janus_mutex_unlock, JANUS_LOG, lua_pushnumber,
    gateway_call, lua_call, json_decref, g_strdup, alloc, g_free in *.

Ltac mstep :=
  first
    [ rewrite bind_bind
    | rewrite bind_ret
    | rewrite bind_emit
    | rewrite bind_gets
    | rewrite bind_modify
    | rewrite bind_crash
    | rewrite bind_fresh
    | erewrite bind_deref by solve_lookup
    | erewrite bind_refcount_increase by solve_lookup
    | erewrite bind_refcount_decrease by (first [solve_lookup | cbn; lia])
    | erewrite run_refcount_decrease by (first [solve_lookup | cbn; lia])
    | rewrite run_ret
    | rewrite run_emit
    | rewrite run_modify ];
  cbn; rewrite ?insert_insert_eq, ?Z.add_simpl_r, ?Z.sub_simpl_r.

Ltac args_ok :=
  match goal with
  | |- context [negb (lua_gettop ?l =? ?n)] =>
      change (negb (lua_gettop l =? n)) with false
  end;
  cbv iota; unfold lua_tonumber, lua_tostring, lua_index.

(** ** The call-outs *)

Section Callouts.
Context `{!environment}.

(** The opening of the call-outs finds exactly the sessions
    [lookup_by_id] finds; a failed lookup leaves only the lock and the
    unlock in the trace. *)
Lemma find_session_run st sid :
  registry_ok st = true ->
  find_session sid st =
    match lookup_by_id st sid with
    | Some p => Done (Some p) (set_trace (trace st ++ [EvLock sessions_mutex]) st)
    | None =>
        Done None
          (set_trace (trace st ++ [EvLock sessions_mutex; EvUnlock sessions_mutex]) st)
    end.
Proof.
  intros Hok. unfold lookup_by_id. unfold_prims. repeat mstep.
  destruct (ids st !! sid) as [p|] eqn:Hi.
  - destruct (registry_ok_lookup _ _ _ Hok Hi) as (ss & Hh & _).
    rewrite Hh. repeat mstep.
    destruct (destroyed ss =? 0); cbn; repeat mstep; rewrite <- ?app_assoc; done.
  - repeat mstep. by rewrite <- app_assoc.
Qed.

(** C10, as the code has it: called with its four arguments,
    configureMedium answers 0 for every session that is found and not
    destroyed, whatever the medium and direction strings are: a medium
    other than audio, video and data changes no flag, a direction other
    than "in" (ignoring case) sets the send flag of the medium; with
    four arguments the answer is -1 exactly when the id does not
    resolve.  Called with any other number of arguments it answers -1
    for every session, found or not: it writes one line to the log and
    leaves before the id is looked up. *)
Theorem configuremedium_lenient st :
  registry_ok st = true ->
  (forall s, length s <> 4%nat ->
     exists msg,
       janus_lua_method_configuremedium s st
       = Done (-1) (set_trace (trace st ++ [EvLog LOG_ERR msg]) st)) /\
  forall idv mv dv ev,
  let sid := to_guint32 (value_tonumber (Some idv)) in
  let enabled := lua_toboolean [idv; mv; dv; ev] 4 in
  match lookup_by_id st sid with
  | None =>
      exists st',
        janus_lua_method_configuremedium [idv; mv; dv; ev] st = Done (-1) st'
        /\ heap st' = heap st
  | Some p =>
      exists ss st',
        heap st !! p = Some ss /\
        janus_lua_method_configuremedium [idv; mv; dv; ev] st = Done 0 st' /\
        ((value_tostring (Some mv) = None \/
          exists m, value_tostring (Some mv) = Some m
                    /\ strcasecmp m "audio" <> 0
                    /\ strcasecmp m "video" <> 0
                    /\ strcasecmp m "data" <> 0) ->
         heap st' = heap st) /\
        (forall m d,
           value_tostring (Some mv) = Some m ->
           value_tostring (Some dv) = Some d ->
           strcasecmp d "in" <> 0 ->
           (strcasecmp m "audio" = 0 ->
            heap st' = <[p := set_send_audio enabled ss]> (heap st)) /\
           (strcasecmp m "audio" <> 0 -> strcasecmp m "video" = 0 ->
            heap st' = <[p := set_send_video enabled ss]> (heap st)) /\
           (strcasecmp m "audio" <> 0 -> strcasecmp m "video" <> 0 ->
            strcasecmp m "data" = 0 ->
            heap st' = <[p := set_send_data enabled ss]> (heap st)))
  end.
Proof.
  intros Hok. split.
  { intros s Hlen. unfold janus_lua_method_configuremedium, lua_gettop.
    destruct (Z.eqb_spec (Z.of_nat (length s)) 4) as [E|_]; [lia|]. cbn [negb].
    unfold_prims. repeat mstep. eauto. }
  intros idv mv dv ev sid enabled.
  unfold janus_lua_method_configuremedium. args_ok. fold sid.
  pose proof (find_session_run st sid Hok) as Hf.
  destruct (lookup_by_id st sid) as [p|] eqn:Hl.
  - destruct (lookup_by_id_Some _ _ _ Hl) as (ss & Hi & Hh & Hd).
    destruct (registry_ok_lookup _ _ _ Hok Hi) as (ss' & Hh' & Hr & _).
    rewrite Hh in Hh'. injection Hh' as <-.
    rewrite (bind_Done _ _ _ _ _ Hf). cbn. unfold_prims.
    exists ss.
    destruct (value_tostring (Some mv)) as [m|] eqn:Hm;
      [destruct (value_tostring (Some dv)) as [d|] eqn:Hdv|].
    + destruct (Z.eqb_spec (strcasecmp m "audio") 0) as [Ha|Ha];
        [|destruct (Z.eqb_spec (strcasecmp m "video") 0) as [Hv|Hv];
          [|destruct (Z.eqb_spec (strcasecmp m "data") 0) as [Hda|Hda]]];
      destruct (Z.eqb_spec (strcasecmp d "in") 0) as [Hin|Hin];
      repeat mstep; eexists; (split; [done|]); (split; [reflexivity|]).
      all: subst enabled; destruct (lua_toboolean [idv; mv; dv; ev] 4); cbn.
      all: split;
        [ intros [Hn | (m0 & [= <-] & ? & ? & ?)]; [discriminate|]; try contradiction;
          apply insert_id; rewrite Hh; f_equal; by destruct ss
        | intros m0 d0 [= <-] [= <-] Hne; try contradiction;
          repeat split; intros; try contradiction; try congruence; reflexivity ].
    + repeat mstep. eexists. split; [done|]. split; [reflexivity|]. cbn.
      split; [|intros ?? _ [=]].
      intros _. apply insert_id. rewrite Hh. f_equal. by destruct ss.
    + repeat mstep. eexists. split; [done|]. split; [reflexivity|]. cbn.
      split; [|intros ?? [=]].
      intros _. apply insert_id. rewrite Hh. f_equal. by destruct ss.
  - rewrite (bind_Done _ _ _ _ _ Hf). cbn. unfold_prims. repeat mstep. eauto.
Qed.

End Callouts.

(** ** Runs on the sample states *)

(** C10 on session 7 with medium AUDIO and the direction sideways: the
    call answers 0 and sets send_audio. *)
Lemma configuremedium_lenient_witness :
  exists st',
    @janus_lua_method_configuremedium sample_env
      [LNumber 7; LString "AUDIO"; LString "sideways"; LBoolean true] two_sessions
    = Done 0 st'
    /\ heap st' = <[1%positive := set_send_audio true (sample_session 11 7)]>
                    (heap two_sessions).
Proof.
  destruct (@configuremedium_lenient sample_env two_sessions eq_refl) as [_ W].
  specialize (W (LNumber 7) (LString "AUDIO") (LString "sideways") (LBoolean true)).
  destruct W as (ss & st' & Hh & Hrun & _ & Hdir).
  exists st'. split; [exact Hrun|].
  injection Hh as <-.
  destruct (Hdir "AUDIO"%string "sideways"%string eq_refl eq_refl) as (Ha & _).
  - vm_compute. discriminate.
  - apply Ha. reflexivity.
Defined.

(** C10 as stated fails on a live session: session 7 exists and is not
    destroyed, and configureMedium called with three arguments answers
    -1, which is not the answer to an unknown session id. *)
Lemma configuremedium_arity_counterexample :
  lookup_by_id two_sessions 7 = Some 1%positive /\
  exists st',
    @janus_lua_method_configuremedium sample_env
      [LNumber 7; LString "audio"; LString "in"] two_sessions = Done (-1) st' /\
    heap st' = heap two_sessions.
Proof.
  split; [reflexivity|]. eexists. split; [vm_compute; reflexivity|reflexivity].
Defined.

(** ** The scheduler *)

Section Scheduler.
Context `{!environment}.

Lemma resume_calls_app a b :
  resume_calls (a ++ b) = (resume_calls a + resume_calls b)%nat.
Proof. induction a as [|e a IH]; cbn; [done|]. rewrite IH. lia. Qed.

(** Popping the exit token ends the thread, whatever is queued behind
    it and whatever the flags say. *)
Lemma scheduler_turn_exit st post :
  events st = janus_lua_event_exit :: post ->
  janus_lua_scheduler_turn st
  = Done SchedulerLeft
      (set_trace (trace st ++ [EvLog LOG_VERB "Leaving Lua scheduler thread"])
         (set_events post st)).
Proof.
  intros E. unfold janus_lua_scheduler_turn. unfold_prims.
  rewrite bind_gets, E. repeat mstep. done.
Qed.

Lemma scheduler_turn_other st ev rest :
  events st = ev :: rest -> ev <> janus_lua_event_exit ->
  exists st' status,
    janus_lua_scheduler_turn st = Done status st' /\
    events st' = rest /\
    initialized st' = initialized st /\ stopping st' = stopping st /\
    resume_calls (trace st') = (resume_calls (trace st) + resume_tokens [ev])%nat /\
    status = (if negb (initialized st =? 0) && (stopping st =? 0)
              then SchedulerRunning else SchedulerLeft).
Proof.
  intros E Hne. unfold janus_lua_scheduler_turn, scheduler_condition. unfold_prims.
  rewrite bind_gets, E.
  destruct ev; [| |done]; repeat mstep;
    destruct (negb (initialized st =? 0) && (stopping st =? 0)); repeat mstep;
    eexists _, _; (split; [reflexivity|]); cbn;
    rewrite ?resume_calls_app; cbn; repeat split; lia.
Qed.

Lemma scheduler_loop_exit st pre post :
  janus_lua_event_exit ∉ pre ->
  events st = pre ++ janus_lua_event_exit :: post ->
  exists st',
    janus_lua_scheduler_loop (events st) st = Done SchedulerLeft st' /\
    (exists k, events st' = k ++ post) /\
    (resume_calls (trace st') <= resume_calls (trace st) + resume_tokens pre)%nat /\
    (initialized st <> 0 -> stopping st = 0 ->
     events st' = post /\
     resume_calls (trace st') = (resume_calls (trace st) + resume_tokens pre)%nat).
Proof.
  revert st. induction pre as [|ev pre IH]; intros st Hnot E.
  - rewrite E. cbn [app janus_lua_scheduler_loop].
    rewrite (bind_Done _ _ _ _ _ (scheduler_turn_exit _ _ E)). cbn.
    eexists. split; [reflexivity|]. cbn. rewrite resume_calls_app. cbn.
    split; [by exists []|]. split; [lia|]. intros _ _. split; [done|lia].
  - apply not_elem_of_cons in Hnot as [Hne Hnot].
    destruct (scheduler_turn_other st ev (pre ++ janus_lua_event_exit :: post) E)
      as (st1 & status & Hrun & Hev & Hi & Hs & Hc & Hst); [congruence|].
    rewrite E. cbn [app janus_lua_scheduler_loop].
    rewrite (bind_Done _ _ _ _ _ Hrun). subst status.
    destruct (negb (initialized st =? 0) && (stopping st =? 0)) eqn:Hcond.
    + destruct (IH st1 Hnot Hev) as (st' & Hrun' & Hk & Hle & Hex).
      rewrite Hev in Hrun'. exists st'. split; [exact Hrun'|].
      split; [exact Hk|]. rewrite Hi, Hs in Hex. cbn [resume_tokens] in *.
      split; [lia|]. intros A B. destruct (Hex A B). split; [done|lia].
    + exists st1. rewrite run_ret. split; [done|].
      split; [by exists (pre ++ [janus_lua_event_exit]); rewrite Hev, <- app_assoc|].
      cbn [resume_tokens] in *. split; [lia|].
      intros A B. exfalso. rewrite B in Hcond.
      destruct (Z.eqb_spec (initialized st) 0); [done|]. cbn in Hcond. done.
Qed.

(** C7: when the queue holds an exit token, the scheduler thread leaves
    its loop; the script is asked to resume at most once per resume
    token that lies before the exit token (exactly once while the
    plugin is initialized and not stopping), and the tokens behind the
    exit token stay in the queue, never acted upon. *)
Theorem scheduler_exit_is_final st pre post :
  janus_lua_event_exit ∉ pre ->
  events st = pre ++ janus_lua_event_exit :: post ->
  exists st',
    janus_lua_scheduler st = Done SchedulerLeft st' /\
    (exists k, events st' = k ++ post) /\
    (resume_calls (trace st') <= resume_calls (trace st) + resume_tokens pre)%nat /\
    (initialized st <> 0 -> stopping st = 0 ->
     events st' = post /\
     resume_calls (trace st') = (resume_calls (trace st) + resume_tokens pre)%nat).
Proof.
  intros Hnot E. unfold janus_lua_scheduler, scheduler_condition. unfold_prims.
  repeat mstep.
  destruct (negb (initialized st =? 0) && (stopping st =? 0)) eqn:Hcond.
  - repeat mstep.
    set (st1 := set_trace _ st).
    destruct (scheduler_loop_exit st1 pre post Hnot E) as (st' & Hrun & Hk & Hle & Hex).
    exists st'. split; [exact Hrun|]. split; [exact Hk|].
    subst st1. cbn in Hle, Hex. rewrite resume_calls_app in Hle, Hex. cbn in Hle, Hex.
    split; [lia|]. intros A B. destruct (Hex A B). split; [done|lia].
  - repeat mstep. eexists. split; [reflexivity|]. cbn.
    split; [by exists (pre ++ [janus_lua_event_exit]); rewrite E, <- app_assoc|].
    rewrite !resume_calls_app. cbn. split; [lia|].
    intros A B. exfalso. rewrite B in Hcond.
    destruct (Z.eqb_spec (initialized st) 0); [done|]. cbn in Hcond. done.
Qed.

End Scheduler.

(** C7 on a queue with two resume tokens behind the exit token: one
    call into the script, and the two tokens are left in the queue. *)
Lemma scheduler_exit_is_final_witness :
  exists st',
    janus_lua_scheduler busy_queue = Done SchedulerLeft st' /\
    events st' = [janus_lua_event_resume; janus_lua_event_resume] /\
    resume_calls (trace st') = 1%nat.
Proof.
  destruct (scheduler_exit_is_final busy_queue
              [janus_lua_event_resume]
              [janus_lua_event_resume; janus_lua_event_resume])
    as (st' & Hrun & _ & _ & Hex).
  - intros Hin. apply list_elem_of_singleton in Hin. discriminate Hin.
  - reflexivity.
  - exists st'. split; [exact Hrun|]. apply Hex; [discriminate|reflexivity].
Defined.

(** ** Initialization *)

Section Init.
Context `{!environment}.

Lemma g_strdup_opt_returns s st :
  exists p st', g_strdup_opt s st = Done p st' /\ stopping st' = stopping st.
Proof.
  destruct s as [t|]; cbn; unfold_prims; repeat mstep; eauto.
Qed.

(** C5: when the configuration has no script item, the test
    [script == NULL && script->value == NULL] reads script->value
    through the NULL pointer: janus_lua_init does not get as far as
    reporting the missing field and returning -1. *)
Theorem init_missing_script_faults spawn_ok path st config :
  stopping st = 0 ->
  janus_config_parse (g_snprintf 255 (path ++ "/" ++ JANUS_LUA_PACKAGE ++ ".cfg"))
  = Some config ->
  janus_config_get_item_drilldown config "general" "script" = None ->
  janus_lua_init spawn_ok true (Some path) st = Fault NullDeref.
Proof.
  intros Hs Hc Hn. unfold janus_lua_init. unfold_prims.
  rewrite bind_gets, Hs. cbn. repeat mstep. rewrite Hc, Hn.
  destruct (janus_config_get_item_drilldown config "general" "path") as [it|].
  - destruct (g_strdup_opt_returns (value it)
                (set_trace (trace st ++ [EvLog LOG_VERB "Configuration file: %s"]) st))
      as (p & st' & Hrun & _).
    unfold_prims. rewrite (bind_Done _ _ _ _ _ Hrun). cbn. by repeat mstep.
  - by repeat mstep.
Qed.

End Init.

(** C5 on the sample configuration, which has a path but no script. *)
Lemma init_missing_script_faults_witness :
  @janus_lua_init sample_env true true (Some "/etc/janus"%string) empty_state
  = Fault NullDeref.
Proof.
  apply (@init_missing_script_faults sample_env true "/etc/janus"%string
           empty_state
           [("general"%string,
             [ {| item_name := "path"; value := Some "/opt/lua"%string |} ])]);
    reflexivity.
Defined.

(** ** Relaying media *)

Section Relay.
Context `{!environment}.

Lemma split_byte a b :
  0 <= b < 256 -> (a * 256 + b) / 256 = a /\ (a * 256 + b) mod 256 = b.
Proof.
  intros Hb. split.
  - symmetry. apply (Z.div_unique _ _ a b); lia.
  - symmetry. apply (Z.mod_unique _ _ a b); lia.
Qed.

Lemma bswap16_involutive x : 0 <= x < 65536 -> bswap16 (bswap16 x) = x.
Proof.
  intros Hx. unfold bswap16.
  pose proof (Z.div_mod x 256 ltac:(lia)) as E.
  pose proof (Z.mod_pos_bound x 256 ltac:(lia)) as B0.
  assert (B1 : 0 <= x / 256 < 256).
  { split; [apply Z.div_pos; lia|apply Z.div_lt_upper_bound; lia]. }
  rewrite (Z.mod_small (x / 256) 256) by lia.
  destruct (split_byte (x mod 256) (x / 256) B1) as [-> ->].
  rewrite (Z.mod_small (x mod 256) 256) by lia. lia.
Qed.

Lemma bswap32_involutive x : 0 <= x < 4294967296 -> bswap32 (bswap32 x) = x.
Proof.
  intros Hx. unfold bswap32.
  change 65536 with (256 * 256). change 16777216 with (256 * 256 * 256).
  rewrite <- !Z.div_div by lia.
  set (q1 := x / 256). set (q2 := q1 / 256). set (q3 := q2 / 256).
  pose proof (Z.div_mod x 256 ltac:(lia)) as E0. fold q1 in E0.
  pose proof (Z.div_mod q1 256 ltac:(lia)) as E1. fold q2 in E1.
  pose proof (Z.div_mod q2 256 ltac:(lia)) as E2. fold q3 in E2.
  pose proof (Z.mod_pos_bound x 256 ltac:(lia)) as B0.
  pose proof (Z.mod_pos_bound q1 256 ltac:(lia)) as B1.
  pose proof (Z.mod_pos_bound q2 256 ltac:(lia)) as B2.
  assert (B3 : 0 <= q3 < 256).
  { subst q3 q2 q1. split.
    - repeat apply Z.div_pos; lia.
    - repeat (apply Z.div_lt_upper_bound; [lia|]). lia. }
  rewrite (Z.mod_small q3 256) by lia.
  set (b0 := x mod 256) in *. set (b1 := q1 mod 256) in *. set (b2 := q2 mod 256) in *.
  replace (b0 * (256 * 256 * 256) + b1 * (256 * 256) + b2 * 256 + q3)
    with (((b0 * 256 + b1) * 256 + b2) * 256 + q3) by lia.
  destruct (split_byte ((b0 * 256 + b1) * 256 + b2) q3 B3) as [-> ->].
  destruct (split_byte (b0 * 256 + b1) b2 B2) as [-> ->].
  destruct (split_byte b0 b1 B1) as [-> ->].
  rewrite (Z.mod_small b0 256) by lia. lia.
Qed.

Lemma htons_ntohs x : 0 <= x < 65536 -> htons (ntohs x) = x.
Proof.
  intros Hx. unfold htons, ntohs. destruct big_endian_host; [done|].
  by apply bswap16_involutive.
Qed.

Lemma htonl_ntohl x : 0 <= x < 4294967296 -> htonl (ntohl x) = x.
Proof.
  intros Hx. unfold htonl, ntohl. destruct big_endian_host; [done|].
  by apply bswap32_involutive.
Qed.

Lemma frame_by_eq norm st st' :
  norm <$> heap st' = norm <$> heap st ->
  set_trace [] (set_recorder_store ∅ (set_heap ∅ st'))
  = set_trace [] (set_recorder_store ∅ (set_heap ∅ st)) ->
  frame_by norm st' = frame_by norm st.
Proof.
  intros Hh Hr. unfold frame_by.
  destruct st, st'. cbn in *.
  injection Hr as -> -> -> -> -> -> -> -> -> -> -> -> -> ->.
  by rewrite Hh.
Qed.

Lemma frame_by_lookup norm st st' r :
  frame_by norm st' = frame_by norm st ->
  norm <$> (heap st' !! r) = norm <$> (heap st !! r).
Proof.
  intros E. apply (f_equal heap) in E. unfold frame_by in E. cbn in E.
  by rewrite <- !lookup_fmap, E.
Qed.

Lemma frame_by_is_Some norm st st' r :
  frame_by norm st' = frame_by norm st ->
  is_Some (heap st !! r) -> is_Some (heap st' !! r).
Proof.
  intros E [s Hs]. pose proof (frame_by_lookup _ _ _ r E) as L. rewrite Hs in L.
  destruct (heap st' !! r); [eauto|discriminate L].
Qed.

Lemma frame_by_gateway norm st st' :
  frame_by norm st' = frame_by norm st -> gateway st' = gateway st.
Proof. intros E. by apply (f_equal gateway) in E. Qed.

Lemma frame_by_handles norm st st' :
  frame_by norm st' = frame_by norm st -> handles st' = handles st.
Proof. intros E. by apply (f_equal handles) in E. Qed.

(** What the fan-out preserves, an incoming packet preserves. *)
Lemma frame_of_relay st st' :
  frame_by ctxless st' = frame_by ctxless st -> frame st' = frame st.
Proof.
  intros E. unfold frame. apply frame_by_eq.
  - apply (f_equal heap) in E. unfold frame_by in E. cbn in E.
    apply (f_equal (fmap (set_pli_latest 0))) in E.
    by rewrite <- !map_fmap_compose in E.
  - unfold frame_by in E. destruct st, st'. cbn in *.
    by injection E as -> -> -> -> -> -> -> _ -> -> -> -> -> -> ->.
Qed.

Lemma norm_insert (norm : janus_lua_session -> janus_lua_session)
    (hp : gmap positive janus_lua_session) r ss s' :
  hp !! r = Some ss -> norm s' = norm ss ->
  norm <$> <[r := s']> hp = norm <$> hp.
Proof.
  intros Hl Ht. rewrite fmap_insert. apply insert_id.
  by rewrite lookup_fmap, Hl, Ht.
Qed.

Lemma ctxless_fields a b :
  ctxless a = ctxless b ->
  pli_freq a = pli_freq b /\ pli_latest a = pli_latest b
  /\ recipients a = recipients b.
Proof.
  intros E. destruct a, b. cbn in E.
  by injection E as -> -> -> -> -> -> -> -> -> -> -> -> -> -> -> -> -> -> _.
Qed.

Lemma timeless_fields a b :
  timeless a = timeless b ->
  pli_freq a = pli_freq b /\ recipients a = recipients b.
Proof.
  intros E. destruct a, b. cbn in E.
  by injection E as -> -> -> -> -> -> -> -> -> -> -> -> -> -> -> -> -> _.
Qed.

Lemma pli_count_app a b : pli_count (a ++ b) = (pli_count a + pli_count b)%nat.
Proof. induction a as [|e a IH]; cbn; [done|]. rewrite IH. lia. Qed.

Lemma pli_count_fanout evs : forallb fanout_event evs = true -> pli_count evs = 0%nat.
Proof.
  induction evs as [|e evs IH]; [done|]. cbn. intros Hf.
  apply andb_prop in Hf as [He Hf]. rewrite (IH Hf). by destruct e.
Qed.

Lemma bind_deref_handle {B} h (k : janus_plugin_session -> M B) st hs :
  handles st !! h = Some hs -> bind (deref_handle (Some h)) k st = k hs st.
Proof. intros E. unfold bind, deref_handle. by rewrite E. Qed.

Lemma save_frame_run rc buf len st :
  exists rs,
    janus_recorder_save_frame rc buf len st = Done tt (set_recorder_store rs st).
Proof.
  destruct rc as [r|]; cbn.
  - eexists. by rewrite run_modify.
  - exists (recorders st). rewrite run_ret. by destruct st.
Qed.

(** One recipient: the packet comes back with the sequence number and
    the timestamp of the source, whether it was relayed or not. *)
Lemma relay_rtp_packet_run orig r packet st :
  is_Some (heap st !! r) -> packet_backs orig packet ->
  exists packet' st' evs,
    janus_lua_relay_rtp_packet (Some r) packet st = Done packet' st' /\
    packet_backs orig packet' /\ frame_by ctxless st' = frame_by ctxless st /\
    trace st' = trace st ++ evs /\ forallb fanout_event evs = true.
Proof.
  intros [ss Hss] Hb. pose proof Hb as (hdr & Hd & Hseq & Hts & Hbs & Hbt).
  unfold janus_lua_relay_rtp_packet. rewrite Hd. unfold_prims.
  destruct (pkt_length packet <? 1).
  { repeat mstep. eexists _, _, _. split; [reflexivity|]. cbn.
    split; [done|]. split; [by apply frame_by_eq|]. done. }
  rewrite (bind_deref _ _ _ _ Hss).
  destruct (negb (is_Some_b (handle ss)) || (started ss =? 0)).
  { rewrite run_ret. exists packet, st, []. by rewrite app_nil_r. }
  destruct (pkt_is_video packet && negb (accept_video ss)
            || negb (pkt_is_video packet) && negb (accept_audio ss)).
  { rewrite run_ret. exists packet, st, []. by rewrite app_nil_r. }
  destruct (janus_rtp_header_update hdr (rtpctx ss) (pkt_is_video packet)
              (if pkt_is_video packet then 4500 else 960)) as [hdr' ctx'].
  repeat mstep.
  destruct (gateway st); repeat mstep;
    (eexists _, _, _; split; [reflexivity|]; cbn;
     split; [by eexists; cbn|];
     split; [apply frame_by_eq; cbn; [|done];
             eapply norm_insert; [exact Hss|by destruct ss]|]).
  - split; [reflexivity|done].
  - by rewrite app_nil_r.
Qed.

Lemma foreach_relay_rtp_run orig l : forall packet st,
  Forall (fun r => is_Some (heap st !! r)) l -> packet_backs orig packet ->
  exists packet' st' evs,
    foreach_relay_rtp l packet st = Done packet' st' /\
    packet_backs orig packet' /\ frame_by ctxless st' = frame_by ctxless st /\
    trace st' = trace st ++ evs /\ forallb fanout_event evs = true.
Proof.
  induction l as [|r l IH]; intros packet st Hall Hb.
  - exists packet, st, []. cbn. rewrite run_ret, app_nil_r. done.
  - apply Forall_cons in Hall as [Hr Hall].
    destruct (relay_rtp_packet_run orig r packet st Hr Hb)
      as (p1 & st1 & ev1 & Hrun1 & Hb1 & Hf1 & Ht1 & He1).
    destruct (IH p1 st1) as (p2 & st2 & ev2 & Hrun2 & Hb2 & Hf2 & Ht2 & He2).
    { eapply Forall_impl; [exact Hall|]. intros x.
      by apply (frame_by_is_Some ctxless). }
    { done. }
    exists p2, st2, (ev1 ++ ev2). cbn [foreach_relay_rtp].
    rewrite (bind_Done _ _ _ _ _ Hrun1). split; [done|]. split; [done|].
    split; [congruence|]. rewrite Ht2, Ht1, <- app_assoc. split; [done|].
    rewrite forallb_app. by rewrite He1, He2.
Qed.

End Relay.

Section IncomingRtp.
Context `{!environment}.

(** Everything one incoming RTP packet does, on a handle whose session
    and recipients are allocated. *)
Lemma incoming_rtp_run now h video rtp len st hs p ss :
  handles st !! h = Some hs -> plugin_handle hs = Some p ->
  heap st !! p = Some ss ->
  Forall (fun r => is_Some (heap st !! r)) (recipients ss) ->
  gateway st = true ->
  0 <= seq_number rtp < 65536 -> 0 <= timestamp rtp < 4294967296 ->
  exists rtp' st' ss' new,
    janus_lua_incoming_rtp now (Some h) video (Some rtp) len st = Done (Some rtp') st' /\
    (seq_number rtp' = seq_number rtp /\ timestamp rtp' = timestamp rtp) /\
    frame st' = frame st /\
    heap st' !! p = Some ss' /\
    trace st' = trace st ++ new /\
    relay_trace p new /\
    ((pli_latest ss' = pli_latest ss /\ pli_count new = 0%nat) \/
     (video = true /\ 0 < pli_freq ss /\
      pli_freq ss * G_USEC_PER_SEC <= now - pli_latest ss /\
      pli_latest ss' = now /\ pli_count new = 1%nat)).
Proof.
  intros Hh Hp Hss Hall Hgw Hseq Hts.
  unfold janus_lua_incoming_rtp. unfold_prims.
  rewrite (bind_deref_handle _ _ _ _ Hh). repeat mstep.
  assert (Hidle : exists rtp' st' ss' new,
    Done (A:=option rtp_header) (Some rtp) st = Done (Some rtp') st' /\
    (seq_number rtp' = seq_number rtp /\ timestamp rtp' = timestamp rtp) /\
    frame st' = frame st /\ heap st' !! p = Some ss' /\
    trace st' = trace st ++ new /\
    relay_trace p new /\
    ((pli_latest ss' = pli_latest ss /\ pli_count new = 0%nat) \/
     (video = true /\ 0 < pli_freq ss /\
      pli_freq ss * G_USEC_PER_SEC <= now - pli_latest ss /\
      pli_latest ss' = now /\ pli_count new = 1%nat))).
  { exists rtp, st, ss, []. rewrite app_nil_r. repeat split; try done; by left. }
  destruct (negb (stopped hs =? 0) || negb (stopping st =? 0) || (initialized st =? 0));
    [by rewrite run_ret|].
  rewrite Hp. repeat mstep.
  destruct (negb (destroyed ss =? 0) || negb (hangingup ss =? 0)); [by rewrite run_ret|].
  repeat mstep.
  destruct (has_incoming_rtp st).
  { repeat mstep. eexists rtp, _, ss, _. split; [reflexivity|]. cbn.
    split; [done|]. split; [by apply frame_by_eq|]. split; [done|].
    rewrite <- !app_assoc. split; [reflexivity|]. split; by left. }
  destruct (video && negb (send_video ss) || negb video && negb (send_audio ss));
    [by rewrite run_ret|].
  clear Hidle.
  destruct (save_frame_run (if video then vrc ss else arc ss) (Some rtp) len st) as [rs Hsave].
  rewrite (bind_Done _ _ _ _ _ Hsave). repeat mstep.
  set (packet := {| pkt_data := Some rtp; pkt_length := len; pkt_is_video := video;
                    pkt_timestamp := ntohl (timestamp rtp);
                    pkt_seq_number := ntohs (seq_number rtp) |}).
  set (st1 := set_trace _ _).
  destruct (foreach_relay_rtp_run rtp (recipients ss) packet st1)
    as (packet' & st2 & evs & Hrun & Hb & Hf & Ht & He).
  { exact Hall. }
  { exists rtp. cbn. repeat split; [by apply htons_ntohs|by apply htonl_ntohl]. }
  rewrite (bind_Done _ _ _ _ _ Hrun). repeat mstep.
  destruct Hb as (rtp' & Hd' & Hs' & Ht' & _).
  pose proof (frame_by_lookup _ _ _ p Hf) as Hl. subst st1. cbn in Hl. rewrite Hss in Hl.
  destruct (heap st2 !! p) as [ss2|] eqn:Hss2; [|discriminate Hl].
  apply (inj Some) in Hl. destruct (ctxless_fields _ _ Hl) as (Hpf & Hpl & _).
  assert (Hfr : frame st2 = frame st).
  { apply frame_of_relay. rewrite Hf. by apply frame_by_eq. }
  pose proof (frame_by_gateway _ _ _ Hfr) as Hg2. rewrite Hgw in Hg2.
  repeat mstep. rewrite Hpf, Hpl. cbn in Ht.
  destruct (video && (0 <? pli_freq ss)) eqn:Hv.
  - apply andb_prop in Hv as [-> Hpos]. apply Z.ltb_lt in Hpos.
    destruct (Z.leb_spec (pli_freq ss * G_USEC_PER_SEC) (now - pli_latest ss)) as [Hdue|Hnot].
    + repeat mstep. rewrite Hg2. repeat mstep.
      eexists rtp', _, _, _. rewrite Hd'. split; [reflexivity|]. cbn.
      split; [done|]. split.
      { rewrite <- Hfr. apply frame_by_eq; cbn; [|done].
        eapply norm_insert; [exact Hss2|by destruct ss2]. }
      rewrite lookup_insert_eq. split; [reflexivity|].
      rewrite Ht, <- !app_assoc. cbn. split; [reflexivity|].
      split.
      { right. exists [], evs, [EvLog LOG_HUGE "Sending PLI to session %u";
                                EvRelayRtcp (Some h) true RtcpPli 12]. done. }
      right. cbn. rewrite pli_count_app, (pli_count_fanout _ He). cbn.
      repeat split; done.
    + repeat mstep. eexists rtp', _, ss2, _. rewrite Hd'. split; [reflexivity|]. cbn.
      split; [done|]. split; [by rewrite <- Hfr; apply frame_by_eq|].
      split; [done|]. rewrite Ht, <- !app_assoc. cbn. split; [reflexivity|].
      split; [right; by exists [], evs, []|].
      left. cbn. rewrite pli_count_app, (pli_count_fanout _ He). done.
  - repeat mstep. eexists rtp', _, ss2, _. rewrite Hd'. split; [reflexivity|]. cbn.
    split; [done|]. split; [by rewrite <- Hfr; apply frame_by_eq|].
    split; [done|]. rewrite Ht, <- !app_assoc. cbn. split; [reflexivity|].
    split; [right; by exists [], evs, []|].
    left. cbn. rewrite pli_count_app, (pli_count_fanout _ He). done.
Qed.

Lemma relay_ready_inv st h :
  relay_ready st h = true ->
  gateway st = true /\
  exists hs, handles st !! h = Some hs /\
    (plugin_handle hs = None \/
     exists p ss, plugin_handle hs = Some p /\ heap st !! p = Some ss /\
       Forall (fun r => is_Some (heap st !! r)) (recipients ss)).
Proof.
  unfold relay_ready. intros Hr. apply andb_prop in Hr as [Hg Hr]. split; [done|].
  destruct (handles st !! h) as [hs|]; [|done]. exists hs. split; [done|].
  destruct (plugin_handle hs) as [p|]; [|by left]. right.
  destruct (heap st !! p) as [ss|] eqn:Hss; [|done]. exists p, ss.
  split; [done|]. split; [done|]. apply Forall_forall. intros r Hin.
  rewrite forallb_forall in Hr. specialize (Hr r).
  destruct (heap st !! r); [by eexists|]. discriminate Hr. by apply list_elem_of_In.
Qed.

Lemma valid_header_range rtp :
  valid_header rtp = true ->
  0 <= seq_number rtp < 65536 /\ 0 <= timestamp rtp < 4294967296.
Proof. unfold valid_header. intros Hv. lia. Qed.

(** C4: when janus_lua_incoming_rtp returns, the sequence number and
    the timestamp in the packet buffer are the ones the source put
    there, however many recipients the packet was rewritten for. *)
Theorem incoming_rtp_restores now h video rtp len st :
  relay_ready st h = true -> valid_header rtp = true ->
  exists rtp' st',
    janus_lua_incoming_rtp now (Some h) video (Some rtp) len st = Done (Some rtp') st' /\
    seq_number rtp' = seq_number rtp /\ timestamp rtp' = timestamp rtp.
Proof.
  intros Hr Hv. destruct (valid_header_range _ Hv) as [Hs Ht].
  destruct (relay_ready_inv _ _ Hr) as (Hg & hs & Hh & [Hn | (p & ss & Hp & Hss & Hall)]).
  - exists rtp. unfold janus_lua_incoming_rtp. unfold_prims.
    rewrite (bind_deref_handle _ _ _ _ Hh). repeat mstep. rewrite Hn.
    destruct (negb (stopped hs =? 0) || negb (stopping st =? 0) || (initialized st =? 0));
      repeat mstep; eauto.
  - destruct (incoming_rtp_run now h video rtp len st hs p ss Hh Hp Hss Hall Hg Hs Ht)
      as (rtp' & st' & _ & _ & Hrun & Heq & _). by exists rtp', st'.
Qed.
End IncomingRtp.

(** C4 on an audio packet that session 1 relays to session 2: the
    buffer comes back with sequence number 513 and timestamp 16909060. *)
Lemma incoming_rtp_restores_witness :
  exists rtp' st',
    @janus_lua_incoming_rtp sample_env 0 (Some 11%positive) false
      (Some sample_rtp) 172 relaying = Done (Some rtp') st' /\
    seq_number rtp' = 513 /\ timestamp rtp' = 16909060.
Proof.
  exact (@incoming_rtp_restores sample_env 0 11%positive false sample_rtp 172
           relaying eq_refl eq_refl).
Defined.

Section RelayLock.
Context `{!environment}.

Lemma relays_while_quiet m want pre : forall held rest,
  no_relay pre = true ->
  exists held', relays_while m want held (pre ++ rest) = relays_while m want held' rest.
Proof.
  induction pre as [|e pre IH]; intros held rest Hq; [by exists held|].
  cbn in Hq. apply andb_prop in Hq as [He Hq].
  destruct e; cbn in He |- *; try done; try (by apply IH).
Qed.

Lemma relays_while_no_relay m want tr held :
  no_relay tr = true -> relays_while m want held tr = true.
Proof.
  intros Hq. destruct (relays_while_quiet m want tr held [] Hq) as [held' E].
  rewrite app_nil_r in E. by rewrite E.
Qed.

Lemma relays_while_fanout m evs rest :
  forallb fanout_event evs = true ->
  relays_while m true true (evs ++ rest) = relays_while m true true rest.
Proof.
  induction evs as [|e evs IH]; intros Hf; [done|].
  cbn in Hf. apply andb_prop in Hf as [He Hf].
  destruct e; cbn in He |- *; try done; by apply IH.
Qed.

Lemma relay_trace_under_lock p new held :
  relay_trace p new -> relays_while (recipients_mutex p) true held new = true.
Proof.
  intros [Hq | (pre & evs & post & -> & Hpre & Hevs & Hpost)].
  - by apply relays_while_no_relay.
  - destruct (relays_while_quiet (recipients_mutex p) true pre held
                (EvLock (recipients_mutex p) :: evs
                 ++ EvUnlock (recipients_mutex p) :: post) Hpre) as [held' ->].
    cbn. rewrite Pos.eqb_refl, relays_while_fanout by done. cbn.
    rewrite Pos.eqb_refl. by apply relays_while_no_relay.
Qed.

Lemma relay_data_packet_run r text st :
  is_Some (heap st !! r) ->
  exists evs,
    janus_lua_relay_data_packet (Some r) text st
    = Done tt (set_trace (trace st ++ evs) st) /\
    forallb fanout_event evs = true.
Proof.
  intros [ss Hss]. unfold janus_lua_relay_data_packet. unfold_prims.
  rewrite (bind_deref _ _ _ _ Hss).
  assert (Hid : set_trace (trace st ++ []) st = st) by (rewrite app_nil_r; by destruct st).
  destruct (negb (is_Some_b (handle ss)) || (started ss =? 0) || negb (accept_data ss)).
  { exists []. by rewrite run_ret, Hid. }
  repeat mstep. destruct (gateway st), text as [t|]; repeat mstep.
  - eexists. rewrite <- app_assoc. split; [reflexivity|done].
  - exists []. by rewrite Hid.
  - exists []. by rewrite Hid.
  - exists []. by rewrite Hid.
Qed.

Lemma foreach_relay_data_run l text : forall st,
  Forall (fun r => is_Some (heap st !! r)) l ->
  exists evs,
    foreach_relay_data l text st = Done tt (set_trace (trace st ++ evs) st) /\
    forallb fanout_event evs = true.
Proof.
  induction l as [|r l IH]; intros st Hall.
  - exists []. cbn. rewrite run_ret, app_nil_r. by destruct st.
  - apply Forall_cons in Hall as [Hr Hall].
    destruct (relay_data_packet_run r text st Hr) as (ev1 & Hrun1 & He1).
    destruct (IH (set_trace (trace st ++ ev1) st)) as (ev2 & Hrun2 & He2); [done|].
    exists (ev1 ++ ev2). cbn [foreach_relay_data].
    rewrite (bind_Done _ _ _ _ _ Hrun1), Hrun2. cbn. rewrite <- app_assoc.
    split; [done|]. by rewrite forallb_app, He1, He2.
Qed.

Lemma incoming_data_run h buf len st hs p ss :
  handles st !! h = Some hs -> plugin_handle hs = Some p ->
  heap st !! p = Some ss ->
  Forall (fun r => is_Some (heap st !! r)) (recipients ss) ->
  exists st' new,
    janus_lua_incoming_data (Some h) buf len st = Done tt st' /\
    trace st' = trace st ++ new /\ relay_trace p new.
Proof.
  intros Hh Hp Hss Hall.
  unfold janus_lua_incoming_data. unfold_prims.
  rewrite (bind_deref_handle _ _ _ _ Hh). repeat mstep.
  assert (Hidle : exists st' new, Done tt st = Done tt st' /\
            trace st' = trace st ++ new /\ relay_trace p new).
  { exists st, []. rewrite app_nil_r. repeat split; by left. }
  destruct (negb (stopped hs =? 0) || negb (stopping st =? 0) || (initialized st =? 0));
    [by rewrite run_ret|].
  rewrite Hp. repeat mstep.
  destruct (negb (destroyed ss =? 0) || negb (hangingup ss =? 0)); [by rewrite run_ret|].
  repeat mstep.
  destruct (has_incoming_data st).
  { repeat mstep. eexists _, _. split; [reflexivity|]. cbn.
    rewrite <- !app_assoc. split; [reflexivity|]. by left. }
  destruct (negb (send_data ss)); [by rewrite run_ret|].
  clear Hidle.
  destruct (save_frame_run (drc ss) None len st) as [rs Hsave].
  rewrite (bind_Done _ _ _ _ _ Hsave). unfold g_malloc0, memcpy. unfold_prims.
  destruct (len + 1 <=? 0).
  { repeat mstep. eexists _, _. split; [reflexivity|]. cbn.
    split; [reflexivity|]. by left. }
  repeat mstep.
  match goal with
  | |- context [bind (foreach_relay_data _ _) _ ?s] => set (st1 := s)
  end.
  destruct (foreach_relay_data_run (recipients ss) (Some (first_bytes_of buf len)) st1 Hall)
    as (evs & Hrun & He).
  rewrite (bind_Done _ _ _ _ _ Hrun). repeat mstep.
  eexists _, _. split; [reflexivity|]. cbn. rewrite <- !app_assoc. cbn.
  split; [reflexivity|].
  right. exists [EvLog LOG_VERB "Got a DataChannel message (%zu bytes) to forward: %s"], evs, [].
  done.
Qed.

(** C9, as the code has it: for an incoming RTP packet and for an
    incoming data packet alike, every relay to a recipient is made
    while the recipients mutex of the source session is held, between
    its lock and its unlock. *)
Theorem relay_under_recipients_lock now h video rtp rlen buf dlen st hs p :
  relay_ready st h = true -> valid_header rtp = true ->
  handles st !! h = Some hs -> plugin_handle hs = Some p ->
  (exists out st' new,
     janus_lua_incoming_rtp now (Some h) video (Some rtp) rlen st = Done out st' /\
     trace st' = trace st ++ new /\
     relays_while (recipients_mutex p) true false new = true) /\
  (exists st' new,
     janus_lua_incoming_data (Some h) buf dlen st = Done tt st' /\
     trace st' = trace st ++ new /\
     relays_while (recipients_mutex p) true false new = true).
Proof.
  intros Hr Hv Hh Hp. destruct (valid_header_range _ Hv) as [Hs Ht].
  destruct (relay_ready_inv _ _ Hr) as (Hg & hs' & Hh' & [Hn | (p' & ss & Hp' & Hss & Hall)]).
  { congruence. }
  assert (hs' = hs) as -> by congruence. assert (p' = p) as -> by congruence.
  split.
  - destruct (incoming_rtp_run now h video rtp rlen st hs p ss Hh Hp Hss Hall Hg Hs Ht)
      as (rtp' & st' & _ & new & Hrun & _ & _ & _ & Htr & Hshape & _).
    exists (Some rtp'), st', new. repeat split; try done.
    by apply relay_trace_under_lock.
  - destruct (incoming_data_run h buf dlen st hs p ss Hh Hp Hss Hall)
      as (st' & new & Hrun & Htr & Hshape).
    exists st', new. repeat split; try done. by apply relay_trace_under_lock.
Qed.
End RelayLock.

(** C9 as stated fails: session 1 relays an audio packet to session 2,
    and the relay is made after the lock and before the unlock of the
    recipients mutex of session 1. *)
Lemma relay_outside_lock_counterexample :
  exists out st',
    @janus_lua_incoming_rtp sample_env 0 (Some 11%positive) false
      (Some sample_rtp) 172 relaying = Done out st' /\
    trace st' =
      [EvLock (recipients_mutex 1);
       EvRelayRtp (Some 12%positive) false
         (RtpPacket {| first_bytes := 32864; seq_number := 770;
                       timestamp := 16910020; ssrc := 99 |}) 172;
       EvUnlock (recipients_mutex 1)] /\
    relays_while (recipients_mutex 1) false false (trace st') = false.
Proof.
  eexists _, _. split; [vm_compute; reflexivity|]. split; reflexivity.
Defined.

(** C9 as the code has it, on the same packet and on a data message. *)
Lemma relay_under_recipients_lock_witness :
  (exists out st' new,
     @janus_lua_incoming_rtp sample_env 0 (Some 11%positive) false
       (Some sample_rtp) 172 relaying = Done out st' /\
     trace st' = trace relaying ++ new /\
     relays_while (recipients_mutex 1) true false new = true) /\
  (exists st' new,
     janus_lua_incoming_data (Some 11%positive) "hello" 5 relaying
     = Done tt st' /\
     trace st' = trace relaying ++ new /\
     relays_while (recipients_mutex 1) true false new = true).
Proof.
  exact (@relay_under_recipients_lock sample_env 0 11%positive false sample_rtp
           172 "hello"%string 5 relaying
           {| plugin_handle := Some 1%positive; stopped := 0 |} 1%positive
           eq_refl eq_refl eq_refl eq_refl).
Defined.

Section Pacing.
Context `{!environment}.

Lemma frame_is_Some_b st st' r :
  frame st' = frame st -> is_Some_b (heap st' !! r) = is_Some_b (heap st !! r).
Proof.
  intros E. pose proof (frame_by_lookup _ _ _ r E) as L.
  by destruct (heap st' !! r), (heap st !! r).
Qed.

Lemma relay_ready_frame st st' h :
  frame st' = frame st -> relay_ready st' h = relay_ready st h.
Proof.
  intros E. unfold relay_ready.
  rewrite (frame_by_gateway _ _ _ E), (frame_by_handles _ _ _ E).
  destruct (handles st !! h) as [hs|]; [|done].
  destruct (plugin_handle hs) as [p|]; [|done].
  pose proof (frame_by_lookup _ _ _ p E) as L.
  destruct (heap st' !! p) as [a|], (heap st !! p) as [b|]; try done.
  apply (inj Some) in L. destruct (timeless_fields _ _ L) as (_ & ->).
  f_equal. induction (recipients b) as [|r l IHl]; [done|].
  cbn. by rewrite IHl, (frame_is_Some_b _ _ r E).
Qed.

Lemma last_cons_default {A} (l : list A) : forall a d,
  List.last (a :: l) d = List.last l a.
Proof.
  induction l as [|b l IH]; intros a d; [done|].
  change (List.last (a :: b :: l) d) with (List.last (b :: l) d).
  rewrite (IH b d), (IH b a). done.
Qed.

(** C8: over any sequence of incoming video packets on a session with
    a keyframe interval of pli_freq seconds, a PLI goes out only when
    at least pli_freq seconds have passed since the recorded time of
    the last request; sending one records its time, so consecutive
    requests are at least one interval apart, and each packet adds at
    most one request. *)
Theorem pli_paced h packets : forall st hs p ss,
  relay_ready st h = true ->
  handles st !! h = Some hs -> plugin_handle hs = Some p ->
  heap st !! p = Some ss -> 0 < pli_freq ss ->
  forallb (fun x : Z * rtp_header * Z => valid_header x.1.2) packets = true ->
  exists sent st' ss',
    incoming_video_packets h packets st = Done sent st' /\
    heap st' !! p = Some ss' /\
    pli_freq ss' = pli_freq ss /\
    spaced (pli_freq ss * G_USEC_PER_SEC) (pli_latest ss) sent /\
    pli_latest ss' = List.last sent (pli_latest ss) /\
    pli_count (trace st') = (pli_count (trace st) + length sent)%nat.
Proof.
  induction packets as [|[[now rtp] len] packets IH]; intros st hs p ss Hr Hh Hp Hss Hpos Hv.
  - exists [], st, ss. cbn. rewrite run_ret. repeat split; try done.
  - cbn in Hv. apply andb_prop in Hv as [Hv1 Hv].
    destruct (valid_header_range _ Hv1) as [Hs Ht].
    destruct (relay_ready_inv _ _ Hr) as (Hg & hs' & Hh' & [Hn | (p' & ss0 & Hp' & Hss' & Hall)]).
    { congruence. }
    assert (hs' = hs) as -> by congruence. assert (p' = p) as -> by congruence.
    assert (ss0 = ss) as -> by congruence.
    destruct (incoming_rtp_run now h true rtp len st hs p ss Hh Hp Hss Hall Hg Hs Ht)
      as (rtp' & st1 & ss1 & new & Hrun & _ & Hfr & Hss1 & Htr & _ & Hpli).
    pose proof (frame_by_lookup _ _ _ p Hfr) as L. rewrite Hss, Hss1 in L.
    apply (inj Some) in L. destruct (timeless_fields _ _ L) as (Hpf & _).
    destruct (IH st1 hs p ss1) as (sent & st' & ss' & Hrest & Hfin & Hpf' & Hsp & Hlast & Hcnt).
    { by rewrite (relay_ready_frame _ _ _ Hfr). }
    { by rewrite (frame_by_handles _ _ _ Hfr). }
    { done. } { done. } { lia. } { done. }
    cbn [incoming_video_packets]. rewrite bind_gets.
    rewrite (bind_Done _ _ _ _ _ Hrun), bind_gets.
    rewrite (bind_Done _ _ _ _ _ Hrest), run_ret.
    rewrite Htr, pli_count_app in *. rewrite Hpf in *.
    destruct Hpli as [(Hsame & Hzero) | (_ & _ & Hdue & Hnow & Hone)].
    + rewrite Hzero in *. replace (pli_count (trace st) <? pli_count (trace st) + 0)%nat with false
        by (symmetry; apply Nat.ltb_ge; lia).
      exists sent, st', ss'. rewrite Hsame in *. repeat split; try done. lia.
    + rewrite Hone in *. replace (pli_count (trace st) <? pli_count (trace st) + 1)%nat with true
        by (symmetry; apply Nat.ltb_lt; lia).
      exists (now :: sent), st', ss'. rewrite Hnow in *. split; [done|]. split; [done|].
      split; [done|]. split; [by split|]. split.
      * rewrite Hlast. symmetry. apply last_cons_default.
      * cbn [length]. lia.
Qed.
End Pacing.

(** C8 on the four packets of [video_burst], with an interval of two
    seconds: requests go out with the second and the fourth packet. *)
Lemma pli_paced_witness :
  exists sent st' ss',
    @incoming_video_packets sample_env 11%positive video_burst relaying
    = Done sent st' /\
    heap st' !! 1%positive = Some ss' /\
    pli_freq ss' = 2 /\
    spaced (2 * G_USEC_PER_SEC) 0 sent /\
    pli_latest ss' = List.last sent 0 /\
    pli_count (trace st') = (pli_count (trace relaying) + length sent)%nat.
Proof.
  exact (@pli_paced sample_env 11%positive video_burst relaying
           {| plugin_handle := Some 1%positive; stopped := 0 |} 1%positive
           (set_rates 0 2 0
              (set_recipients [2%positive]
                 (set_flags (false, false, false, true, true, true)
                    (set_ref 2 (sample_session 11 7)))))
           eq_refl eq_refl eq_refl eq_refl eq_refl eq_refl).
Defined.

Example video_burst_requests :
  result (@incoming_video_packets sample_env 11%positive video_burst relaying)
  = Some [2000000; 4500000].
Proof. vm_compute. reflexivity. Qed.

(** ** Recipients *)

Lemma session_ext (a b : janus_lua_session) :
  handle a = handle b -> id a = id b ->
  accept_audio a = accept_audio b -> accept_video a = accept_video b ->
  accept_data a = accept_data b -> send_audio a = send_audio b ->
  send_video a = send_video b -> send_data a = send_data b ->
  bitrate a = bitrate b -> pli_freq a = pli_freq b ->
  pli_latest a = pli_latest b -> rtpctx a = rtpctx b ->
  recipients a = recipients b -> arc a = arc b -> vrc a = vrc b ->
  drc a = drc b -> started a = started b -> hangingup a = hangingup b ->
  destroyed a = destroyed b -> ref a = ref b -> a = b.
Proof. destruct a, b; cbn; intros; by subst. Qed.

Ltac heap_eq HA HB :=
  apply map_eq; intros ?i; unfold add_link, remove_link;
  repeat (rewrite ?lookup_insert, ?lookup_alter; repeat case_decide; subst; try congruence);
  rewrite ?HA, ?HB; cbn; try reflexivity;
  try (f_equal; apply session_ext; cbn; try reflexivity; try lia).

Section Recipients.
Context `{!environment}.

Lemma done_state {A} (a : A) st st' tr hp :
  trace st' = trace st ++ tr -> heap st' = hp ->
  set_trace [] (set_heap ∅ st') = set_trace [] (set_heap ∅ st) ->
  Done a st' = Done a (set_trace (trace st ++ tr) (set_heap hp st)).
Proof.
  intros Ht Hh Hr. f_equal. destruct st, st'. cbn in *. subst.
  by injection Hr as -> -> -> -> -> -> -> -> -> -> -> -> -> -> ->.
Qed.

(** addRecipient on two live sessions: nothing changes when the
    recipient is already in the list, otherwise the link is added. *)
Lemma addrecipient_run st av bv pA pB sA sB :
  ids st !! to_guint32 (value_tonumber (Some av)) = Some pA ->
  ids st !! to_guint32 (value_tonumber (Some bv)) = Some pB ->
  heap st !! pA = Some sA -> heap st !! pB = Some sB ->
  destroyed sA = 0 -> destroyed sB = 0 -> 0 < ref sA -> 0 < ref sB ->
  exists tr,
    janus_lua_method_addrecipient [av; bv] st
    = Done 0 (set_trace (trace st ++ tr)
                (set_heap (if g_slist_find (recipients sA) pB then heap st
                           else add_link pA pB (heap st)) st)).
Proof.
  intros Ha Hb HA HB HdA HdB HrA HrB.
  unfold janus_lua_method_addrecipient. args_ok. unfold_prims.
  repeat mstep. rewrite Ha. repeat mstep. rewrite HdA. cbn. repeat mstep.
  rewrite Hb.
  destruct (decide (pA = pB)) as [<-|Hne].
  - assert (sB = sA) as -> by congruence.
    repeat mstep. rewrite HdA. cbn. repeat mstep.
    destruct (g_slist_find (recipients sA) pA) eqn:Hfind; cbn; repeat mstep.
    + eexists. apply done_state; cbn.
      * rewrite <- !app_assoc. reflexivity.
      * apply insert_id. rewrite HA. f_equal. destruct sA; cbn; f_equal; lia.
      * reflexivity.
    + eexists. apply done_state; cbn.
      * rewrite <- !app_assoc. reflexivity.
      * heap_eq HA HB.
      * reflexivity.
  - repeat mstep. rewrite HdB. cbn. repeat mstep.
    destruct (g_slist_find (recipients sA) pB) eqn:Hfind; cbn; repeat mstep.
    + eexists. apply done_state; cbn.
      * rewrite <- !app_assoc. reflexivity.
      * heap_eq HA HB.
      * reflexivity.
    + eexists. apply done_state; cbn.
      * rewrite <- !app_assoc. reflexivity.
      * heap_eq HA HB.
      * reflexivity.
Qed.

(** removeRecipient on two allocated sessions whose references are not
    about to run out. *)
Lemma removerecipient_run st av bv pA pB sA sB :
  ids st !! to_guint32 (value_tonumber (Some av)) = Some pA ->
  ids st !! to_guint32 (value_tonumber (Some bv)) = Some pB ->
  heap st !! pA = Some sA -> heap st !! pB = Some sB ->
  0 < ref sA -> 0 < ref sB ->
  (g_slist_find (recipients sA) pB = true ->
   if decide (pA = pB) then 2 < ref sA else 1 < ref sA /\ 1 < ref sB) ->
  exists tr,
    janus_lua_method_removerecipient [av; bv] st
    = Done 0 (set_trace (trace st ++ tr)
                (set_heap (if g_slist_find (recipients sA) pB
                           then remove_link pA pB (heap st)
                           else heap st) st)).
Proof.
  intros Ha Hb HA HB HrA HrB Hheld.
  unfold janus_lua_method_removerecipient. args_ok. unfold_prims.
  repeat mstep. rewrite Ha. repeat mstep. rewrite Hb.
  destruct (decide (pA = pB)) as [<-|Hne].
  - assert (sB = sA) as -> by congruence.
    repeat mstep.
    destruct (g_slist_find (recipients sA) pA) eqn:Hfind; cbn; repeat mstep.
    + specialize (Hheld eq_refl). repeat mstep.
      eexists. apply done_state; cbn.
      * rewrite <- !app_assoc. reflexivity.
      * heap_eq HA HB.
      * reflexivity.
    + eexists. apply done_state; cbn.
      * rewrite <- !app_assoc. reflexivity.
      * apply insert_id. rewrite HA. f_equal. apply session_ext; cbn; try reflexivity; lia.
      * reflexivity.
  - repeat mstep.
    destruct (g_slist_find (recipients sA) pB) eqn:Hfind; cbn; repeat mstep.
    + destruct (Hheld eq_refl) as [H1 H2]. repeat mstep.
      eexists. apply done_state; cbn.
      * rewrite <- !app_assoc. reflexivity.
      * heap_eq HA HB.
      * reflexivity.
    + eexists. apply done_state; cbn.
      * rewrite <- !app_assoc. reflexivity.
      * heap_eq HA HB.
      * reflexivity.
Qed.

Lemma g_slist_find_iff l x : g_slist_find l x = true <-> x ∈ l.
Proof.
  unfold g_slist_find. rewrite existsb_exists. split.
  - intros (y & Hin & Heq). apply Pos.eqb_eq in Heq as ->. by apply list_elem_of_In.
  - intros Hin. exists x. split; [by apply list_elem_of_In|apply Pos.eqb_refl].
Qed.

Lemma g_slist_find_false l x : g_slist_find l x = false <-> x ∉ l.
Proof.
  rewrite <- g_slist_find_iff. by destruct (g_slist_find l x).
Qed.

Lemma g_slist_remove_cons y l x :
  g_slist_remove (y :: l) x = if Pos.eqb y x then l else y :: g_slist_remove l x.
Proof. done. Qed.

Lemma g_slist_remove_append l x :
  x ∉ l -> g_slist_remove (g_slist_append l x) x = l.
Proof.
  unfold g_slist_append. induction l as [|y l IH]; intros Hn.
  - cbn [app]. by rewrite g_slist_remove_cons, Pos.eqb_refl.
  - apply not_elem_of_cons in Hn as [Hne Hn].
    cbn [app]. rewrite g_slist_remove_cons.
    destruct (Pos.eqb_spec y x) as [->|_]; [done|]. by rewrite IH.
Qed.

Lemma remove_add_link (hp : gmap positive janus_lua_session) pA pB sA sB :
  hp !! pA = Some sA -> hp !! pB = Some sB -> pB ∉ recipients sA ->
  remove_link pA pB (add_link pA pB hp) = hp.
Proof.
  intros HA HB Hn. apply map_eq. intros i. unfold add_link, remove_link.
  repeat (rewrite ?lookup_alter; repeat case_decide; subst; try congruence);
    rewrite ?HA, ?HB; cbn; try reflexivity;
    f_equal; apply session_ext; cbn; try reflexivity; try lia;
    by apply g_slist_remove_append.
Qed.

Lemma addrecipient_repeated n : forall st av bv pA pB sA sB,
  ids st !! to_guint32 (value_tonumber (Some av)) = Some pA ->
  ids st !! to_guint32 (value_tonumber (Some bv)) = Some pB ->
  heap st !! pA = Some sA -> heap st !! pB = Some sB ->
  destroyed sA = 0 -> destroyed sB = 0 -> 0 < ref sA -> 0 < ref sB ->
  NoDup (recipients sA) ->
  exists st' sA',
    repeated n (janus_lua_method_addrecipient [av; bv]) st = Done 0 st' /\
    heap st' !! pA = Some sA' /\ NoDup (recipients sA') /\
    (pB ∈ recipients sA \/ (0 < n)%nat -> pB ∈ recipients sA').
Proof.
  induction n as [|n IH]; intros st av bv pA pB sA sB Ha Hb HA HB HdA HdB HrA HrB Hnd.
  - exists st, sA. cbn. rewrite run_ret. repeat split; try done. intros [?|?]; [done|lia].
  - destruct (addrecipient_run st av bv pA pB sA sB Ha Hb HA HB HdA HdB HrA HrB) as [tr Hrun].
    cbn [repeated]. rewrite (bind_Done _ _ _ _ _ Hrun). cbn.
    set (st1 := set_trace _ _) in *.
    destruct (g_slist_find (recipients sA) pB) eqn:Hfind.
    + destruct (IH st1 av bv pA pB sA sB) as (st' & sA' & Hr' & HA' & Hnd' & Hin'); try done.
      exists st', sA'. repeat split; try done. intros _. apply Hin'. left.
      by apply g_slist_find_iff.
    + apply g_slist_find_false in Hfind.
      assert (exists sA1 sB1,
                heap st1 !! pA = Some sA1 /\ heap st1 !! pB = Some sB1 /\
                destroyed sA1 = 0 /\ destroyed sB1 = 0 /\ 0 < ref sA1 /\ 0 < ref sB1 /\
                recipients sA1 = recipients sA ++ [pB])
        as (sA1 & sB1 & HA1 & HB1 & HdA1 & HdB1 & HrA1 & HrB1 & Hrec).
      { subst st1. cbn. unfold add_link.
        destruct (decide (pA = pB)) as [<-|Hne].
        - assert (sB = sA) as -> by congruence.
          rewrite !lookup_alter, HA. case_decide; [|done]. cbn.
          eexists _, _. split; [reflexivity|]. split; [reflexivity|]. cbn.
          repeat split; try done; lia.
        - rewrite !lookup_alter, HA, HB. repeat case_decide; try congruence. cbn.
          eexists _, _. split; [reflexivity|]. split; [reflexivity|]. cbn.
          repeat split; try done; lia. }
      destruct (IH st1 av bv pA pB sA1 sB1) as (st' & sA' & Hr' & HA' & Hnd' & Hin'); try done.
      { rewrite Hrec. apply NoDup_app. split; [done|]. split.
        - intros x Hx Hx'. apply list_elem_of_singleton in Hx' as ->. done.
        - apply NoDup_singleton. }
      exists st', sA'. repeat split; try done. intros _. apply Hin'. left.
      rewrite Hrec. apply elem_of_app. right. by apply list_elem_of_singleton.
Qed.

End Recipients.



(** ** The registry *)

Section Registry.
Context `{!environment}.

Lemma recorder_free_run rc st :
  janus_recorder_free rc st
  = Done tt (set_recorder_store (match rc with Some r => delete r (recorders st)
                                  | None => recorders st end) st).
Proof.
  unfold janus_recorder_free. destruct rc; [by rewrite run_modify|].
  rewrite run_ret. by destruct st.
Qed.

Lemma bind_recorder_free {B} rc (k : unit -> M B) st :
  bind (janus_recorder_free rc) k st
  = k tt (set_recorder_store (match rc with Some r => delete r (recorders st)
                              | None => recorders st end) st).
Proof. by rewrite (bind_Done _ _ _ _ _ (recorder_free_run rc st)). Qed.

Lemma destroy_session_run st h hs p ss :
  initialized st <> 0 -> stopping st = 0 ->
  handles st !! h = Some hs -> plugin_handle hs = Some p ->
  sessions st !! h = Some p ->
  heap st !! p = Some ss -> handle ss = Some h ->
  destroyed ss = 0 -> 0 < ref ss ->
  exists st',
    janus_lua_destroy_session (Some h) st = Done None st' /\
    sessions st' !! h = None /\
    handles st' = handles st /\
    (1 < ref ss ->
       ids st' = ids st /\
       heap st' = <[p := set_ref (ref ss - 1) (set_destroyed 1 ss)]> (heap st)) /\
    (ref ss = 1 ->
       ids st' = delete (id ss) (ids st) /\ heap st' = delete p (heap st)).
Proof.
  intros Hi Hs Hh Hp Hsess Hss Hhandle Hd Hr.
  unfold janus_lua_destroy_session, g_hash_table_remove_sessions,
    janus_lua_session_destroy. unfold_prims.
  repeat mstep. rewrite Hs. destruct (Z.eqb_spec (initialized st) 0) as [|_]; [done|].
  cbn. rewrite (bind_deref_handle _ _ _ _ Hh), Hp. repeat mstep.
  rewrite Hsess. repeat mstep. rewrite Hd. cbn. repeat mstep.
  destruct (decide (ref ss = 1)) as [H1|Hn1].
  - unfold janus_refcount_decrease, janus_lua_session_free. unfold_prims.
    repeat mstep. rewrite H1. change (1 - 1 =? 0) with true. cbv iota.
    repeat mstep. rewrite Hhandle.
    rewrite bind_deref_handle with (hs := hs) by (cbn; done).
    repeat mstep. rewrite bind_recorder_free. repeat mstep.
    rewrite bind_recorder_free. repeat mstep. rewrite bind_recorder_free. repeat mstep. eexists. split; [reflexivity|]. cbn.
    rewrite lookup_delete_eq. split; [done|]. split; [done|].
    split; [lia|]. intros _. split; [done|].
    by rewrite delete_insert_eq.
  - repeat mstep. eexists. split; [reflexivity|]. cbn.
    rewrite lookup_delete_eq. split; [done|]. split; [done|].
    split; [|lia]. intros _. split; [done|]. done.
Qed.

Lemma create_session_run st draws h hs sid :
  initialized st <> 0 -> stopping st = 0 ->
  handles st !! h = Some hs -> sessions st !! h = None ->
  draw_session_id draws (ids st) = Some sid ->
  exists st' ss,
    janus_lua_create_session draws (Some h) st = Done None st' /\
    sessions st' !! h = Some (next_block st) /\
    ids st' !! sid = Some (next_block st) /\
    back_pointer st' h = Some (next_block st) /\
    heap st' !! next_block st = Some ss /\
    id ss = sid /\ handle ss = Some h /\ destroyed ss = 0 /\ ref ss = 1 /\
    recipients ss = [].
Proof.
  intros Hi Hs Hh Hnone Hdraw.
  unfold janus_lua_create_session, g_hash_table_insert_sessions,
    janus_lua_session_destroy. unfold_prims.
  repeat mstep. rewrite Hs. destruct (Z.eqb_spec (initialized st) 0) as [|_]; [done|].
  cbn. repeat mstep. rewrite Hdraw. repeat mstep.
  erewrite bind_deref_handle by (cbn; exact Hh). repeat mstep. rewrite Hnone. repeat mstep.
  eexists _, _. split; [reflexivity|]. unfold back_pointer. cbn.
  rewrite !lookup_insert_eq. done.
Qed.

End Registry.



(** ** Deferred execution *)

Section Deferred.
Context `{!environment}.

Ltac blocks_eq Hfresh :=
  apply map_eq; intros ?i;
  repeat (rewrite ?lookup_delete, ?lookup_insert; repeat case_decide; subst; try congruence);
  try reflexivity; symmetry; apply Hfresh; lia.

Lemma closepc_launch_failure st idv p :
  registry_ok st = true -> blocks_fresh st ->
  lookup_by_id st (to_guint32 (value_tonumber (Some idv))) = Some p ->
  exists st',
    janus_lua_method_closepc false [idv] st = Done 1 st' /\
    heap st' = heap st /\ blocks st' = blocks st /\ threads st' = threads st.
Proof.
  intros Hok Hfresh Hl.
  destruct (lookup_by_id_Some _ _ _ Hl) as (ss & Hi & Hh & Hd).
  destruct (registry_ok_lookup _ _ _ Hok Hi) as (ss' & Hh' & Hr & _).
  assert (ss' = ss) as -> by congruence.
  unfold janus_lua_method_closepc. args_ok.
  pose proof (find_session_run st (to_guint32 (value_tonumber (Some idv))) Hok) as Hf.
  rewrite Hl in Hf.
  rewrite (bind_Done _ _ _ _ _ Hf). cbn. unfold g_thread_try_new. unfold_prims.
  repeat mstep. eexists. split; [reflexivity|]. cbn.
  split; [|split; [|done]].
  - apply insert_id. rewrite Hh. f_equal. apply session_ext; cbn; try done; lia.
  - blocks_eq Hfresh.
Qed.

Lemma pushevent_launch_failure st push_res idv tv ev jv p et jt :
  registry_ok st = true -> blocks_fresh st ->
  lookup_by_id st (to_guint32 (value_tonumber (Some idv))) = Some p ->
  value_tostring (Some ev) = Some et -> json_loads_ok et = true ->
  value_tostring (Some jv) = Some jt -> json_loads_ok jt = true ->
  exists st',
    janus_lua_method_pushevent false push_res [idv; tv; ev; jv] st = Done 1 st' /\
    heap st' = heap st /\ blocks st' = blocks st /\ threads st' = threads st.
Proof.
  intros Hok Hfresh Hl Het Hev Hjt Hjv.
  destruct (lookup_by_id_Some _ _ _ Hl) as (ss & Hi & Hh & Hd).
  destruct (registry_ok_lookup _ _ _ Hok Hi) as (ss' & Hh' & Hr & _).
  assert (ss' = ss) as -> by congruence.
  unfold janus_lua_method_pushevent. args_ok. cbn. rewrite Het, Hjt.
  unfold json_loads. rewrite Hev, Hjv. unfold g_thread_try_new. unfold_prims.
  repeat mstep. rewrite Hi. repeat mstep. rewrite Hd. cbn. repeat mstep.
  destruct (value_tostring (Some tv)) as [t|]; repeat mstep;
    (eexists; split; [reflexivity|]; cbn; split; [|split; [|done]]).
  - apply insert_id. rewrite Hh. f_equal. apply session_ext; cbn; try done; lia.
  - blocks_eq Hfresh.
  - apply insert_id. rewrite Hh. f_equal. apply session_ext; cbn; try done; lia.
  - blocks_eq Hfresh.
Qed.
(** C1, what the code does when the helper thread cannot be started:
    pushEvent (with a jsep) and closePc release the event, the jsep,
    the transaction copy, the task and the session reference before
    they return -- but the status they hand to the script is 1, not a
    negative number. *)
Theorem launch_failure_status st push_res idv tv ev jv p et jt :
  registry_ok st = true -> blocks_fresh st ->
  lookup_by_id st (to_guint32 (value_tonumber (Some idv))) = Some p ->
  value_tostring (Some ev) = Some et -> json_loads_ok et = true ->
  value_tostring (Some jv) = Some jt -> json_loads_ok jt = true ->
  (exists st',
     janus_lua_method_pushevent false push_res [idv; tv; ev; jv] st = Done 1 st' /\
     heap st' = heap st /\ blocks st' = blocks st /\ threads st' = threads st) /\
  (exists st',
     janus_lua_method_closepc false [idv] st = Done 1 st' /\
     heap st' = heap st /\ blocks st' = blocks st /\ threads st' = threads st).
Proof.
  intros Hok Hfresh Hl Het Hev Hjt Hjv. split.
  - by eapply pushevent_launch_failure.
  - by eapply closepc_launch_failure.
Qed.

End Deferred.

(** C1 on session 7: pushEvent with a jsep and closePc, when
    g_thread_try_new fails. *)
Lemma launch_failure_status_witness :
  (exists st',
     @janus_lua_method_pushevent sample_env false 0
       [LNumber 7; LString "tx"; LString "{}"; LString "{sdp}"] two_sessions
     = Done 1 st' /\
     heap st' = heap two_sessions /\ blocks st' = blocks two_sessions /\
     threads st' = threads two_sessions) /\
  (exists st',
     @janus_lua_method_closepc sample_env false [LNumber 7] two_sessions
     = Done 1 st' /\
     heap st' = heap two_sessions /\ blocks st' = blocks two_sessions /\
     threads st' = threads two_sessions).
Proof.
  apply (@launch_failure_status sample_env two_sessions 0
           (LNumber 7) (LString "tx") (LString "{}") (LString "{sdp}")
           1%positive "{}"%string "{sdp}"%string);
    try reflexivity.
  intros q _. apply lookup_empty.
Defined.

(** ** Recording *)

Section Recording.
Context `{!environment}.

Lemma bind_recorder_create {B} f c n (k : option positive -> M B) st :
  janus_recorder_create_ok f c n = true ->
  bind (janus_recorder_create f c n) k st
  = k (Some (next_block st))
      (set_recorder_store
         (<[next_block st := {| rec_folder := f; rec_codec := c;
                                rec_filename := n; rec_writable := true;
                                rec_frames := [] |}]> (recorders st))
         (set_blocks (blocks st) (Pos.succ (next_block st)) st)).
Proof.
  intros E. unfold janus_recorder_create. rewrite E. by repeat mstep.
Qed.

(** C2, what the code does with a medium that is already being
    recorded: the call answers -1 and the session (its three recorder
    fields and its reference count) is as before, but the recorder that
    was created for the rejected medium before the duplicate test is
    never released: it stays open in the recorder store, so the failed
    call has changed the recorder state. *)
Theorem startrecording_duplicate_leaks st idv tv cv fv nv p ss ty :
  registry_ok st = true ->
  lookup_by_id st (to_guint32 (value_tonumber (Some idv))) = Some p ->
  heap st !! p = Some ss ->
  value_tostring (Some tv) = Some ty ->
  already_recording ty ss = true ->
  janus_recorder_create_ok (value_tostring (Some fv)) (value_tostring (Some cv))
    (value_tostring (Some nv)) = true ->
  recorders st !! next_block st = None ->
  exists st',
    janus_lua_method_startrecording [idv; tv; cv; fv; nv] st = Done (-1) st' /\
    heap st' = heap st /\
    recorders st'
    = <[next_block st := {| rec_folder := value_tostring (Some fv);
                            rec_codec := value_tostring (Some cv);
                            rec_filename := value_tostring (Some nv);
                            rec_writable := true; rec_frames := [] |}]>
        (recorders st) /\
    recorders st' <> recorders st.
Proof.
  intros Hok Hl Hh Hty Hdup Hcreate Hfresh.
  destruct (lookup_by_id_Some _ _ _ Hl) as (ss0 & Hi & Hh0 & Hd).
  assert (ss0 = ss) as -> by congruence.
  destruct (registry_ok_lookup _ _ _ Hok Hi) as (ss' & Hh' & Hr & _).
  assert (ss' = ss) as -> by congruence.
  unfold janus_lua_method_startrecording. args_ok.
  pose proof (find_session_run st (to_guint32 (value_tonumber (Some idv))) Hok) as Hf.
  rewrite Hl in Hf. cbn.
  rewrite (bind_Done _ _ _ _ _ Hf). cbn. unfold startrecording_turn. unfold_prims.
  repeat mstep.
  rewrite (bind_recorder_create _ _ _ _ _ Hcreate). rewrite Hty.
  repeat mstep.
  unfold already_recording in Hdup.
  destruct (strcasecmp ty "audio" =? 0);
    [|destruct (strcasecmp ty "video" =? 0);
      [|destruct (strcasecmp ty "data" =? 0); [|discriminate]]];
    rewrite Hdup; repeat mstep;
    rewrite !bind_recorder_free; repeat mstep.
  all: eexists; split; [reflexivity|]; cbn; split;
    [apply insert_id; rewrite Hh; f_equal; apply session_ext; cbn; done
    |split; [done|]];
    intros E; apply (f_equal (fun m => m !! next_block st)) in E;
    rewrite lookup_insert_eq, Hfresh in E; discriminate.
Qed.

End Recording.

(** C2 on session 7, whose audio is being recorded: a second
    startRecording for audio. *)
Lemma startrecording_duplicate_leaks_witness :
  exists st',
    @janus_lua_method_startrecording sample_env
      [LNumber 7; LString "audio"; LString "opus"; LString "/tmp"; LString "second"]
      recording = Done (-1) st' /\
    heap st' = heap recording /\
    recorders st'
    = <[100%positive := {| rec_folder := Some "/tmp"%string;
                           rec_codec := Some "opus"%string;
                           rec_filename := Some "second"%string;
                           rec_writable := true; rec_frames := [] |}]>
        (recorders recording) /\
    recorders st' <> recorders recording.
Proof.
  apply (@startrecording_duplicate_leaks sample_env recording
           (LNumber 7) (LString "audio") (LString "opus") (LString "/tmp")
           (LString "second") 1%positive
           (set_arc (Some 50%positive) (sample_session 11 7)) "audio"%string);
    reflexivity.
Defined.

(** The same within one call: audio requested twice for session 8,
    which records nothing.  The first recorder (block 100) is released
    by the error path, the second (block 101) is not. *)
Example startrecording_twice_in_one_call :
  match @janus_lua_method_startrecording sample_env
          [LNumber 8; LString "audio"; LString "opus"; LString "/tmp"; LString "a";
           LString "audio"; LString "opus"; LString "/tmp"; LString "b"]
          recording with
  | Done r st' =>
      r = -1 /\ heap st' = heap recording /\
      recorders st' !! 100%positive = None /\
      is_Some_b (recorders st' !! 101%positive) = true
  | Fault _ => False
  end.
Proof. vm_compute. repeat split; reflexivity. Qed.

(** * Further properties of the bridge *)

(** ** Common steps *)

Ltac heap_done :=
  first [ reflexivity
        | f_equal; first [done | apply session_ext; cbn; first [done | lia]]
        | apply insert_id; cbn;
          match goal with H : heap _ !! _ = Some _ |- _ => rewrite H end;
          f_equal; first [done | apply session_ext; cbn; first [done | lia]] ].

Ltac finish_run :=
  apply done_state; cbn; [by rewrite <- ?app_assoc | heap_done | done].

Ltac blocks_done Hfresh :=
  apply map_eq; intros ?i;
  repeat (rewrite ?lookup_delete, ?lookup_insert; repeat case_decide; subst; try congruence);
  try reflexivity; symmetry; apply Hfresh; lia.

Ltac arity_ne :=
  match goal with
  | |- context [lua_gettop ?s =? ?n] =>
      destruct (Z.eqb_spec (lua_gettop s) n) as [?E|?E];
      [unfold lua_gettop in *; lia|]
  end.

Lemma to_int_in_range z : INT_MIN <= z < 2 ^ 31 -> to_int z = z.
Proof.
  intros [Hlo Hhi]. unfold to_int.
  destruct (Z.leb_spec INT_MIN z); [|lia]. destruct (Z.ltb_spec z (2 ^ 31)); [done|lia].
Qed.

Section Lookup.
Context `{!environment}.

Lemma find_session_none {B} st sid (k : option positive -> M B) :
  registry_ok st = true -> lookup_by_id st sid = None ->
  bind (find_session sid) k st
  = k None (set_trace (trace st ++ [EvLock sessions_mutex; EvUnlock sessions_mutex]) st).
Proof.
  intros Hok Hl. pose proof (find_session_run st sid Hok) as Hf. rewrite Hl in Hf.
  by rewrite (bind_Done _ _ _ _ _ Hf).
Qed.

Lemma find_session_some {B} st sid p (k : option positive -> M B) :
  registry_ok st = true -> lookup_by_id st sid = Some p ->
  bind (find_session sid) k st
  = k (Some p) (set_trace (trace st ++ [EvLock sessions_mutex]) st).
Proof.
  intros Hok Hl. pose proof (find_session_run st sid Hok) as Hf. rewrite Hl in Hf.
  by rewrite (bind_Done _ _ _ _ _ Hf).
Qed.

(** What the registry invariant says about a session that was found. *)
Lemma live_session st sid p ss :
  registry_ok st = true -> lookup_by_id st sid = Some p -> heap st !! p = Some ss ->
  ids st !! sid = Some p /\ destroyed ss = 0 /\ 0 < ref ss /\ id ss = sid.
Proof.
  intros Hok Hl Hh.
  destruct (lookup_by_id_Some _ _ _ Hl) as (ss0 & Hi & Hh0 & Hd).
  destruct (registry_ok_lookup _ _ _ Hok Hi) as (ss1 & Hh1 & Hr & Hid).
  assert (ss0 = ss) as -> by congruence. assert (ss1 = ss) as -> by congruence.
  done.
Qed.

End Lookup.

Global Arguments janus_lua_async_event_helper : simpl never.

Ltac blocks_at :=
  repeat (rewrite lookup_insert; case_decide; [try lia; try done|try lia]).

(** ** Calls that are turned down *)

Section Guards.
Context `{!environment}.

(** X1: every call-out that counts its arguments does so before
    anything else: with a wrong number of arguments it answers -1 and
    writes one error line to the log; no mutex is taken and nothing
    else in the plugin state changes. *)
Theorem wrong_arity_rejected st s spawn_ok push_res now :
  (length s <> 4%nat -> rejected st (janus_lua_method_pushevent spawn_ok push_res s st)) /\
  (length s <> 2%nat -> rejected st (janus_lua_method_notifyevent s st)) /\
  (length s <> 1%nat -> rejected st (janus_lua_method_closepc spawn_ok s st)) /\
  (length s <> 4%nat -> rejected st (janus_lua_method_configuremedium s st)) /\
  (length s <> 2%nat -> rejected st (janus_lua_method_addrecipient s st)) /\
  (length s <> 2%nat -> rejected st (janus_lua_method_removerecipient s st)) /\
  (length s <> 2%nat -> rejected st (janus_lua_method_setbitrate s st)) /\
  (length s <> 2%nat -> rejected st (janus_lua_method_setplifreq s st)) /\
  (length s <> 1%nat -> rejected st (janus_lua_method_sendpli now s st)) /\
  (length s <> 4%nat -> rejected st (janus_lua_method_relayrtp s st)) /\
  (length s <> 4%nat -> rejected st (janus_lua_method_relayrtcp s st)) /\
  (length s <> 3%nat -> rejected st (janus_lua_method_relaydata s st)) /\
  (length s <> 5%nat -> length s <> 9%nat -> length s <> 13%nat ->
   rejected st (janus_lua_method_startrecording s st)) /\
  (length s <> 2%nat -> length s <> 3%nat -> length s <> 4%nat ->
   rejected st (janus_lua_method_stoprecording s st)).
Proof.
  unfold rejected.
  repeat split; intros;
    [ unfold janus_lua_method_pushevent | unfold janus_lua_method_notifyevent
    | unfold janus_lua_method_closepc | unfold janus_lua_method_configuremedium
    | unfold janus_lua_method_addrecipient | unfold janus_lua_method_removerecipient
    | unfold janus_lua_method_setbitrate | unfold janus_lua_method_setplifreq
    | unfold janus_lua_method_sendpli | unfold janus_lua_method_relayrtp
    | unfold janus_lua_method_relayrtcp | unfold janus_lua_method_relaydata
    | unfold janus_lua_method_startrecording | unfold janus_lua_method_stoprecording ];
    cbv zeta; repeat arity_ne; cbn [negb andb]; unfold_prims; rewrite bind_emit, run_ret;
    eauto.
Qed.

(** X2: for an id that does not resolve to a live session (unknown, or
    flagged as destroyed), the call-outs that look the session up
    through the destroyed test answer -1 having done nothing but lock
    and unlock sessions_mutex: no session is touched and no reference
    is taken.  For the three relay call-outs the payload is taken to be
    a string and the length to be at least 1 and within the range of
    int. *)
Theorem unknown_session_rejected st idv :
  registry_ok st = true ->
  lookup_by_id st (to_guint32 (value_tonumber (Some idv))) = None ->
  let st' := set_trace (trace st ++ [EvLock sessions_mutex; EvUnlock sessions_mutex]) st in
  (forall spawn_ok, janus_lua_method_closepc spawn_ok [idv] st = Done (-1) st') /\
  (forall a b c, janus_lua_method_configuremedium [idv; a; b; c] st = Done (-1) st') /\
  (forall a, janus_lua_method_addrecipient [idv; a] st = Done (-1) st') /\
  (forall a, janus_lua_method_setbitrate [idv; a] st = Done (-1) st') /\
  (forall a, janus_lua_method_setplifreq [idv; a] st = Done (-1) st') /\
  (forall now, janus_lua_method_sendpli now [idv] st = Done (-1) st') /\
  (forall v bv lv,
     is_Some (value_tostring (Some bv)) ->
     1 <= value_tonumber (Some lv) < 2 ^ 31 ->
     janus_lua_method_relayrtp [idv; v; bv; lv] st = Done (-1) st' /\
     janus_lua_method_relayrtcp [idv; v; bv; lv] st = Done (-1) st' /\
     janus_lua_method_relaydata [idv; bv; lv] st = Done (-1) st') /\
  (forall rest,
     (length rest = 4 \/ length rest = 8 \/ length rest = 12)%nat ->
     janus_lua_method_startrecording (idv :: rest) st = Done (-1) st') /\
  (forall rest,
     (length rest = 1 \/ length rest = 2 \/ length rest = 3)%nat ->
     janus_lua_method_stoprecording (idv :: rest) st = Done (-1) st').
Proof.
  intros Hok Hl st'.
  repeat split; intros.
  - unfold janus_lua_method_closepc. args_ok. cbn.
    rewrite find_session_none by done. unfold_prims. by rewrite run_ret.
  - unfold janus_lua_method_configuremedium. args_ok. cbn.
    rewrite find_session_none by done. unfold_prims. by rewrite run_ret.
  - unfold janus_lua_method_addrecipient. args_ok. cbn.
    rewrite find_session_none by done. unfold_prims. by rewrite run_ret.
  - unfold janus_lua_method_setbitrate. args_ok. cbn.
    rewrite find_session_none by done. unfold_prims. by rewrite run_ret.
  - unfold janus_lua_method_setplifreq. args_ok. cbn.
    rewrite find_session_none by done. unfold_prims. by rewrite run_ret.
  - unfold janus_lua_method_sendpli. args_ok. cbn.
    rewrite find_session_none by done. unfold_prims. by rewrite run_ret.
  - unfold janus_lua_method_relayrtp. args_ok. cbn.
    destruct H0 as [bytes ->].
    rewrite to_int_in_range by (unfold INT_MIN; lia).
    destruct (Z.ltb_spec (value_tonumber (Some lv)) 1); [lia|].
    rewrite find_session_none by done. unfold_prims. by rewrite run_ret.
  - unfold janus_lua_method_relayrtcp. args_ok. cbn.
    destruct H0 as [bytes ->].
    rewrite to_int_in_range by (unfold INT_MIN; lia).
    destruct (Z.ltb_spec (value_tonumber (Some lv)) 1); [lia|].
    rewrite find_session_none by done. unfold_prims. by rewrite run_ret.
  - unfold janus_lua_method_relaydata. args_ok. cbn.
    destruct H0 as [bytes ->].
    rewrite to_int_in_range by (unfold INT_MIN; lia).
    destruct (Z.ltb_spec (value_tonumber (Some lv)) 1); [lia|].
    rewrite find_session_none by done. unfold_prims. by rewrite run_ret.
  - unfold janus_lua_method_startrecording.
    assert (negb (lua_gettop (idv :: rest) =? 5) && negb (lua_gettop (idv :: rest) =? 9)
            && negb (lua_gettop (idv :: rest) =? 13) = false) as ->.
    { unfold lua_gettop. cbn [length]. destruct H0 as [->|[->| ->]]; reflexivity. }
    unfold lua_tonumber, lua_index. cbn [lookup list_lookup].
    rewrite find_session_none by done. unfold_prims. by rewrite run_ret.
  - unfold janus_lua_method_stoprecording.
    assert (negb (lua_gettop (idv :: rest) =? 2) && negb (lua_gettop (idv :: rest) =? 3)
            && negb (lua_gettop (idv :: rest) =? 4) = false) as ->.
    { unfold lua_gettop. cbn [length]. destruct H0 as [->|[->| ->]]; reflexivity. }
    unfold lua_tonumber, lua_index. cbn [lookup list_lookup].
    rewrite find_session_none by done. unfold_prims. by rewrite run_ret.
Qed.

End Guards.

(** X1 on setBitrate called with the session id only. *)
Lemma wrong_arity_rejected_witness :
  rejected two_sessions
    (@janus_lua_method_setbitrate sample_env [LNumber 7] two_sessions).
Proof.
  destruct (@wrong_arity_rejected sample_env two_sessions [LNumber 7] true 0 0)
    as (_ & _ & _ & _ & _ & _ & W & _).
  apply W. discriminate.
Defined.

(** X2 on id 9, which no session has: sendPli and startRecording. *)
Lemma unknown_session_rejected_witness :
  @janus_lua_method_sendpli sample_env 0 [LNumber 9] two_sessions
  = Done (-1) (set_trace [EvLock sessions_mutex; EvUnlock sessions_mutex] two_sessions) /\
  @janus_lua_method_startrecording sample_env
    [LNumber 9; LString "audio"; LString "opus"; LString "/tmp"; LString "a"]
    two_sessions
  = Done (-1) (set_trace [EvLock sessions_mutex; EvUnlock sessions_mutex] two_sessions).
Proof.
  destruct (@unknown_session_rejected sample_env two_sessions (LNumber 9)
              eq_refl eq_refl)
    as (_ & _ & _ & _ & _ & Hpli & _ & Hrec & _).
  split; [apply Hpli|]. apply Hrec. by left.
Defined.

(** ** Bitrate and keyframe requests *)

Section Rates.
Context `{!environment}.

Lemma setbitrate_run st idv bv p ss :
  registry_ok st = true ->
  lookup_by_id st (to_guint32 (value_tonumber (Some idv))) = Some p ->
  heap st !! p = Some ss -> gateway st = true ->
  let b := to_guint32 (value_tonumber (Some bv)) in
  janus_lua_method_setbitrate [idv; bv] st
  = Done 0 (set_trace
              (trace st ++ [EvLock sessions_mutex; EvUnlock sessions_mutex]
                ++ (if (0 <? b) && negb (started ss =? 0)
                    then [EvRelayRtcp (handle ss) true (RtcpRemb b) 24] else []))
              (set_heap (<[p := set_bitrate b ss]> (heap st)) st)).
Proof.
  intros Hok Hl Hh Hg b.
  destruct (live_session _ _ _ _ Hok Hl Hh) as (Hi & Hd & Hr & Hid).
  unfold janus_lua_method_setbitrate. args_ok. cbn.
  rewrite find_session_some with (p := p) by done. unfold_prims.
  repeat mstep. fold b.
  destruct ((0 <? b) && negb (started ss =? 0)); repeat mstep; rewrite ?Hg; repeat mstep.
  all: finish_run.
Qed.

Lemma setplifreq_run st idv fv p ss :
  registry_ok st = true ->
  lookup_by_id st (to_guint32 (value_tonumber (Some idv))) = Some p ->
  heap st !! p = Some ss ->
  janus_lua_method_setplifreq [idv; fv] st
  = Done 0 (set_trace
              (trace st ++ [EvLock sessions_mutex; EvUnlock sessions_mutex])
              (set_heap (<[p := set_pli_freq (to_guint16 (value_tonumber (Some fv))) ss]>
                           (heap st)) st)).
Proof.
  intros Hok Hl Hh.
  destruct (live_session _ _ _ _ Hok Hl Hh) as (Hi & Hd & Hr & Hid).
  unfold janus_lua_method_setplifreq. args_ok. cbn.
  rewrite find_session_some with (p := p) by done. unfold_prims.
  repeat mstep. finish_run.
Qed.

Lemma relay_ready_insert st h p ss s' tr :
  relay_ready st h = true -> heap st !! p = Some ss ->
  recipients s' = recipients ss ->
  relay_ready (set_trace tr (set_heap (<[p := s']> (heap st)) st)) h = true.
Proof.
  unfold relay_ready. cbn. intros Hr Hh Hrec.
  destruct (gateway st); [|done]. cbn in *.
  destruct (handles st !! h) as [hs|]; [|done].
  destruct (plugin_handle hs) as [q|]; [|done].
  assert (Hsome : forall r, is_Some_b (heap st !! r) = true ->
            is_Some_b (<[p := s']> (heap st) !! r) = true).
  { intros r Hx. destruct (decide (r = p)) as [->|Hne].
    - by rewrite lookup_insert_eq.
    - by rewrite lookup_insert_ne. }
  destruct (decide (q = p)) as [->|Hne].
  - rewrite lookup_insert_eq. rewrite Hh in Hr. rewrite Hrec.
    rewrite forallb_forall in *. intros r Hin. apply Hsome. by apply Hr.
  - rewrite lookup_insert_ne by done. destruct (heap st !! q) as [sq|]; [|done].
    rewrite forallb_forall in *. intros r Hin. apply Hsome. by apply Hr.
Qed.

Lemma no_pli_without_freq h packets : forall st hs p ss,
  relay_ready st h = true ->
  handles st !! h = Some hs -> plugin_handle hs = Some p ->
  heap st !! p = Some ss -> pli_freq ss = 0 ->
  forallb (fun x : Z * rtp_header * Z => valid_header x.1.2) packets = true ->
  exists st',
    incoming_video_packets h packets st = Done [] st' /\
    pli_count (trace st') = pli_count (trace st).
Proof.
  induction packets as [|[[now rtp] len] packets IH]; intros st hs p ss Hr Hh Hp Hss Hz Hv.
  - exists st. cbn. by rewrite run_ret.
  - cbn in Hv. apply andb_prop in Hv as [Hv1 Hv].
    destruct (valid_header_range _ Hv1) as [Hs Ht].
    destruct (relay_ready_inv _ _ Hr) as (Hg & hs' & Hh' & [Hn | (p' & ss0 & Hp' & Hss' & Hall)]).
    { congruence. }
    assert (hs' = hs) as -> by congruence. assert (p' = p) as -> by congruence.
    assert (ss0 = ss) as -> by congruence.
    destruct (incoming_rtp_run now h true rtp len st hs p ss Hh Hp Hss Hall Hg Hs Ht)
      as (rtp' & st1 & ss1 & new & Hrun & _ & Hfr & Hss1 & Htr & _ & Hpli).
    pose proof (frame_by_lookup _ _ _ p Hfr) as L. rewrite Hss, Hss1 in L.
    apply (inj Some) in L. destruct (timeless_fields _ _ L) as (Hpf & _).
    destruct (IH st1 hs p ss1) as (st' & Hrest & Hcnt).
    { by rewrite (relay_ready_frame _ _ _ Hfr). }
    { by rewrite (frame_by_handles _ _ _ Hfr). }
    { done. } { done. } { lia. } { done. }
    cbn [incoming_video_packets]. rewrite bind_gets.
    rewrite (bind_Done _ _ _ _ _ Hrun), bind_gets.
    rewrite (bind_Done _ _ _ _ _ Hrest), run_ret.
    rewrite Htr, pli_count_app in *.
    destruct Hpli as [(Hsame & Hzero) | (_ & Hpos & _)]; [|lia].
    rewrite Hzero in *.
    replace (pli_count (trace st) <? pli_count (trace st) + 0)%nat with false
      by (symmetry; apply Nat.ltb_ge; lia).
    exists st'. split; [done|]. lia.
Qed.

Lemma sendpli_run now st idv p ss :
  registry_ok st = true ->
  lookup_by_id st (to_guint32 (value_tonumber (Some idv))) = Some p ->
  heap st !! p = Some ss -> gateway st = true ->
  janus_lua_method_sendpli now [idv] st
  = Done 0 (set_trace
              (trace st ++ [EvLock sessions_mutex; EvUnlock sessions_mutex;
                            EvLog LOG_HUGE "Sending PLI to session %u";
                            EvRelayRtcp (handle ss) true RtcpPli 12])
              (set_heap (<[p := set_pli_latest now ss]> (heap st)) st)).
Proof.
  intros Hok Hl Hh Hg.
  destruct (live_session _ _ _ _ Hok Hl Hh) as (Hi & Hd & Hr & Hid).
  unfold janus_lua_method_sendpli. args_ok. cbn.
  rewrite find_session_some with (p := p) by done. unfold_prims.
  repeat mstep. rewrite Hg. repeat mstep. finish_run.
Qed.

(** X3: setBitrate stores the bitrate in the session and leaves its
    reference count as it was; a REMB carrying the new bitrate goes to
    the session's own handle exactly when the bitrate is positive and
    the PeerConnection is up, otherwise nothing is sent. *)
Theorem setbitrate_caps st idv bv p ss :
  registry_ok st = true ->
  lookup_by_id st (to_guint32 (value_tonumber (Some idv))) = Some p ->
  heap st !! p = Some ss -> gateway st = true ->
  let b := to_guint32 (value_tonumber (Some bv)) in
  exists st',
    janus_lua_method_setbitrate [idv; bv] st = Done 0 st' /\
    heap st' = <[p := set_bitrate b ss]> (heap st) /\
    trace st' = trace st ++ [EvLock sessions_mutex; EvUnlock sessions_mutex]
                  ++ (if (0 <? b) && negb (started ss =? 0)
                      then [EvRelayRtcp (handle ss) true (RtcpRemb b) 24] else []).
Proof.
  intros Hok Hl Hh Hg b. eexists. split; [by apply setbitrate_run|]. done.
Qed.


(** X4: after setPliFreq has set the interval to 0, no sequence of
    incoming video packets makes the plugin send a keyframe request. *)
Theorem setplifreq_zero_silences st idv fv h hs p ss packets :
  registry_ok st = true ->
  lookup_by_id st (to_guint32 (value_tonumber (Some idv))) = Some p ->
  heap st !! p = Some ss ->
  handles st !! h = Some hs -> plugin_handle hs = Some p ->
  relay_ready st h = true ->
  forallb (fun x : Z * rtp_header * Z => valid_header x.1.2) packets = true ->
  to_guint16 (value_tonumber (Some fv)) = 0 ->
  exists st1 st2,
    janus_lua_method_setplifreq [idv; fv] st = Done 0 st1 /\
    heap st1 = <[p := set_pli_freq 0 ss]> (heap st) /\
    incoming_video_packets h packets st1 = Done [] st2 /\
    pli_count (trace st2) = pli_count (trace st).
Proof.
  intros Hok Hl Hh Hhs Hp Hr Hv Hz.
  pose proof (setplifreq_run st idv fv p ss Hok Hl Hh) as Hrun. rewrite Hz in Hrun.
  set (st1 := set_trace _ _) in Hrun.
  destruct (no_pli_without_freq h packets st1 hs p (set_pli_freq 0 ss))
    as (st2 & Hrun2 & Hcnt); try done.
  { by apply relay_ready_insert with (ss := ss). }
  { subst st1. cbn. by rewrite lookup_insert_eq. }
  exists st1, st2. split; [done|]. split; [done|]. split; [done|].
  rewrite Hcnt. subst st1. cbn. rewrite pli_count_app. cbn. lia.
Qed.

(** X5: sendPli sends one PLI to the session's own handle and records
    its time, so the automatic requests are paced from it: a video
    packet that arrives less than pli_freq seconds after the sendPli
    call triggers no further PLI. *)
Theorem sendpli_restarts_pacing now t st idv h hs p ss rtp len :
  registry_ok st = true ->
  lookup_by_id st (to_guint32 (value_tonumber (Some idv))) = Some p ->
  heap st !! p = Some ss ->
  handles st !! h = Some hs -> plugin_handle hs = Some p ->
  relay_ready st h = true -> valid_header rtp = true ->
  t - now < pli_freq ss * G_USEC_PER_SEC ->
  exists st1 st2 out,
    janus_lua_method_sendpli now [idv] st = Done 0 st1 /\
    pli_count (trace st1) = (pli_count (trace st) + 1)%nat /\
    pli_latest <$> heap st1 !! p = Some now /\
    janus_lua_incoming_rtp t (Some h) true (Some rtp) len st1 = Done out st2 /\
    pli_count (trace st2) = pli_count (trace st1).
Proof.
  intros Hok Hl Hh Hhs Hp Hr Hv Hgap.
  destruct (relay_ready_inv _ _ Hr) as (Hg & hs' & Hhs' & [Hn | (p' & ss' & Hp' & Hss' & Hall)]).
  { congruence. }
  assert (hs' = hs) as -> by congruence. assert (p' = p) as -> by congruence.
  assert (ss' = ss) as -> by congruence.
  destruct (valid_header_range _ Hv) as [Hs Ht].
  pose proof (sendpli_run now st idv p ss Hok Hl Hh Hg) as Hrun1.
  set (st1 := set_trace _ _) in Hrun1.
  destruct (incoming_rtp_run t h true rtp len st1 hs p (set_pli_latest now ss))
    as (rtp' & st2 & ss2 & new & Hrun & _ & _ & _ & Htr & _ & Hpli); try done.
  { subst st1. cbn. by rewrite lookup_insert_eq. }
  { subst st1. cbn. eapply Forall_impl; [exact Hall|]. intros r [x Hx]. cbn.
    destruct (decide (r = p)) as [->|Hne].
    - rewrite lookup_insert_eq. eauto.
    - rewrite lookup_insert_ne by done. eauto. }
  exists st1, st2, (Some rtp'). split; [done|].
  split; [subst st1; cbn; rewrite pli_count_app; cbn; lia|].
  split; [subst st1; cbn; by rewrite lookup_insert_eq|].
  split; [done|]. rewrite Htr, pli_count_app.
  destruct Hpli as [[_ ->]|(_ & _ & Hdue & _)]; [lia|]. cbn in Hdue. lia.
Qed.

End Rates.

(** X3 on session 8 of [relaying], whose PeerConnection is up. *)
Lemma setbitrate_caps_witness :
  exists st',
    @janus_lua_method_setbitrate sample_env [LNumber 8; LNumber 64000] relaying
    = Done 0 st' /\
    bitrate <$> heap st' !! 2%positive = Some 64000 /\
    trace st' = [EvLock sessions_mutex; EvUnlock sessions_mutex;
                 EvRelayRtcp (Some 12%positive) true (RtcpRemb 64000) 24].
Proof.
  destruct (@setbitrate_caps sample_env relaying (LNumber 8) (LNumber 64000) 2%positive
              (set_started 1
                 (set_flags (true, true, true, false, false, false)
                    (set_ref 2 (sample_session 12 8))))
              eq_refl eq_refl eq_refl eq_refl)
    as (st' & Hrun & Hheap & Htr).
  exists st'. split; [exact Hrun|]. rewrite Hheap, Htr. split; reflexivity.
Defined.

(** X4 on session 7 of [relaying] and the four packets of
    [video_burst]: with the interval set to 0 none of them triggers a
    request. *)
Lemma setplifreq_zero_silences_witness :
  exists st1 st2,
    @janus_lua_method_setplifreq sample_env [LNumber 7; LNumber 0] relaying
    = Done 0 st1 /\
    @incoming_video_packets sample_env 11%positive video_burst st1 = Done [] st2 /\
    pli_count (trace st2) = 0%nat.
Proof.
  destruct (@setplifreq_zero_silences sample_env relaying (LNumber 7) (LNumber 0)
              11%positive {| plugin_handle := Some 1%positive; stopped := 0 |}
              1%positive
              (set_rates 0 2 0
                 (set_recipients [2%positive]
                    (set_flags (false, false, false, true, true, true)
                       (set_ref 2 (sample_session 11 7)))))
              video_burst eq_refl eq_refl eq_refl eq_refl eq_refl eq_refl eq_refl eq_refl)
    as (st1 & st2 & Hrun & _ & Hpk & Hcnt).
  exists st1, st2. split; [exact Hrun|]. split; [exact Hpk|]. exact Hcnt.
Defined.

(** X5 on session 7 of [relaying] (interval two seconds): sendPli at
    1 s, a video packet at 2.5 s. *)
Lemma sendpli_restarts_pacing_witness :
  exists st1 st2 out,
    @janus_lua_method_sendpli sample_env 1000000 [LNumber 7] relaying = Done 0 st1 /\
    pli_count (trace st1) = 1%nat /\
    @janus_lua_incoming_rtp sample_env 2500000 (Some 11%positive) true
      (Some sample_rtp) 900 st1 = Done out st2 /\
    pli_count (trace st2) = 1%nat.
Proof.
  destruct (@sendpli_restarts_pacing sample_env 1000000 2500000 relaying (LNumber 7)
              11%positive {| plugin_handle := Some 1%positive; stopped := 0 |}
              1%positive
              (set_rates 0 2 0
                 (set_recipients [2%positive]
                    (set_flags (false, false, false, true, true, true)
                       (set_ref 2 (sample_session 11 7)))))
              sample_rtp 900 eq_refl eq_refl eq_refl eq_refl eq_refl eq_refl eq_refl
              eq_refl)
    as (st1 & st2 & out & Hrun & Hc1 & _ & Hin & Hc2).
  exists st1, st2, out. split; [exact Hrun|]. split; [exact Hc1|].
  split; [exact Hin|]. rewrite Hc2. exact Hc1.
Defined.

(** ** Relaying on behalf of the script *)

Section RelayCallouts.
Context `{!environment}.

Lemma done_trace {A} (a : A) st st' tr :
  trace st' = trace st ++ tr -> heap st' = heap st ->
  set_trace [] (set_heap ∅ st') = set_trace [] (set_heap ∅ st) ->
  Done a st' = Done a (set_trace (trace st ++ tr) st).
Proof.
  intros Ht Hh Hr. rewrite (done_state a st st' tr (heap st) Ht Hh Hr).
  by destruct st.
Qed.

(** X6: given a length that is at least 1 and within the range of int,
    relayRtp, relayRtcp and relayData hand the payload to the core
    exactly once, on the handle of the session the id resolves to, with
    the length the script gave, and leave the session as it was; a
    payload that is not a string, or a length below 1 (down to
    INT_MIN), is turned down before the session is even looked up. *)
Theorem relay_callouts_deliver st idv vv bv lv :
  registry_ok st = true -> gateway st = true ->
  let len := value_tonumber (Some lv) in
  let video := lua_toboolean [idv; vv; bv; lv] 2 in
  (forall p ss bytes,
     lookup_by_id st (to_guint32 (value_tonumber (Some idv))) = Some p ->
     heap st !! p = Some ss ->
     value_tostring (Some bv) = Some bytes -> 1 <= len < 2 ^ 31 ->
     let sent e := Done 0 (set_trace (trace st ++ [EvLock sessions_mutex;
                                                    EvUnlock sessions_mutex; e]) st) in
     janus_lua_method_relayrtp [idv; vv; bv; lv] st
     = sent (EvRelayRtp (handle ss) video (Bytes bytes) len) /\
     janus_lua_method_relayrtcp [idv; vv; bv; lv] st
     = sent (EvRelayRtcp (handle ss) video (Bytes bytes) len) /\
     janus_lua_method_relaydata [idv; bv; lv] st
     = sent (EvRelayData (handle ss) (Bytes bytes) len)) /\
  (value_tostring (Some bv) = None \/ INT_MIN <= len < 1 ->
   rejected st (janus_lua_method_relayrtp [idv; vv; bv; lv] st) /\
   rejected st (janus_lua_method_relayrtcp [idv; vv; bv; lv] st) /\
   rejected st (janus_lua_method_relaydata [idv; bv; lv] st)).
Proof.
  intros Hok Hg len video. split.
  - intros p ss bytes Hl Hh Hb Hlen sent.
    destruct (live_session _ _ _ _ Hok Hl Hh) as (Hi & Hd & Hr & Hid).
    repeat split;
      [ unfold janus_lua_method_relayrtp | unfold janus_lua_method_relayrtcp
      | unfold janus_lua_method_relaydata ];
      args_ok; cbn; rewrite Hb; fold len;
      rewrite to_int_in_range by (unfold INT_MIN; lia);
      (destruct (Z.ltb_spec len 1); [lia|]);
      rewrite find_session_some with (p := p) by done; unfold_prims;
      repeat mstep; rewrite Hg; repeat mstep; subst sent; cbn;
      (apply done_trace; cbn; [by rewrite <- ?app_assoc | heap_done | done]).
  - intros Hbad. unfold rejected.
    repeat split;
      [ unfold janus_lua_method_relayrtp | unfold janus_lua_method_relayrtcp
      | unfold janus_lua_method_relaydata ];
      args_ok; cbn; fold len;
      (destruct (value_tostring (Some bv)) as [bytes|];
       [destruct (Z.ltb_spec (to_int len) 1) as [|Hge];
        [|destruct Hbad as [|Hr]; [done|];
          rewrite to_int_in_range in Hge by (unfold INT_MIN in *; lia); lia]|]);
      unfold_prims; repeat mstep; eauto.
Qed.

End RelayCallouts.

(** X6 on session 7: three bytes relayed as video RTP. *)
Lemma relay_callouts_deliver_witness :
  @janus_lua_method_relayrtp sample_env
    [LNumber 7; LBoolean true; LString "abc"; LNumber 3] two_sessions
  = Done 0 (set_trace [EvLock sessions_mutex; EvUnlock sessions_mutex;
                       EvRelayRtp (Some 11%positive) true (Bytes "abc") 3]
              two_sessions).
Proof.
  destruct (@relay_callouts_deliver sample_env two_sessions (LNumber 7) (LBoolean true)
              (LString "abc") (LNumber 3) eq_refl eq_refl) as [W _].
  assert (Hlen : 1 <= 3 < 2 ^ 31) by lia.
  destruct (W 1%positive (sample_session 11 7) "abc"%string eq_refl eq_refl eq_refl Hlen)
    as [Hrtp _].
  exact Hrtp.
Defined.

(** ** Events for the core *)

Section Events.
Context `{!environment}.

(** X7: notifyEvent does not need a session: when the event text
    parses, the event is handed to the core and the answer is 0 -- on
    the handle of the session when the id is in the id table (whether
    or not that session is flagged as destroyed), on no handle at all
    when it is not.  An event that is not a string or does not parse is
    turned down and nothing is notified. *)
Theorem notifyevent_session_optional st idv ev :
  gateway st = true ->
  let sid := to_guint32 (value_tonumber (Some idv)) in
  let doc := next_block st in
  (forall et, value_tostring (Some ev) = Some et -> json_loads_ok et = true ->
     (ids st !! sid = None ->
      exists st',
        janus_lua_method_notifyevent [idv; ev] st = Done 0 st' /\
        trace st' = trace st ++ [EvLock sessions_mutex; EvUnlock sessions_mutex;
                                 EvNotifyEvent None (Some doc)] /\
        blocks st' !! doc = Some (BJson et) /\ heap st' = heap st) /\
     (forall p ss, ids st !! sid = Some p -> heap st !! p = Some ss -> 0 < ref ss ->
      exists st',
        janus_lua_method_notifyevent [idv; ev] st = Done 0 st' /\
        trace st' = trace st ++ [EvLock sessions_mutex; EvUnlock sessions_mutex;
                                 EvNotifyEvent (handle ss) (Some doc)] /\
        blocks st' !! doc = Some (BJson et) /\ heap st' = heap st)) /\
  ((value_tostring (Some ev) = None \/
    exists et, value_tostring (Some ev) = Some et /\ json_loads_ok et = false) ->
   rejected st (janus_lua_method_notifyevent [idv; ev] st)).
Proof.
  intros Hg sid doc. split.
  - intros et Het Hok. split.
    + intros Hn. unfold janus_lua_method_notifyevent. args_ok. cbn. fold sid.
      rewrite Het. unfold json_loads. rewrite Hok. unfold_prims.
      repeat mstep. rewrite Hn. repeat mstep. rewrite Hg. repeat mstep.
      eexists. split; [reflexivity|]. cbn. rewrite <- !app_assoc.
      by rewrite lookup_insert_eq.
    + intros p ss Hi Hh Hr. unfold janus_lua_method_notifyevent. args_ok. cbn. fold sid.
      rewrite Het. unfold json_loads. rewrite Hok. unfold_prims.
      repeat mstep. rewrite Hi. repeat mstep. rewrite Hg. repeat mstep.
      eexists. split; [reflexivity|]. cbn. rewrite <- !app_assoc.
      rewrite lookup_insert_eq. repeat split. heap_done.
  - intros Hbad. unfold janus_lua_method_notifyevent, rejected. args_ok. cbn.
    destruct Hbad as [-> | (et & -> & Hno)]; unfold json_loads; rewrite ?Hno;
      unfold_prims; repeat mstep; eauto.
Qed.

(** X8: without a jsep, pushEvent pushes the event to the core at
    once, on the handle of the session and with the transaction the
    script gave, and answers whatever the core's push_event returned;
    the parsed event is released afterwards and the reference taken on
    the session is given back. *)
Theorem pushevent_sync_passes_result st spawn_ok push_res idv tv ev jv p ss et :
  registry_ok st = true -> blocks_fresh st -> gateway st = true ->
  lookup_by_id st (to_guint32 (value_tonumber (Some idv))) = Some p ->
  heap st !! p = Some ss ->
  value_tostring (Some ev) = Some et -> json_loads_ok et = true ->
  value_tostring (Some jv) = None ->
  exists st',
    janus_lua_method_pushevent spawn_ok push_res [idv; tv; ev; jv] st
    = Done push_res st' /\
    trace st' = trace st ++ [EvLock sessions_mutex; EvUnlock sessions_mutex;
                             EvPushEvent (handle ss) (value_tostring (Some tv))
                               (Some (next_block st)) None] /\
    heap st' = heap st /\ blocks st' = blocks st /\ threads st' = threads st.
Proof.
  intros Hok Hfresh Hg Hl Hh Het Hev Hjv.
  destruct (live_session _ _ _ _ Hok Hl Hh) as (Hi & Hd & Hr & Hid).
  unfold janus_lua_method_pushevent. args_ok. cbn. rewrite Het, Hjv.
  unfold json_loads. rewrite Hev. unfold_prims.
  repeat mstep. rewrite Hi. repeat mstep. rewrite Hd. cbn. repeat mstep.
  rewrite Hg. repeat mstep.
  eexists. split; [reflexivity|]. cbn. rewrite <- !app_assoc.
  split; [done|]. split; [heap_done|]. split; [|done].
  blocks_done Hfresh.
Qed.

(** X9: with a jsep, pushEvent pushes nothing itself: it answers 0 and
    leaves a task for a helper thread, holding one more reference on
    the session.  When janus_lua_async_event_helper runs the task, the
    event goes to the core with the jsep and a copy of the transaction,
    and afterwards the documents, the copy and the task are released
    and the session has its reference count back. *)
Theorem pushevent_deferred_round_trip st push_res idv tv ev jv p ss et jt :
  registry_ok st = true -> blocks_fresh st -> gateway st = true ->
  lookup_by_id st (to_guint32 (value_tonumber (Some idv))) = Some p ->
  heap st !! p = Some ss ->
  value_tostring (Some ev) = Some et -> json_loads_ok et = true ->
  value_tostring (Some jv) = Some jt -> json_loads_ok jt = true ->
  exists st1 task st2 e j,
    janus_lua_method_pushevent true push_res [idv; tv; ev; jv] st = Done 0 st1 /\
    trace st1 = trace st ++ [EvLock sessions_mutex; EvUnlock sessions_mutex;
                             EvThreadNew "lua pushevent"] /\
    threads st1 = threads st ++ [task] /\
    heap st1 = <[p := set_ref (ref ss + 1) ss]> (heap st) /\
    blocks st1 !! e = Some (BJson et) /\ blocks st1 !! j = Some (BJson jt) /\
    janus_lua_async_event_helper (Some task) st1 = Done tt st2 /\
    trace st2 = trace st1 ++ [EvPushEvent (handle ss) (value_tostring (Some tv))
                                (Some e) (Some j)] /\
    heap st2 = heap st /\ blocks st2 = blocks st.
Proof.
  intros Hok Hfresh Hg Hl Hh Het Hev Hjt Hjv.
  destruct (live_session _ _ _ _ Hok Hl Hh) as (Hi & Hd & Hr & Hid).
  unfold janus_lua_method_pushevent. args_ok. cbn. rewrite Het, Hjt.
  unfold json_loads. rewrite Hev, Hjv. unfold g_thread_try_new. unfold_prims.
  repeat mstep. rewrite Hi. repeat mstep. rewrite Hd. cbn. repeat mstep.
  destruct (value_tostring (Some tv)) as [t|]; repeat mstep.
  - eexists _, _, _, (next_block st), (Pos.succ (next_block st)).
    split; [reflexivity|]. cbn. rewrite <- !app_assoc.
    split; [done|]. split; [done|]. split; [done|].
    split; [blocks_at|]. split; [blocks_at|].
    split.
    { unfold janus_lua_async_event_helper. unfold_prims. cbn. repeat mstep.
      rewrite lookup_insert_eq, Hg. repeat mstep. reflexivity. }
    cbn. split; [by rewrite <- ?app_assoc|]. split; [heap_done|]. blocks_done Hfresh.
  - eexists _, _, _, (next_block st), (Pos.succ (next_block st)).
    split; [reflexivity|]. cbn. rewrite <- !app_assoc.
    split; [done|]. split; [done|]. split; [done|].
    split; [blocks_at|]. split; [blocks_at|].
    split.
    { unfold janus_lua_async_event_helper. unfold_prims. cbn. repeat mstep.
      rewrite Hg. repeat mstep. reflexivity. }
    cbn. split; [by rewrite <- ?app_assoc|]. split; [heap_done|]. blocks_done Hfresh.
Qed.

(** X10: closePc never closes the PeerConnection itself: it answers 0
    and leaves the task to a helper thread, which calls close_pc on the
    handle of the session and then gives the reference and the task
    back. *)
Theorem closepc_deferred_round_trip st idv p ss :
  registry_ok st = true -> blocks_fresh st -> gateway st = true ->
  lookup_by_id st (to_guint32 (value_tonumber (Some idv))) = Some p ->
  heap st !! p = Some ss ->
  exists st1 task st2,
    janus_lua_method_closepc true [idv] st = Done 0 st1 /\
    trace st1 = trace st ++ [EvLock sessions_mutex; EvUnlock sessions_mutex;
                             EvThreadNew "lua closepc"] /\
    threads st1 = threads st ++ [task] /\
    heap st1 = <[p := set_ref (ref ss + 1) ss]> (heap st) /\
    janus_lua_async_event_helper (Some task) st1 = Done tt st2 /\
    trace st2 = trace st1 ++ [EvClosePc (handle ss)] /\
    heap st2 = heap st /\ blocks st2 = blocks st.
Proof.
  intros Hok Hfresh Hg Hl Hh.
  destruct (live_session _ _ _ _ Hok Hl Hh) as (Hi & Hd & Hr & Hid).
  unfold janus_lua_method_closepc. args_ok. cbn.
  rewrite find_session_some with (p := p) by done.
  unfold g_thread_try_new. unfold_prims. repeat mstep.
  eexists _, _, _. split; [reflexivity|]. cbn. rewrite <- !app_assoc.
  split; [done|]. split; [done|]. split; [done|]. split.
  { unfold janus_lua_async_event_helper. unfold_prims. cbn. repeat mstep.
    rewrite Hg. repeat mstep. reflexivity. }
  cbn. split; [by rewrite <- ?app_assoc|]. split; [heap_done|]. blocks_done Hfresh.
Qed.

(** X11: pushEvent gives back what it allocated whenever it turns the
    call down: an event that does not parse is rejected outright; when
    the jsep does not parse, or the id resolves to no live session, the
    documents parsed so far are released, no session is touched and no
    thread is started. *)
Theorem pushevent_rejects_cleanly st spawn_ok push_res idv tv ev jv :
  registry_ok st = true -> blocks_fresh st ->
  ((value_tostring (Some ev) = None \/
    exists et, value_tostring (Some ev) = Some et /\ json_loads_ok et = false) ->
   rejected st (janus_lua_method_pushevent spawn_ok push_res [idv; tv; ev; jv] st)) /\
  (forall et, value_tostring (Some ev) = Some et -> json_loads_ok et = true ->
     (forall jt, value_tostring (Some jv) = Some jt -> json_loads_ok jt = false ->
        exists st' msg,
          janus_lua_method_pushevent spawn_ok push_res [idv; tv; ev; jv] st
          = Done (-1) st' /\
          trace st' = trace st ++ [EvLog LOG_ERR msg] /\
          heap st' = heap st /\ blocks st' = blocks st /\ threads st' = threads st) /\
     ((value_tostring (Some jv) = None \/
       exists jt, value_tostring (Some jv) = Some jt /\ json_loads_ok jt = true) ->
      lookup_by_id st (to_guint32 (value_tonumber (Some idv))) = None ->
      exists st',
        janus_lua_method_pushevent spawn_ok push_res [idv; tv; ev; jv] st
        = Done (-1) st' /\
        trace st' = trace st ++ [EvLock sessions_mutex; EvUnlock sessions_mutex] /\
        heap st' = heap st /\ blocks st' = blocks st /\ threads st' = threads st)).
Proof.
  intros Hok Hfresh. split; [|intros et Het Hev; split].
  - intros Hbad. unfold janus_lua_method_pushevent, rejected. args_ok. cbn.
    destruct Hbad as [-> | (et & -> & Hno)]; unfold json_loads; rewrite ?Hno;
      unfold_prims; repeat mstep; eauto.
  - intros jt Hjt Hno. unfold janus_lua_method_pushevent. args_ok. cbn.
    rewrite Het, Hjt. unfold json_loads. rewrite Hev, Hno. unfold_prims.
    repeat mstep. eexists _, _. split; [reflexivity|]. cbn.
    split; [done|]. split; [done|]. split; [|done]. blocks_done Hfresh.
  - intros Hj Hl. unfold janus_lua_method_pushevent. args_ok. cbn.
    rewrite Het. unfold json_loads. rewrite Hev.
    destruct (lookup_by_id st (to_guint32 (value_tonumber (Some idv)))) eqn:Hl'; [done|].
    clear Hl.
    assert (Hnone : ids st !! to_guint32 (value_tonumber (Some idv)) = None \/
              exists q sq, ids st !! to_guint32 (value_tonumber (Some idv)) = Some q /\
                heap st !! q = Some sq /\ destroyed sq <> 0).
    { unfold lookup_by_id in Hl'.
      destruct (ids st !! to_guint32 (value_tonumber (Some idv))) as [q|] eqn:Hi; [|by left].
      right. destruct (registry_ok_lookup _ _ _ Hok Hi) as (sq & Hq & _).
      rewrite Hq in Hl'. exists q, sq. split; [done|]. split; [done|].
      by destruct (Z.eqb_spec (destroyed sq) 0). }
    destruct Hj as [-> | (jt & -> & Hjv)]; rewrite ?Hjv; unfold_prims; repeat mstep.
    all: destruct Hnone as [Hn | (q & sq & Hi & Hq & Hd)];
      [ rewrite Hn
      | rewrite Hi; repeat mstep;
        destruct (Z.eqb_spec (destroyed sq) 0) as [|_]; [done|]; cbn ];
      repeat mstep;
      (eexists; split; [reflexivity|]; cbn; rewrite <- ?app_assoc;
       split; [done|]; split; [done|]; split; [|done]; blocks_done Hfresh).
Qed.

End Events.

(** Nothing was allocated yet in the sample states. *)
Lemma blocks_fresh_two_sessions : blocks_fresh two_sessions.
Proof. intros q _. apply lookup_empty. Defined.

(** X7 on id 9, which no session has: the event is notified on no
    handle. *)
Lemma notifyevent_session_optional_witness :
  exists st',
    @janus_lua_method_notifyevent sample_env [LNumber 9; LString "{}"] two_sessions
    = Done 0 st' /\
    trace st' = [EvLock sessions_mutex; EvUnlock sessions_mutex;
                 EvNotifyEvent None (Some 100%positive)].
Proof.
  destruct (@notifyevent_session_optional sample_env two_sessions (LNumber 9)
              (LString "{}") eq_refl) as [W _].
  destruct (W "{}"%string eq_refl eq_refl) as [Wnone _].
  destruct (Wnone eq_refl) as (st' & Hrun & Htr & _).
  exists st'. split; [exact Hrun|exact Htr].
Defined.

(** X8 on session 7, with -3 as the answer of the core. *)
Lemma pushevent_sync_passes_result_witness :
  exists st',
    @janus_lua_method_pushevent sample_env true (-3)
      [LNumber 7; LString "tx"; LString "{}"; LNil] two_sessions = Done (-3) st' /\
    trace st' = [EvLock sessions_mutex; EvUnlock sessions_mutex;
                 EvPushEvent (Some 11%positive) (Some "tx"%string)
                   (Some 100%positive) None] /\
    blocks st' = blocks two_sessions.
Proof.
  destruct (@pushevent_sync_passes_result sample_env two_sessions true (-3)
              (LNumber 7) (LString "tx") (LString "{}") LNil 1%positive
              (sample_session 11 7) "{}"%string
              eq_refl blocks_fresh_two_sessions eq_refl eq_refl eq_refl eq_refl eq_refl
              eq_refl)
    as (st' & Hrun & Htr & _ & Hb & _).
  exists st'. split; [exact Hrun|]. split; [exact Htr|exact Hb].
Defined.

(** X9 on session 7. *)
Lemma pushevent_deferred_round_trip_witness :
  exists st1 task st2,
    @janus_lua_method_pushevent sample_env true 0
      [LNumber 7; LString "tx"; LString "{}"; LString "{sdp}"] two_sessions
    = Done 0 st1 /\
    threads st1 = [task] /\
    janus_lua_async_event_helper (Some task) st1 = Done tt st2 /\
    heap st2 = heap two_sessions /\ blocks st2 = blocks two_sessions.
Proof.
  destruct (@pushevent_deferred_round_trip sample_env two_sessions 0
              (LNumber 7) (LString "tx") (LString "{}") (LString "{sdp}") 1%positive
              (sample_session 11 7) "{}"%string "{sdp}"%string
              eq_refl blocks_fresh_two_sessions eq_refl eq_refl eq_refl eq_refl eq_refl
              eq_refl eq_refl)
    as (st1 & task & st2 & e & j & Hrun & _ & Hth & _ & _ & _ & Hhelp & _ & Hh & Hb).
  exists st1, task, st2. split; [exact Hrun|]. split; [exact Hth|].
  split; [exact Hhelp|]. split; [exact Hh|exact Hb].
Defined.

(** X10 on session 7. *)
Lemma closepc_deferred_round_trip_witness :
  exists st1 task st2,
    @janus_lua_method_closepc sample_env true [LNumber 7] two_sessions = Done 0 st1 /\
    threads st1 = [task] /\
    janus_lua_async_event_helper (Some task) st1 = Done tt st2 /\
    trace st2 = [EvLock sessions_mutex; EvUnlock sessions_mutex;
                 EvThreadNew "lua closepc"; EvClosePc (Some 11%positive)] /\
    heap st2 = heap two_sessions.
Proof.
  destruct (@closepc_deferred_round_trip sample_env two_sessions (LNumber 7) 1%positive
              (sample_session 11 7)
              eq_refl blocks_fresh_two_sessions eq_refl eq_refl eq_refl)
    as (st1 & task & st2 & Hrun & Htr1 & Hth & _ & Hhelp & Htr2 & Hh & _).
  exists st1, task, st2. split; [exact Hrun|]. split; [exact Hth|].
  split; [exact Hhelp|]. split; [|exact Hh]. rewrite Htr2, Htr1. reflexivity.
Defined.

(** X11 on session 7 with a jsep that does not parse (the empty text). *)
Lemma pushevent_rejects_cleanly_witness :
  exists st',
    @janus_lua_method_pushevent sample_env true 0
      [LNumber 7; LString "tx"; LString "{}"; LString ""] two_sessions
    = Done (-1) st' /\
    heap st' = heap two_sessions /\ blocks st' = blocks two_sessions /\
    threads st' = threads two_sessions.
Proof.
  destruct (@pushevent_rejects_cleanly sample_env two_sessions true 0
              (LNumber 7) (LString "tx") (LString "{}") (LString "")
              eq_refl blocks_fresh_two_sessions) as [_ W].
  destruct (W "{}"%string eq_refl eq_refl) as [Wbad _].
  destruct (Wbad ""%string eq_refl eq_refl) as (st' & msg & Hrun & _ & Hh & Hb & Ht).
  exists st'. split; [exact Hrun|]. split; [exact Hh|]. split; [exact Hb|exact Ht].
Defined.

Global Arguments startrecording_turn : simpl never.

(** ** Recording *)

Section RecordingRuns.
Context `{!environment}.

Lemma startrecording_turn_run p ss ty m c f n loc k st :
  heap st !! p = Some ss ->
  medium_of ty = Some m -> recorder_of m ss = None -> local_of m loc = None ->
  startrecording_turn p (Some ty) c f n loc k st
  = if janus_recorder_create_ok f c n
    then k (set_local m (Some (next_block st)) loc) (created f c n st)
    else Done (false, loc)
           (set_trace (trace st ++ [EvLog LOG_ERR "Error creating '%s' recorder..."]) st).
Proof.
  intros Hh Hm Hr Hloc. unfold startrecording_turn, janus_recorder_create.
  destruct loc as [[a v] d].
  destruct (janus_recorder_create_ok f c n).
  - unfold_prims. repeat mstep. unfold created, new_recorder.
    unfold medium_of in Hm.
    destruct (strcasecmp ty "audio" =? 0);
      [|destruct (strcasecmp ty "video" =? 0);
        [|destruct (strcasecmp ty "data" =? 0); [|done]]];
      injection Hm as <-; cbn in Hr, Hloc; subst; rewrite Hr; cbn; done.
  - unfold_prims. by repeat mstep.
Qed.

Lemma free_locals_set_local m q x loc (rs : gmap positive janus_recorder) :
  local_of m loc = None -> rs !! q = None ->
  free_locals (set_local m (Some q) loc) (<[q := x]> rs) = free_locals loc rs.
Proof.
  intros Hl Hq. destruct loc as [[[a|] [v|]] [d|]]. all: apply map_eq; intros i.
  all: destruct m; cbn in Hl; try discriminate Hl; cbn;
    repeat (rewrite ?lookup_delete, ?lookup_insert; repeat case_decide; subst;
            try congruence).
Qed.

#[local] Instance local_dec (loc : recorder_locals) q :
  Decision (exists m, local_of m loc = Some q).
Proof.
  destruct (decide (local_of Audio loc = Some q)); [left; by exists Audio|].
  destruct (decide (local_of Video loc = Some q)); [left; by exists Video|].
  destruct (decide (local_of Data loc = Some q)); [left; by exists Data|].
  right. intros [[] ?]; done.
Qed.

Lemma free_locals_lookup loc (rs : gmap positive janus_recorder) q :
  free_locals loc rs !! q
  = if decide (exists m, local_of m loc = Some q) then None else rs !! q.
Proof.
  destruct loc as [[a v] d]. case_decide as Hd.
  - destruct Hd as [m Hm]. destruct a, v, d, m; cbn in Hm; try discriminate Hm;
      injection Hm as ->; cbn;
      repeat (rewrite ?lookup_delete; repeat case_decide; subst; try congruence).
  - assert (Ha : a <> Some q) by (intros ->; apply Hd; by exists Audio).
    assert (Hv : v <> Some q) by (intros ->; apply Hd; by exists Video).
    assert (Hdd : d <> Some q) by (intros ->; apply Hd; by exists Data).
    destruct a, v, d; cbn;
      repeat (rewrite ?lookup_delete; repeat case_decide; subst; try congruence).
Qed.

Lemma local_of_set_local m m' rc loc :
  local_of m' (set_local m rc loc) = if decide (m' = m) then rc else local_of m' loc.
Proof. destruct loc as [[a v] d]. by destruct m, m'. Qed.

Lemma recorders_fresh_created f c n st :
  recorders_fresh st -> recorders_fresh (created f c n st).
Proof.
  intros Hf q Hq. unfold created in *. cbn in *.
  rewrite lookup_insert_ne by lia. apply Hf. lia.
Qed.

Lemma startrecording_loop_run p ss : forall specs media loc st,
  heap st !! p = Some ss -> recorders_fresh st ->
  Forall2 has_medium specs media -> NoDup media ->
  Forall (fun m => recorder_of m ss = None /\ local_of m loc = None) media ->
  exists loc' st',
    let b := forallb spec_creates specs in
    startrecording_loop p (spec_args specs) loc st = Done (b, loc') st' /\
    heap st' = heap st /\ ids st' = ids st /\
    free_locals loc' (recorders st') = free_locals loc (recorders st) /\
    (forall q x, recorders st !! q = Some x -> recorders st' !! q = Some x) /\
    (b = true ->
     (forall m, m ∈ media ->
        exists q f c n, local_of m loc' = Some q /\ recorders st !! q = None /\
          recorders st' !! q = Some (new_recorder f c n)) /\
     (forall m, m ∉ media -> local_of m loc' = local_of m loc)).
Proof.
  intros specs media loc st Hh Hfresh Hspecs. revert loc st Hh Hfresh.
  induction Hspecs as [|[[[t c] f] n] m specs media (ty & Hty & Hm) Hspecs IH];
    intros loc st Hh Hfresh Hnd Hall.
  - exists loc, st. cbn. rewrite run_ret. repeat split; try done.
    intros m Hin. by apply elem_of_nil in Hin.
  - apply NoDup_cons in Hnd as [Hnot Hnd].
    apply Forall_cons in Hall as [[Hrec Hloc] Hall].
    cbn [spec_args flat_map app startrecording_loop]. cbn in Hty. rewrite Hty.
    fold (spec_args specs).
    rewrite (startrecording_turn_run p ss ty m _ _ _ loc _ st Hh Hm Hrec Hloc).
    cbn [forallb spec_creates].
    destruct (janus_recorder_create_ok (value_tostring (Some f))
                (value_tostring (Some c)) (value_tostring (Some n))).
    + cbn [andb]. destruct (IH (set_local m (Some (next_block st)) loc)
                   (created (value_tostring (Some f)) (value_tostring (Some c))
                      (value_tostring (Some n)) st))
        as (loc' & st' & Hrun & Hheap & Hids & Hfree & Hkeep & Hset); try done.
      { by apply recorders_fresh_created. }
      { apply Forall_forall. intros m' Hin. rewrite Forall_forall in Hall.
        destruct (Hall m' Hin) as [? ?]. split; [done|].
        rewrite local_of_set_local. case_decide; [by subst|done]. }
      exists loc', st'. split; [exact Hrun|]. split; [by rewrite Hheap|].
      split; [by rewrite Hids|].
      assert (Hnb : recorders st !! next_block st = None) by (apply Hfresh; lia).
      split.
      { rewrite Hfree. unfold created. cbn. by apply free_locals_set_local. }
      split.
      { intros q x Hq. apply Hkeep. unfold created. cbn.
        rewrite lookup_insert_ne by congruence. done. }
      intros Hb. destruct (Hset Hb) as [Hin Hout]. split.
      * intros m' Hm'. apply elem_of_cons in Hm' as [->|Hm'].
        -- exists (next_block st), (value_tostring (Some f)),
             (value_tostring (Some c)), (value_tostring (Some n)).
           rewrite (Hout m Hnot), local_of_set_local. rewrite decide_True by done.
           split; [done|]. split; [done|]. apply Hkeep. unfold created. cbn.
           by rewrite lookup_insert_eq.
        -- destruct (Hin m' Hm') as (q & f' & c' & n' & Hq1 & Hq2 & Hq3).
           exists q, f', c', n'. split; [done|]. split; [|done].
           unfold created in Hq2. cbn in Hq2.
           destruct (decide (q = next_block st)) as [->|Hne]; [done|].
           by rewrite lookup_insert_ne in Hq2.
      * intros m' Hm'. apply not_elem_of_cons in Hm' as [Hne Hm'].
        rewrite (Hout m' Hm'), local_of_set_local. by rewrite decide_False.
    + eexists loc, _. split; [reflexivity|]. cbn. repeat split; try done.
Qed.

Lemma spec_args_length specs : length (spec_args specs) = (4 * length specs)%nat.
Proof.
  induction specs as [|[[[t c] f] n] specs IH]; [done|].
  cbn [spec_args flat_map]. rewrite length_app. fold (spec_args specs).
  rewrite IH. cbn. lia.
Qed.

Lemma recorder_of_set_recorders m a v d ss :
  recorder_of m (set_recorders a v d ss) = local_of m (a, v, d).
Proof. by destruct m. Qed.

Lemma startrecording_run st idv specs media p ss :
  registry_ok st = true -> recorders_fresh st ->
  lookup_by_id st (to_guint32 (value_tonumber (Some idv))) = Some p ->
  heap st !! p = Some ss ->
  (length specs = 1 \/ length specs = 2 \/ length specs = 3)%nat ->
  Forall2 has_medium specs media -> NoDup media ->
  Forall (fun m => recorder_of m ss = None) media ->
  exists st',
    janus_lua_method_startrecording (idv :: spec_args specs) st
    = Done (if forallb spec_creates specs then 0 else -1) st' /\
    ids st' = ids st /\
    (forall q x, recorders st !! q = Some x -> recorders st' !! q = Some x) /\
    (forallb spec_creates specs = false ->
     heap st' = heap st /\ recorders st' = recorders st) /\
    (forallb spec_creates specs = true ->
     exists a v d,
       heap st' = <[p := set_recorders a v d ss]> (heap st) /\
       (forall m, m ∈ media ->
          exists q f c n,
            recorder_of m (set_recorders a v d ss) = Some q /\
            recorders st !! q = None /\
            recorders st' !! q = Some (new_recorder f c n)) /\
       (forall m, m ∉ media ->
          recorder_of m (set_recorders a v d ss) = recorder_of m ss) /\
       (forall q x, recorders st' !! q = Some x ->
          recorders st !! q = Some x \/
          exists m, m ∈ media /\ recorder_of m (set_recorders a v d ss) = Some q)).
Proof.
  intros Hok Hfresh Hl Hh Hlen Hspecs Hnd Hnone.
  destruct (live_session _ _ _ _ Hok Hl Hh) as (Hi & Hd & Hr & Hid).
  unfold janus_lua_method_startrecording.
  assert (negb (lua_gettop (idv :: spec_args specs) =? 5)
          && negb (lua_gettop (idv :: spec_args specs) =? 9)
          && negb (lua_gettop (idv :: spec_args specs) =? 13) = false) as ->.
  { unfold lua_gettop. cbn [length]. rewrite spec_args_length.
    destruct Hlen as [->|[->| ->]]; reflexivity. }
  unfold lua_tonumber, lua_index. cbn [lookup list_lookup tail].
  rewrite find_session_some with (p := p) by done. unfold_prims.
  repeat mstep.
  match goal with
  | |- context [bind (startrecording_loop _ _ _) _ ?s] => set (st2 := s)
  end.
  set (ss1 := set_ref (ref ss + 1) ss).
  destruct (startrecording_loop_run p ss1 specs media (None, None, None) st2)
    as ([[a v] d] & st3 & Hrun & Hheap & Hids & Hfree & Hkeep & Hset); try done.
  { subst st2. cbn. by rewrite lookup_insert_eq. }
  { apply Forall_forall. intros m Hin. rewrite Forall_forall in Hnone.
    split; [|by destruct m]. destruct m; cbn; by apply (Hnone _ Hin). }
  cbv zeta in Hrun. rewrite (bind_Done _ _ _ _ _ Hrun).
  assert (Hp3 : heap st3 !! p = Some ss1).
  { rewrite Hheap. subst st2. cbn. by rewrite lookup_insert_eq. }
  assert (Hh3 : <[p := ss]> (heap st3) = heap st).
  { rewrite Hheap. subst st2. cbn. rewrite insert_insert_eq. by apply insert_id. }
  destruct (forallb spec_creates specs).
  - destruct (Hset eq_refl) as [Hin Hout]. clear Hset.
    set (A := match a with Some _ => a | None => arc ss end).
    set (V := match v with Some _ => v | None => vrc ss end).
    set (D := match d with Some _ => d | None => drc ss end).
    assert (Hmerge : forall m,
              recorder_of m (set_recorders A V D ss)
              = match local_of m (a, v, d) with
                | Some q => Some q
                | None => recorder_of m ss
                end).
    { intros m. subst A V D. by destruct m, a, v, d. }
    assert (Hfinal : forall X, X = set_ref (ref ss) (set_recorders A V D ss1) ->
              <[p := X]> (heap st3) = <[p := set_recorders A V D ss]> (heap st)).
    { intros X ->. rewrite <- Hh3. rewrite insert_insert_eq. f_equal.
      all: try (apply session_ext; cbn; done). }
    assert (Hrest :
      (forall m, m ∈ media ->
         exists q f c n,
           recorder_of m (set_recorders A V D ss) = Some q /\
           recorders st !! q = None /\
           recorders st3 !! q = Some (new_recorder f c n)) /\
      (forall m, m ∉ media ->
         recorder_of m (set_recorders A V D ss) = recorder_of m ss) /\
      (forall q x, recorders st3 !! q = Some x ->
         recorders st !! q = Some x \/
         exists m, m ∈ media /\ recorder_of m (set_recorders A V D ss) = Some q)).
    { split; [|split].
      - intros m Hm. destruct (Hin m Hm) as (q & f & c & n & Hq1 & Hq2 & Hq3).
        exists q, f, c, n. rewrite Hmerge, Hq1. done.
      - intros m Hm. rewrite Hmerge, (Hout m Hm). by destruct m.
      - intros q x Hq.
        destruct (decide (exists m, local_of m (a, v, d) = Some q)) as [(m & Hm)|Hno].
        + right. exists m. rewrite Hmerge, Hm. split; [|done].
          destruct (decide (m ∈ media)) as [|Hnot]; [done|].
          rewrite (Hout m Hnot) in Hm. by destruct m.
        + left. change (recorders st) with (free_locals (None, None, None) (recorders st2)).
          rewrite <- Hfree, free_locals_lookup. rewrite decide_False; done. }
    destruct a as [a|], v as [v|], d as [d|]; cbn [is_Some_b];
      repeat mstep; (eexists; split; [reflexivity|]); cbn;
      (split; [exact Hids|]);
      (split; [exact Hkeep|]); (split; [done|]); intros _; exists A, V, D;
      (split; [|exact Hrest]); apply Hfinal; reflexivity.
  - rewrite !bind_recorder_free. repeat mstep.
    eexists. split; [reflexivity|]. cbn.
    assert (Hrec : free_locals (a, v, d) (recorders st3) = recorders st)
      by (by rewrite Hfree).
    unfold free_locals in Hrec. cbn in Hrec. rewrite Hrec.
    split; [exact Hids|].
    split; [done|]. split; [|done]. intros _. split; [|done].
    rewrite <- Hh3. f_equal.
    all: try (apply session_ext; cbn; done).
Qed.

Lemma stop_medium_set_ref ty r ss rs :
  stop_medium ty (set_ref r ss, rs)
  = (set_ref r (stop_medium ty (ss, rs)).1, (stop_medium ty (ss, rs)).2).
Proof.
  unfold stop_medium. destruct (medium_of ty) as [m|]; [|done].
  destruct m; cbn; [destruct (arc ss)|destruct (vrc ss)|destruct (drc ss)]; done.
Qed.

Lemma stop_media_set_ref types : forall r ss rs,
  stop_media types (set_ref r ss, rs)
  = (set_ref r (stop_media types (ss, rs)).1, (stop_media types (ss, rs)).2).
Proof.
  unfold stop_media.
  induction types as [|ty types IH]; intros r ss rs; [done|].
  cbn [foldl]. rewrite stop_medium_set_ref, IH.
  by destruct (stop_medium ty (ss, rs)).
Qed.

Lemma stop_media_ref types : forall ss rs,
  ref (stop_media types (ss, rs)).1 = ref ss.
Proof.
  unfold stop_media. induction types as [|ty types IH]; intros ss rs; [done|].
  cbn [foldl]. destruct (stop_medium ty (ss, rs)) as [ss' rs'] eqn:E.
  rewrite IH. unfold stop_medium in E. cbn in E.
  destruct (medium_of ty) as [m|]; [|by injection E as <- _].
  destruct (recorder_of m ss); injection E as <- _; [by destruct m|done].
Qed.

Lemma stoprecording_step {B} p ty ss (k : M B) st :
  heap st !! p = Some ss ->
  (ss0 <- deref p ;;
   (if strcasecmp ty "audio" =? 0 then
      if is_Some_b (arc ss0) then
        janus_recorder_close (arc ss0) ;;
        janus_recorder_free (arc ss0) ;;
        store p (set_arc None)
      else ret tt
    else if strcasecmp ty "video" =? 0 then
      if is_Some_b (vrc ss0) then
        janus_recorder_close (vrc ss0) ;;
        janus_recorder_free (vrc ss0) ;;
        store p (set_vrc None)
      else ret tt
    else if strcasecmp ty "data" =? 0 then
      if is_Some_b (drc ss0) then
        janus_recorder_close (drc ss0) ;;
        janus_recorder_free (drc ss0) ;;
        store p (set_drc None)
      else ret tt
    else ret tt) ;;
   k)%C st
  = k (set_recorder_store (stop_medium ty (ss, recorders st)).2
            (set_heap (<[p := (stop_medium ty (ss, recorders st)).1]> (heap st)) st)).
Proof.
  intros Hh. rewrite (bind_deref _ _ _ _ Hh).
  assert (Hid : set_recorder_store (recorders st) (set_heap (<[p := ss]> (heap st)) st) = st).
  { rewrite insert_id by done. by destruct st. }
  unfold stop_medium, medium_of.
  destruct (strcasecmp ty "audio" =? 0);
    [|destruct (strcasecmp ty "video" =? 0); [|destruct (strcasecmp ty "data" =? 0)]];
    cbn [recorder_of fst snd].
  all: try (rewrite bind_ret; cbn [fst snd]; by rewrite Hid).
  - destruct (arc ss) as [r|] eqn:Hr; cbn [is_Some_b].
    + unfold janus_recorder_close. rewrite !bind_bind, bind_modify, bind_bind.
      rewrite bind_recorder_free. unfold_prims. repeat mstep. cbn.
      rewrite delete_alter_eq. reflexivity.
    + rewrite bind_ret. cbn [fst snd]. by rewrite Hid.
  - destruct (vrc ss) as [r|] eqn:Hr; cbn [is_Some_b].
    + unfold janus_recorder_close. rewrite !bind_bind, bind_modify, bind_bind.
      rewrite bind_recorder_free. unfold_prims. repeat mstep. cbn.
      rewrite delete_alter_eq. reflexivity.
    + rewrite bind_ret. cbn [fst snd]. by rewrite Hid.
  - destruct (drc ss) as [r|] eqn:Hr; cbn [is_Some_b].
    + unfold janus_recorder_close. rewrite !bind_bind, bind_modify, bind_bind.
      rewrite bind_recorder_free. unfold_prims. repeat mstep. cbn.
      rewrite delete_alter_eq. reflexivity.
    + rewrite bind_ret. cbn [fst snd]. by rewrite Hid.
Qed.

Lemma stoprecording_loop_run p : forall tvs types ss st,
  heap st !! p = Some ss ->
  Forall2 (fun v ty => value_tostring (Some v) = Some ty) tvs types ->
  stoprecording_loop p tvs st
  = Done tt (set_recorder_store (stop_media types (ss, recorders st)).2
               (set_heap (<[p := (stop_media types (ss, recorders st)).1]> (heap st)) st)).
Proof.
  intros tvs types ss st Hh Hall. revert ss st Hh.
  induction Hall as [|v ty tvs types Hv Hall IH]; intros ss st Hh.
  - cbn. rewrite run_ret, insert_id by done. by destruct st.
  - cbn [stoprecording_loop]. rewrite Hv, stoprecording_step with (ss := ss) by done.
    erewrite IH by (cbn; apply lookup_insert_eq).
    cbn. rewrite insert_insert_eq. unfold stop_media. cbn [foldl].
    by destruct (stop_medium ty (ss, recorders st)).
Qed.

Lemma stoprecording_run st idv tvs types p ss :
  registry_ok st = true ->
  lookup_by_id st (to_guint32 (value_tonumber (Some idv))) = Some p ->
  heap st !! p = Some ss ->
  (length tvs = 1 \/ length tvs = 2 \/ length tvs = 3)%nat ->
  Forall2 (fun v ty => value_tostring (Some v) = Some ty) tvs types ->
  exists st',
    janus_lua_method_stoprecording (idv :: tvs) st = Done 0 st' /\
    ids st' = ids st /\
    heap st' = <[p := (stop_media types (ss, recorders st)).1]> (heap st) /\
    recorders st' = (stop_media types (ss, recorders st)).2 /\
    trace st' = trace st ++ [EvLock sessions_mutex; EvLock (rec_mutex p);
                             EvUnlock sessions_mutex; EvUnlock (rec_mutex p)].
Proof.
  intros Hok Hl Hh Hlen Hall.
  destruct (live_session _ _ _ _ Hok Hl Hh) as (Hi & Hd & Hr & Hid).
  unfold janus_lua_method_stoprecording.
  assert (negb (lua_gettop (idv :: tvs) =? 2) && negb (lua_gettop (idv :: tvs) =? 3)
          && negb (lua_gettop (idv :: tvs) =? 4) = false) as ->.
  { unfold lua_gettop. cbn [length]. destruct Hlen as [->|[->| ->]]; reflexivity. }
  unfold lua_tonumber, lua_index. cbn [lookup list_lookup tail].
  rewrite find_session_some with (p := p) by done. unfold_prims.
  repeat mstep.
  erewrite bind_Done;
    [|eapply stoprecording_loop_run with (ss := set_ref (ref ss + 1) ss);
      [cbn; apply lookup_insert_eq|exact Hall]].
  cbn. rewrite stop_media_set_ref. cbn. repeat mstep.
  eexists. split; [reflexivity|]. cbn. rewrite <- !app_assoc.
  split; [done|]. split; [|done]. f_equal. apply session_ext; cbn; try done.
  symmetry. apply stop_media_ref.
Qed.

(** X12: a startRecording call whose requests name different media
    out of audio, video and data, none of them being recorded yet, is
    all or nothing: it answers 0 exactly when every recorder could be
    created, and then the session refers to one new, open recorder per
    requested medium and nothing else was added; when a creation fails
    it answers -1, the recorders created before in the call are
    released, and the session and the recorder store are as before.
    Recorders that existed before the call are never touched. *)
Theorem startrecording_all_or_nothing st idv specs media p ss :
  registry_ok st = true -> recorders_fresh st ->
  lookup_by_id st (to_guint32 (value_tonumber (Some idv))) = Some p ->
  heap st !! p = Some ss ->
  (length specs = 1 \/ length specs = 2 \/ length specs = 3)%nat ->
  Forall2 has_medium specs media -> NoDup media ->
  Forall (fun m => recorder_of m ss = None) media ->
  exists st',
    janus_lua_method_startrecording (idv :: spec_args specs) st
    = Done (if forallb spec_creates specs then 0 else -1) st' /\
    ids st' = ids st /\
    (forall q x, recorders st !! q = Some x -> recorders st' !! q = Some x) /\
    (forallb spec_creates specs = false ->
     heap st' = heap st /\ recorders st' = recorders st) /\
    (forallb spec_creates specs = true ->
     exists a v d,
       heap st' = <[p := set_recorders a v d ss]> (heap st) /\
       (forall m, m ∈ media ->
          exists q f c n,
            recorder_of m (set_recorders a v d ss) = Some q /\
            recorders st !! q = None /\
            recorders st' !! q = Some (new_recorder f c n)) /\
       (forall m, m ∉ media ->
          recorder_of m (set_recorders a v d ss) = recorder_of m ss) /\
       (forall q x, recorders st' !! q = Some x ->
          recorders st !! q = Some x \/
          exists m, m ∈ media /\ recorder_of m (set_recorders a v d ss) = Some q)).
Proof. apply startrecording_run. Qed.

(** X13: stopRecording answers 0 and does, name by name, what
    [stop_media] says: the recorder of a named medium that is being
    recorded is closed and released and the session's field is cleared;
    a medium that is not being recorded, or a name that is none of
    audio, video and data, changes nothing.  The reference count of
    the session is as before and both mutexes are released. *)
Theorem stoprecording_clears st idv tvs types p ss :
  registry_ok st = true ->
  lookup_by_id st (to_guint32 (value_tonumber (Some idv))) = Some p ->
  heap st !! p = Some ss ->
  (length tvs = 1 \/ length tvs = 2 \/ length tvs = 3)%nat ->
  Forall2 (fun v ty => value_tostring (Some v) = Some ty) tvs types ->
  exists st',
    janus_lua_method_stoprecording (idv :: tvs) st = Done 0 st' /\
    ids st' = ids st /\
    heap st' = <[p := (stop_media types (ss, recorders st)).1]> (heap st) /\
    recorders st' = (stop_media types (ss, recorders st)).2 /\
    trace st' = trace st ++ [EvLock sessions_mutex; EvLock (rec_mutex p);
                             EvUnlock sessions_mutex; EvUnlock (rec_mutex p)].
Proof. apply stoprecording_run. Qed.

End RecordingRuns.

Section RecordingTrips.
Context `{!environment}.

Lemma registry_ok_insert st st' p ss s' :
  registry_ok st = true -> heap st !! p = Some ss ->
  ids st' = ids st -> heap st' = <[p := s']> (heap st) ->
  id s' = id ss -> 0 < ref s' ->
  registry_ok st' = true.
Proof.
  unfold registry_ok. rewrite !forallb_forall. intros Hok Hh Hids Hheap Hid Hr e He.
  rewrite Hids in He. specialize (Hok e He). rewrite Hheap.
  destruct (decide (e.2 = p)) as [E|Hne].
  - rewrite E in *. rewrite lookup_insert_eq. rewrite Hh in Hok. rewrite Hid.
    apply andb_prop in Hok as [_ Hok]. rewrite Hok, andb_true_r. by apply Z.ltb_lt.
  - by rewrite lookup_insert_ne.
Qed.

Lemma lookup_by_id_insert st st' sid p ss s' :
  lookup_by_id st sid = Some p -> heap st !! p = Some ss ->
  ids st' = ids st -> heap st' = <[p := s']> (heap st) ->
  destroyed s' = destroyed ss ->
  lookup_by_id st' sid = Some p.
Proof.
  unfold lookup_by_id. intros Hl Hh Hids Hheap Hd. rewrite Hids, Hheap.
  destruct (ids st !! sid) as [q|]; [|done].
  destruct (heap st !! q) as [sq|] eqn:Hq; [|done].
  destruct (destroyed sq =? 0) eqn:Hz; [|done]. injection Hl as ->.
  rewrite lookup_insert_eq, Hd. assert (sq = ss) as -> by congruence. by rewrite Hz.
Qed.

(** X14: startRecording for one medium followed by stopRecording for
    the same medium is a round trip: in between the session refers to
    a recorder that is in the store, afterwards the session and the
    recorder store are exactly as before the two calls. *)
Theorem recording_round_trip st idv t c f n ty m p ss :
  registry_ok st = true -> recorders_fresh st ->
  lookup_by_id st (to_guint32 (value_tonumber (Some idv))) = Some p ->
  heap st !! p = Some ss ->
  value_tostring (Some t) = Some ty -> medium_of ty = Some m ->
  recorder_of m ss = None -> spec_creates (t, c, f, n) = true ->
  exists st1 st2 q,
    janus_lua_method_startrecording [idv; t; c; f; n] st = Done 0 st1 /\
    recorder_of m <$> heap st1 !! p = Some (Some q) /\
    is_Some (recorders st1 !! q) /\
    janus_lua_method_stoprecording [idv; t] st1 = Done 0 st2 /\
    heap st2 = heap st /\ recorders st2 = recorders st.
Proof.
  intros Hok Hfresh Hl Hh Hty Hm Hnone Hcreate.
  destruct (live_session _ _ _ _ Hok Hl Hh) as (Hi & Hd & Hr & Hid).
  destruct (startrecording_run st idv [(t, c, f, n)] [m] p ss)
    as (st1 & Hrun1 & Hids1 & Hkeep & _ & Hsucc); try done.
  { by left. }
  { repeat constructor. by exists ty. }
  { apply NoDup_singleton. }
  { by repeat constructor. }
  cbn [forallb] in Hrun1, Hsucc. rewrite Hcreate in Hrun1, Hsucc. cbn in Hrun1.
  destruct (Hsucc eq_refl) as (a & v & d & Hheap1 & Hin & Hout & Hnew).
  destruct (Hin m) as (q & f' & c' & n' & Hq & Hq0 & Hq1); [by apply list_elem_of_singleton|].
  set (ss' := set_recorders a v d ss) in *.
  assert (Hp1 : heap st1 !! p = Some ss') by (by rewrite Hheap1, lookup_insert_eq).
  destruct (stoprecording_run st1 idv [t] [ty] p ss')
    as (st2 & Hrun2 & Hids2 & Hheap2 & Hrec2 & _); try done.
  { by apply (registry_ok_insert st st1 p ss ss'). }
  { by apply (lookup_by_id_insert st st1 _ p ss ss'). }
  { by left. }
  { by repeat constructor. }
  unfold stop_media in Hheap2, Hrec2. cbn [foldl] in Hheap2, Hrec2.
  unfold stop_medium in Hheap2, Hrec2. rewrite Hm in Hheap2, Hrec2.
  cbn [fst snd] in Hheap2, Hrec2. rewrite Hq in Hheap2, Hrec2.
  cbn [fst snd] in Hheap2, Hrec2.
  exists st1, st2, q. split; [exact Hrun1|].
  split; [by rewrite Hp1; cbn; rewrite Hq|]. split; [by rewrite Hq1|].
  split; [exact Hrun2|]. split.
  - rewrite Hheap2, Hheap1, insert_insert_eq. apply insert_id. rewrite Hh. f_equal.
    assert (Ho : forall m', m' <> m -> recorder_of m' ss' = recorder_of m' ss).
    { intros m' Hne. apply Hout. intros Hx. by apply list_elem_of_singleton in Hx. }
    destruct m; cbn in Hnone;
      [ pose proof (Ho Video ltac:(done)) as H1; pose proof (Ho Data ltac:(done)) as H2
      | pose proof (Ho Audio ltac:(done)) as H1; pose proof (Ho Data ltac:(done)) as H2
      | pose proof (Ho Audio ltac:(done)) as H1; pose proof (Ho Video ltac:(done)) as H2 ];
      cbn in H1, H2; apply session_ext; cbn; congruence.
  - rewrite Hrec2. apply map_eq. intros i.
    destruct (decide (i = q)) as [->|Hne].
    + by rewrite lookup_delete_eq, Hq0.
    + rewrite lookup_delete_ne by done.
      destruct (recorders st1 !! i) as [x|] eqn:Hx.
      * destruct (Hnew i x Hx) as [Hold|(m' & Hm' & Hq')]; [done|].
        apply list_elem_of_singleton in Hm'. subst m'. congruence.
      * destruct (recorders st !! i) as [x|] eqn:Hx0; [|done].
        by rewrite (Hkeep i x Hx0) in Hx.
Qed.

(** X15: a request whose medium is none of audio, video and data is
    not turned down: the call answers 0 and the session is unchanged,
    but the recorder that janus_recorder_create opened for the request
    stays in the store, referred to by nothing. *)
Theorem startrecording_unknown_medium st idv t c f n ty p ss :
  registry_ok st = true ->
  lookup_by_id st (to_guint32 (value_tonumber (Some idv))) = Some p ->
  heap st !! p = Some ss ->
  value_tostring (Some t) = Some ty -> medium_of ty = None ->
  spec_creates (t, c, f, n) = true ->
  recorders st !! next_block st = None ->
  exists st',
    janus_lua_method_startrecording [idv; t; c; f; n] st = Done 0 st' /\
    heap st' = heap st /\
    recorders st'
    = <[next_block st := new_recorder (value_tostring (Some f))
                           (value_tostring (Some c)) (value_tostring (Some n))]>
        (recorders st) /\
    recorders st' <> recorders st.
Proof.
  intros Hok Hl Hh Hty Hm Hcreate Hfresh.
  destruct (live_session _ _ _ _ Hok Hl Hh) as (Hi & Hd & Hr & Hid).
  unfold janus_lua_method_startrecording. args_ok. cbn.
  rewrite find_session_some with (p := p) by done.
  unfold startrecording_turn. unfold_prims. repeat mstep.
  cbn in Hcreate. rewrite (bind_recorder_create _ _ _ _ _ Hcreate), Hty.
  repeat mstep. unfold medium_of in Hm.
  destruct (strcasecmp ty "audio" =? 0); [done|].
  destruct (strcasecmp ty "video" =? 0); [done|].
  destruct (strcasecmp ty "data" =? 0); [done|].
  repeat mstep. eexists. split; [reflexivity|]. cbn.
  split; [heap_done|]. split; [done|].
  intros E. apply (f_equal (fun m => m !! next_block st)) in E.
  rewrite lookup_insert_eq, Hfresh in E. discriminate.
Qed.

End RecordingTrips.

Lemma recorders_fresh_two_sessions : recorders_fresh two_sessions.
Proof. intros q _. apply lookup_empty. Defined.

(** X12 on session 7: audio and video in one call. *)
Lemma startrecording_all_or_nothing_witness :
  exists st',
    @janus_lua_method_startrecording sample_env
      [LNumber 7; LString "audio"; LString "opus"; LString "/tmp"; LString "a";
       LString "video"; LString "vp8"; LString "/tmp"; LString "v"]
      two_sessions = Done 0 st' /\
    ids st' = ids two_sessions.
Proof.
  destruct (@startrecording_all_or_nothing sample_env two_sessions (LNumber 7)
              [(LString "audio", LString "opus", LString "/tmp", LString "a");
               (LString "video", LString "vp8", LString "/tmp", LString "v")]
              [Audio; Video] 1%positive (sample_session 11 7)
              eq_refl recorders_fresh_two_sessions eq_refl eq_refl)
    as (st' & Hrun & Hids & _).
  - right. by left.
  - repeat constructor; eexists; split; reflexivity.
  - repeat constructor; intros Hin; repeat (apply elem_of_cons in Hin as [Hin|Hin]);
      try discriminate Hin; by apply elem_of_nil in Hin.
  - by repeat constructor.
  - exists st'. split; [exact Hrun|exact Hids].
Defined.

(** X13 on session 7 of [recording]: the audio recorder goes. *)
Lemma stoprecording_clears_witness :
  exists st',
    @janus_lua_method_stoprecording sample_env [LNumber 7; LString "audio"] recording
    = Done 0 st' /\
    arc <$> heap st' !! 1%positive = Some None /\
    recorders st' = ∅.
Proof.
  destruct (@stoprecording_clears sample_env recording (LNumber 7) [LString "audio"]
              ["audio"%string] 1%positive
              (set_arc (Some 50%positive) (sample_session 11 7))
              eq_refl eq_refl eq_refl)
    as (st' & Hrun & _ & Hheap & Hrec & _).
  - by left.
  - by repeat constructor.
  - exists st'. split; [exact Hrun|]. rewrite Hheap, Hrec. split; reflexivity.
Defined.

(** X14 on session 7: video is recorded and stopped again. *)
Lemma recording_round_trip_witness :
  exists st1 st2 q,
    @janus_lua_method_startrecording sample_env
      [LNumber 7; LString "video"; LString "vp8"; LString "/tmp"; LString "v"]
      two_sessions = Done 0 st1 /\
    vrc <$> heap st1 !! 1%positive = Some (Some q) /\
    @janus_lua_method_stoprecording sample_env [LNumber 7; LString "video"] st1
    = Done 0 st2 /\
    heap st2 = heap two_sessions /\ recorders st2 = recorders two_sessions.
Proof.
  destruct (@recording_round_trip sample_env two_sessions (LNumber 7)
              (LString "video") (LString "vp8") (LString "/tmp") (LString "v")
              "video"%string Video 1%positive (sample_session 11 7)
              eq_refl recorders_fresh_two_sessions eq_refl eq_refl eq_refl eq_refl
              eq_refl eq_refl)
    as (st1 & st2 & q & Hrun1 & Hq & _ & Hrun2 & Hh & Hr).
  exists st1, st2, q. split; [exact Hrun1|]. split; [exact Hq|].
  split; [exact Hrun2|]. split; [exact Hh|exact Hr].
Defined.

(** X15 on session 7 and the medium "screen". *)
Lemma startrecording_unknown_medium_witness :
  exists st',
    @janus_lua_method_startrecording sample_env
      [LNumber 7; LString "screen"; LString "vp8"; LString "/tmp"; LString "s"]
      two_sessions = Done 0 st' /\
    heap st' = heap two_sessions /\
    recorders st' <> recorders two_sessions.
Proof.
  destruct (@startrecording_unknown_medium sample_env two_sessions (LNumber 7)
              (LString "screen") (LString "vp8") (LString "/tmp") (LString "s")
              "screen"%string 1%positive (sample_session 11 7)
              eq_refl eq_refl eq_refl eq_refl eq_refl eq_refl eq_refl)
    as (st' & Hrun & Hh & _ & Hne).
  exists st'. split; [exact Hrun|]. split; [exact Hh|exact Hne].
Defined.

(** ** Requests of the core *)

Section Requests.
Context `{!environment}.

Lemma active_guard st :
  active st -> negb (stopping st =? 0) || (initialized st =? 0) = false.
Proof.
  intros [Hi Hs]. rewrite Hs. cbn. by destruct (Z.eqb_spec (initialized st) 0).
Qed.

Lemma inactive_guard st :
  ~ active st -> negb (stopping st =? 0) || (initialized st =? 0) = true.
Proof.
  intros Hn. unfold active in Hn.
  destruct (Z.eqb_spec (stopping st) 0) as [Hs|Hs]; [|done]. cbn.
  destruct (Z.eqb_spec (initialized st) 0) as [Hi|Hi]; [done|]. by destruct Hn.
Qed.

(** X16: janus_lua_query_session returns a document exactly when the
    text the script answers with parses as JSON; the script is asked
    once, under lua_mutex, which is released before the function
    returns on every path.  A plugin that is not active returns NULL
    without touching anything, an unattached handle gives NULL and an
    error line. *)
Theorem query_session_result st reply h hs :
  handles st !! h = Some hs ->
  (~ active st -> janus_lua_query_session reply (Some h) st = Done None st) /\
  (active st -> plugin_handle hs = None ->
   exists msg,
     janus_lua_query_session reply (Some h) st
     = Done None (set_trace (trace st ++ [EvLog LOG_ERR msg]) st)) /\
  (forall p ss,
     active st -> plugin_handle hs = Some p -> heap st !! p = Some ss ->
     let asked := [EvLock lua_mutex;
                   EvLuaCall (Some "querySession"%string) [LNumber (id ss)];
                   EvUnlock lua_mutex] in
     (forall t, value_tostring (Some reply) = Some t -> json_loads_ok t = true ->
        exists st',
          janus_lua_query_session reply (Some h) st = Done (Some (next_block st)) st' /\
          blocks st' !! next_block st = Some (BJson t) /\
          trace st' = trace st ++ asked /\ heap st' = heap st) /\
     ((value_tostring (Some reply) = None \/
       exists t, value_tostring (Some reply) = Some t /\ json_loads_ok t = false) ->
      exists msg,
        janus_lua_query_session reply (Some h) st
        = Done None (set_trace (trace st ++ asked ++ [EvLog LOG_ERR msg]) st))).
Proof.
  intros Hh. unfold janus_lua_query_session. split; [|split].
  - intros Hn. rewrite !bind_gets, (inactive_guard _ Hn). by rewrite run_ret.
  - intros Ha Hp. rewrite !bind_gets, (active_guard _ Ha).
    rewrite (bind_deref_handle _ _ _ _ Hh), Hp. unfold_prims. repeat mstep. eauto.
  - intros p ss Ha Hp Hss. rewrite !bind_gets, (active_guard _ Ha).
    rewrite (bind_deref_handle _ _ _ _ Hh), Hp. unfold_prims. split.
    + intros t Ht Hok. repeat mstep. rewrite Ht. unfold json_loads. rewrite Hok.
      unfold_prims. repeat mstep. eexists. split; [reflexivity|]. cbn.
      rewrite lookup_insert_eq, <- !app_assoc. done.
    + intros Hbad. repeat mstep.
      destruct Hbad as [-> | (t & -> & Hno)]; unfold json_loads; rewrite ?Hno;
        unfold_prims; repeat mstep; eexists; rewrite <- !app_assoc; cbn; reflexivity.
Qed.

Lemma dump_and_release {B} dumps doc (k : option positive -> M B) st :
  is_document st doc ->
  (text <- match doc with
           | Some m => json_dumps dumps m
           | None => ret None
           end ;;
   json_decref doc ;;
   k text)%C st
  = k (serialized dumps doc st).1 (serialized dumps doc st).2.
Proof.
  intros Hd. unfold serialized. destruct doc as [m|]; cbn in *.
  - destruct Hd as [t Ht]. unfold json_dumps. rewrite Ht. unfold_prims.
    rewrite !bind_bind, bind_gets, Ht.
    destruct (dumps t) as [text|]; repeat mstep; done.
  - unfold_prims. by rewrite !bind_ret.
Qed.

Lemma document_below st doc j :
  blocks_fresh st -> is_document st doc -> doc = Some j -> (j < next_block st)%positive.
Proof.
  intros Hfresh Hd ->. destruct Hd as [t Ht].
  destruct (Pos.ltb_spec j (next_block st)); [done|]. rewrite Hfresh in Ht; done.
Qed.

Lemma serialized_fields dumps doc st :
  blocks_fresh st -> is_document st doc ->
  heap (serialized dumps doc st).2 = heap st /\
  trace (serialized dumps doc st).2 = trace st /\
  blocks_fresh (serialized dumps doc st).2 /\
  (next_block st <= next_block (serialized dumps doc st).2)%positive /\
  (forall m, doc = Some m -> blocks (serialized dumps doc st).2 !! m = None) /\
  (forall q, doc <> Some q -> (q < next_block st)%positive ->
             blocks (serialized dumps doc st).2 !! q = blocks st !! q) /\
  match (serialized dumps doc st).1 with
  | Some p =>
      exists text, dumped dumps st doc = Some text /\
                   (next_block st <= p)%positive /\
                   blocks (serialized dumps doc st).2 !! p = Some (BString text) /\
                   (p < next_block (serialized dumps doc st).2)%positive
  | None => dumped dumps st doc = None
  end.
Proof.
  intros Hfresh Hd. unfold serialized.
  destruct doc as [m|].
  - pose proof (document_below st _ m Hfresh Hd eq_refl) as Hm.
    destruct (dumped dumps st (Some m)) as [text|] eqn:E; cbn.
    + repeat split; try done.
      * intros q Hq. cbn in *. rewrite lookup_delete_ne by lia.
        rewrite lookup_insert_ne by lia. apply Hfresh. lia.
      * lia.
      * intros ? [= <-]. apply lookup_delete_eq.
      * intros q Hq Hlt. rewrite lookup_delete_ne by congruence.
        by rewrite lookup_insert_ne by lia.
      * exists text. split; [done|]. split; [lia|].
        rewrite lookup_delete_ne by lia. rewrite lookup_insert_eq. split; [done|lia].
    + repeat split; try done.
      * intros q Hq. cbn in *. rewrite lookup_delete_ne by lia. by apply Hfresh.
      * intros ? [= <-]. apply lookup_delete_eq.
      * intros q Hq Hlt. by rewrite lookup_delete_ne by congruence.
  - cbn. repeat split; try done.
Qed.

Lemma bind_c_str {B} ptr text (k : option string -> M B) st :
  match ptr with
  | Some p => exists t, text = Some t /\ blocks st !! p = Some (BString t)
  | None => text = None
  end ->
  bind (c_str ptr) k st = k text st.
Proof.
  destruct ptr as [p|]; cbn.
  - intros (t & -> & Hb). unfold c_str. rewrite bind_bind, bind_gets, Hb. by rewrite bind_ret.
  - intros ->. unfold c_str. by rewrite bind_ret.
Qed.

(** What is left of the two serializations when the script is called:
    the documents are gone, each text sits in a block that was free
    before, and the session heap and the trace are as before. *)
Lemma serialize_both dumps message jsep st :
  blocks_fresh st -> is_document st message -> is_document st jsep ->
  (message = None \/ message <> jsep) ->
  let s1 := serialized dumps message st in
  let s2 := serialized dumps jsep s1.2 in
  let left ptr doc :=
    match ptr with
    | Some q => exists t, dumped dumps st doc = Some t /\
                  blocks st !! q = None /\
                  blocks s2.2 !! q = Some (BString t) /\
                  (q < next_block s2.2)%positive
    | None => dumped dumps st doc = None
    end in
  is_document s1.2 jsep /\
  heap s2.2 = heap st /\ trace s2.2 = trace st /\ blocks_fresh s2.2 /\
  (forall q, (next_block s2.2 <= q)%positive -> blocks st !! q = None) /\
  (forall m, message = Some m ->
     blocks s2.2 !! m = None /\ (m < next_block s2.2)%positive) /\
  (forall j, jsep = Some j ->
     blocks s2.2 !! j = None /\ (j < next_block s2.2)%positive) /\
  left s1.1 message /\ left s2.1 jsep.
Proof.
  intros Hfresh Hm Hj Hne s1 s2 left.
  destruct (serialized_fields dumps message st Hfresh Hm)
    as (Hheap1 & Htrace1 & Hfresh1 & Hnb1 & Hmfree1 & Hkeep1 & Hptr1).
  fold s1 in Hheap1, Htrace1, Hfresh1, Hnb1, Hmfree1, Hkeep1, Hptr1.
  assert (Hjne : forall j, jsep = Some j -> message <> Some j).
  { intros j -> E. destruct Hne as [Hn|Hn]; congruence. }
  assert (Hjlow : forall j, jsep = Some j -> (j < next_block st)%positive).
  { intros j E. by apply (document_below st jsep j). }
  assert (Hmlow : forall m, message = Some m -> (m < next_block st)%positive).
  { intros m E. by apply (document_below st message m). }
  assert (Hj1 : is_document s1.2 jsep).
  { destruct jsep as [j|]; [|done]. destruct Hj as [t Ht]. exists t.
    rewrite Hkeep1; [done|by apply Hjne|by apply Hjlow]. }
  assert (Hd1 : dumped dumps s1.2 jsep = dumped dumps st jsep).
  { destruct jsep as [j|]; [|done]. unfold dumped.
    rewrite Hkeep1; [done|by apply Hjne|by apply Hjlow]. }
  destruct (serialized_fields dumps jsep s1.2 Hfresh1 Hj1)
    as (Hheap2 & Htrace2 & Hfresh2 & Hnb2 & Hjfree2 & Hkeep2 & Hptr2).
  fold s2 in Hheap2, Htrace2, Hfresh2, Hnb2, Hjfree2, Hkeep2, Hptr2.
  rewrite Hd1 in Hptr2.
  split; [done|]. split; [congruence|]. split; [congruence|]. split; [done|].
  split; [intros q Hq; apply Hfresh; lia|].
  split.
  { intros m Em. pose proof (Hmlow m Em). split; [|lia].
    rewrite Hkeep2; [by apply Hmfree1| |lia]. intros Ej. by apply (Hjne m Ej). }
  split.
  { intros j Ej. pose proof (Hjlow j Ej). split; [by apply Hjfree2|lia]. }
  split; subst left; cbn beta.
  - destruct (s1.1) as [q|]; [|done]. destruct Hptr1 as (t & Hd & Hlo & Hyes & Hlt).
    exists t. split; [done|]. split; [apply Hfresh; lia|]. split; [|lia].
    rewrite Hkeep2; [done| |done]. intros Ej. pose proof (Hjlow q Ej). lia.
  - destruct (s2.1) as [q|]; [|done]. destruct Hptr2 as (t & Hd & Hlo & Hyes & Hlt).
    exists t. split; [done|]. split; [apply Hfresh; lia|]. done.
Qed.


End Requests.

Lemma active_two_sessions : active two_sessions.
Proof. split; [discriminate|reflexivity]. Defined.

(** X16 on handle 11, when the script answers with the text {}. *)
Lemma query_session_result_witness :
  exists st',
    @janus_lua_query_session sample_env (LString "{}") (Some 11%positive) two_sessions
    = Done (Some 100%positive) st' /\
    blocks st' !! 100%positive = Some (BJson "{}") /\
    trace st' = [EvLock lua_mutex;
                 EvLuaCall (Some "querySession"%string) [LNumber 7];
                 EvUnlock lua_mutex].
Proof.
  destruct (@query_session_result sample_env two_sessions (LString "{}") 11%positive
              {| plugin_handle := Some 1%positive; stopped := 0 |} eq_refl)
    as (_ & _ & W).
  destruct (W 1%positive (sample_session 11 7) active_two_sessions eq_refl eq_refl)
    as [Wgood _].
  destruct (Wgood "{}"%string eq_refl eq_refl) as (st' & Hrun & Hb & Htr & _).
  exists st'. split; [exact Hrun|]. split; [exact Hb|exact Htr].
Defined.

Lemma blocks_fresh_inbox : blocks_fresh inbox.
Proof.
  intros q Hq. cbn in *. rewrite lookup_insert_ne by lia. apply lookup_empty.
Defined.


Global Arguments lua_functions : simpl never.

(** ** Starting the plugin *)

Section Startup.
Context `{!environment}.

(** X18: with a configuration that names a script, a script that
    loads and defines the nine required functions, and a scheduler
    thread that starts, janus_lua_init answers 0 and leaves the plugin
    initialized: the core callbacks are set, the two session tables and
    the event queue are empty, the optional incoming handlers are
    noted, the script's init was called once with the configured
    config text (nil without one), and the three strings duplicated
    from the configuration are released again. *)
Theorem init_succeeds st path config script isf :
  stopping st = 0 -> blocks_fresh st ->
  janus_config_parse (config_filename path) = Some config ->
  janus_config_get_item_drilldown config "general" "script" = Some script ->
  luaL_dofile (value script) = Some isf ->
  forallb isf lua_functions = true ->
  let conf := item_text (janus_config_get_item_drilldown config "general" "config") in
  exists st',
    janus_lua_init true true (Some path) st = Done 0 st' /\
    initialized st' = 1 /\ gateway st' = true /\ lua_state st' = true /\
    sessions st' = ∅ /\ ids st' = ∅ /\ events st' = [] /\
    has_incoming_rtp st' = has_incoming_rtp st || isf "incomingRtp" /\
    has_incoming_rtcp st' = has_incoming_rtcp st || isf "incomingRtcp" /\
    has_incoming_data st' = has_incoming_data st || isf "incomingData" /\
    blocks st' = blocks st /\
    trace st' = trace st ++
      [EvLog LOG_VERB "Configuration file: %s";
       EvLuaCall (Some "init"%string) [lua_pushstring conf];
       EvThreadNew "lua scheduler";
       EvLog LOG_INFO "%s initialized!"].
Proof.
  intros Hs Hfresh Hc Hscript Hload Hall conf.
  unfold janus_lua_init. unfold_prims. rewrite bind_gets, Hs. cbn [negb Z.eqb].
  repeat mstep. fold (config_filename path). rewrite Hc, Hscript.
  assert (Hfind : find (fun f => negb (isf f)) lua_functions = None).
  { apply eq_None_not_Some. intros [f Hf]. apply find_some in Hf as [Hin Hf].
    rewrite forallb_forall in Hall. rewrite (Hall f Hin) in Hf. done. }
  unfold item_value, g_strdup_opt. unfold_prims.
  destruct (janus_config_get_item_drilldown config "general" "path") as [[pn [pv|]]|];
    destruct (value script) as [sv|] eqn:Hsv;
    destruct (janus_config_get_item_drilldown config "general" "config") as [[cn [cv|]]|]
      eqn:Hconf;
    cbn; repeat mstep; rewrite ?Hsv; repeat mstep; rewrite Hload, Hfind; repeat mstep.
  all: eexists; (split; [reflexivity|]); cbn; subst conf; cbn;
    rewrite <- !app_assoc; repeat split; try done; blocks_done Hfresh.
Qed.

(** X19: janus_lua_init answers 0 or -1.  It answers 0 only when the
    scheduler thread was started, and then the initialized flag and
    the core callbacks are set.  A call that answers -1 sets neither:
    the gateway pointer is as it was before the call, and the
    initialized flag is as it was before, or is reset to 0 when it was
    the launch of the thread that failed -- so a plugin that was not
    initialized before a failed call is not initialized after it.
    (Stated for configurations that have a script item.) *)
Theorem init_failure_inactive spawn_ok callback config_path st :
  (forall path, config_path = Some path -> script_configured path = true) ->
  exists r st',
    janus_lua_init spawn_ok callback config_path st = Done r st' /\
    ((r = 0 /\ spawn_ok = true /\ callback = true /\ stopping st = 0 /\
      initialized st' = 1 /\ gateway st' = true /\ lua_state st' = true) \/
     (r = -1 /\ gateway st' = gateway st /\
      (initialized st' = initialized st \/
       (spawn_ok = false /\ initialized st' = 0)) /\
      (initialized st = 0 -> initialized st' = 0) /\
      (lua_state st' = lua_state st \/ lua_state st' = false))).
Proof.
  intros Hscript.
  unfold janus_lua_init. unfold_prims. rewrite bind_gets.
  destruct (Z.eqb_spec (stopping st) 0) as [Hs|Hs]; cbn [negb];
    [|rewrite run_ret; eexists _, _; split; [reflexivity|]; right; by eauto 10].
  destruct callback, config_path as [path|];
    try (rewrite run_ret; eexists _, _; split; [reflexivity|]; right; by eauto 10).
  specialize (Hscript path eq_refl). unfold script_configured in Hscript.
  repeat mstep. fold (config_filename path).
  destruct (janus_config_parse (config_filename path)) as [config|];
    [|repeat mstep; eexists _, _; split; [reflexivity|]; right; cbn; by eauto 10].
  destruct (janus_config_get_item_drilldown config "general" "script")
    as [script|]; [|done].
  unfold item_value, g_strdup_opt. unfold_prims.
  destruct (janus_config_get_item_drilldown config "general" "path") as [[pn [pv|]]|];
    destruct (value script) as [sv|] eqn:Hsv;
    destruct (janus_config_get_item_drilldown config "general" "config") as [[cn [cv|]]|];
    cbn; repeat mstep; rewrite ?Hsv; repeat mstep.
  all: match goal with
       | |- context [luaL_dofile ?x] => destruct (luaL_dofile x) as [isf|]
       end;
    [destruct (find (fun f => negb (isf f)) lua_functions); [|destruct spawn_ok]|];
    repeat mstep; eexists _, _; (split; [reflexivity|]); cbn;
    first [ left; by repeat split | right; by eauto 10 ].
Qed.

Lemma find_missing (isf : string -> bool) l :
  forallb isf l = false -> exists f, find (fun f => negb (isf f)) l = Some f.
Proof.
  induction l as [|x l IH]; [done|]. cbn. destruct (isf x); cbn; [exact IH|eauto].
Qed.

(** X20: when the script does not load, or lacks one of the required
    functions, janus_lua_init closes the Lua state and answers -1
    having released the folder and the file name it duplicated -- but
    not the config text: that string stays allocated. *)
Theorem init_load_failure_keeps_config st spawn_ok path config script citem cv :
  stopping st = 0 -> blocks_fresh st ->
  janus_config_parse (config_filename path) = Some config ->
  janus_config_get_item_drilldown config "general" "script" = Some script ->
  janus_config_get_item_drilldown config "general" "config" = Some citem ->
  value citem = Some cv ->
  (luaL_dofile (value script) = None \/
   exists isf, luaL_dofile (value script) = Some isf /\
               forallb isf lua_functions = false) ->
  exists st' q,
    janus_lua_init spawn_ok true (Some path) st = Done (-1) st' /\
    initialized st' = initialized st /\ lua_state st' = false /\
    blocks st !! q = None /\
    blocks st' = <[q := BString cv]> (blocks st).
Proof.
  intros Hs Hfresh Hc Hscript Hconf Hcv Hbad.
  unfold janus_lua_init. unfold_prims. rewrite bind_gets, Hs. cbn [negb Z.eqb].
  repeat mstep. fold (config_filename path). rewrite Hc, Hscript, Hconf.
  unfold item_value, g_strdup_opt. unfold_prims. rewrite Hcv.
  destruct (janus_config_get_item_drilldown config "general" "path") as [[pn [pv|]]|];
    destruct (value script) as [sv|] eqn:Hsv;
    cbn; repeat mstep; rewrite ?Hsv; repeat mstep;
    (destruct Hbad as [Hload | (isf & Hload & Hmiss)]; rewrite Hload;
     [|destruct (find_missing _ _ Hmiss) as [f Hf]; rewrite Hf]);
    repeat mstep; eexists _, _; (split; [reflexivity|]); cbn;
    (split; [done|]); (split; [done|]);
    lazymatch goal with
    | |- blocks st !! ?e = None /\ ?L = _ =>
        match L with context [insert ?k (BString cv) _] => unify e k end
    end;
    (split; [apply Hfresh; lia |]);
    apply map_eq; intros i;
    repeat (rewrite ?lookup_delete, ?lookup_insert; repeat case_decide; subst;
            try congruence; try lia);
    try reflexivity; symmetry; apply Hfresh; lia.
Qed.

End Startup.

Lemma blocks_fresh_cold : blocks_fresh cold.
Proof. intros q _. apply lookup_empty. Defined.

(** X18 on the sample configuration. *)
Lemma init_succeeds_witness :
  exists st',
    @janus_lua_init scripted_env true true (Some "/etc/janus"%string) cold
    = Done 0 st' /\
    initialized st' = 1 /\ gateway st' = true /\ blocks st' = ∅ /\
    trace st' = [EvLog LOG_VERB "Configuration file: %s";
                 EvLuaCall (Some "init"%string) [LString "/etc/echo.json"];
                 EvThreadNew "lua scheduler";
                 EvLog LOG_INFO "%s initialized!"].
Proof.
  destruct (@init_succeeds scripted_env cold "/etc/janus"%string scripted_config
              {| item_name := "script"; value := Some "/opt/lua/echo.lua"%string |}
              (fun f => existsb (String.eqb f) lua_functions)
              eq_refl blocks_fresh_cold eq_refl eq_refl eq_refl eq_refl)
    as (st' & Hrun & Hi & Hg & _ & _ & _ & _ & _ & _ & _ & Hb & Htr).
  exists st'. split; [exact Hrun|]. split; [exact Hi|]. split; [exact Hg|].
  split; [exact Hb|exact Htr].
Defined.

(** X19 when the scheduler thread cannot be started. *)
Lemma init_failure_inactive_witness :
  exists st',
    @janus_lua_init scripted_env false true (Some "/etc/janus"%string) cold
    = Done (-1) st' /\
    initialized st' = 0 /\ gateway st' = false.
Proof.
  destruct (@init_failure_inactive scripted_env false true (Some "/etc/janus"%string)
              cold (fun _ _ => eq_refl))
    as (r & st' & Hrun & [(_ & Hs & _) | (-> & Hg & _ & Hi & _)]).
  - discriminate Hs.
  - exists st'. split; [exact Hrun|]. split; [exact (Hi eq_refl)|exact Hg].
Defined.

(** X20 on a script that does not load: the config text is left in
    block 102. *)
Lemma init_load_failure_keeps_config_witness :
  exists st' q,
    @janus_lua_init unloadable_env true true (Some "/etc/janus"%string) cold
    = Done (-1) st' /\
    blocks st' = <[q := BString "/etc/echo.json"]> ∅.
Proof.
  destruct (@init_load_failure_keeps_config unloadable_env cold true
              "/etc/janus"%string scripted_config
              {| item_name := "script"; value := Some "/opt/lua/echo.lua"%string |}
              {| item_name := "config"; value := Some "/etc/echo.json"%string |}
              "/etc/echo.json"%string
              eq_refl blocks_fresh_cold eq_refl eq_refl eq_refl eq_refl
              (or_introl eq_refl))
    as (st' & q & Hrun & _ & _ & _ & Hb).
  exists st', q. split; [exact Hrun|exact Hb].
Defined.

(** ** Incoming media *)

Section Gates.
Context `{!environment}.

Lemma gate_closed st hs :
  stopped hs <> 0 \/ ~ active st ->
  negb (stopped hs =? 0) || negb (stopping st =? 0) || (initialized st =? 0) = true.
Proof.
  intros [Hs|Hn].
  - by destruct (Z.eqb_spec (stopped hs) 0).
  - destruct (Z.eqb_spec (stopped hs) 0); [|done]. cbn. unfold active in Hn.
    destruct (Z.eqb_spec (stopping st) 0) as [Hs|Hs]; [|done]. cbn.
    destruct (Z.eqb_spec (initialized st) 0) as [Hi|Hi]; [done|]. by destruct Hn.
Qed.

Lemma gate_open st hs :
  stopped hs = 0 -> active st ->
  negb (stopped hs =? 0) || negb (stopping st =? 0) || (initialized st =? 0) = false.
Proof.
  intros -> [Hi ->]. cbn. by destruct (Z.eqb_spec (initialized st) 0).
Qed.

Lemma session_gate ss :
  destroyed ss <> 0 \/ hangingup ss <> 0 ->
  negb (destroyed ss =? 0) || negb (hangingup ss =? 0) = true.
Proof.
  intros [Hd|Hh].
  - by destruct (Z.eqb_spec (destroyed ss) 0).
  - destruct (Z.eqb_spec (destroyed ss) 0); [|done].
    by destruct (Z.eqb_spec (hangingup ss) 0).
Qed.

Lemma substring_length n : forall s,
  (n <= String.length s)%nat -> String.length (substring 0 n s) = n.
Proof.
  induction n as [|n IH]; intros s Hn.
  - by destruct s.
  - destruct s as [|c s]; cbn in *; [lia|]. rewrite IH; [done|lia].
Qed.

Lemma first_bytes_of_length buf len :
  0 <= len <= Z.of_nat (String.length buf) ->
  Z.of_nat (String.length (first_bytes_of buf len)) = len.
Proof.
  intros Hl. unfold first_bytes_of. rewrite substring_length by lia. lia.
Qed.

(** X21: media that arrives on a stopped handle, while the plugin is
    not active, or for a session that is destroyed or hanging up, is
    dropped by all four media callbacks: the buffer is untouched and
    the plugin state does not change at all -- nothing is recorded,
    relayed, logged or handed to the script. *)
Theorem media_gated st h hs :
  handles st !! h = Some hs -> gated st hs ->
  (forall now video buf len,
     janus_lua_incoming_rtp now (Some h) video buf len st = Done buf st) /\
  (forall video buf len,
     janus_lua_incoming_rtcp (Some h) video buf len st = Done tt st) /\
  (forall buf len, janus_lua_incoming_data (Some h) buf len st = Done tt st) /\
  (forall uplink video, janus_lua_slow_link (Some h) uplink video st = Done tt st).
Proof.
  intros Hh Hg.
  assert (Hcases : stopped hs <> 0 \/ ~ active st \/
            (stopped hs = 0 /\ active st /\
             exists p ss, plugin_handle hs = Some p /\ heap st !! p = Some ss /\
                          (destroyed ss <> 0 \/ hangingup ss <> 0))).
  { destruct (decide (stopped hs = 0)) as [Hs|Hs]; [|by left].
    destruct Hg as [?|[Hn|Hx]]; [done|by right; left|].
    destruct (decide (initialized st = 0)) as [Hi|Hi].
    { right. left. intros [? ?]. done. }
    destruct (decide (stopping st = 0)) as [Hp|Hp].
    - right. right. by repeat split.
    - right. left. intros [? ?]. done. }
  repeat split; intros;
    [ unfold janus_lua_incoming_rtp | unfold janus_lua_incoming_rtcp
    | unfold janus_lua_incoming_data | unfold janus_lua_slow_link ];
    rewrite (bind_deref_handle _ _ _ _ Hh), !bind_gets;
    (destruct Hcases as [Hs|[Hn|(Hs & Ha & p & ss & Hp & Hss & Hd)]];
     [ rewrite gate_closed by (by left); by rewrite run_ret
     | rewrite gate_closed by (by right); by rewrite run_ret
     | rewrite gate_open by done; rewrite Hp, (bind_deref _ _ _ _ Hss);
       rewrite ?session_gate by done; by rewrite ?run_ret ]).
Qed.


(** X23: without a script handler, incoming RTCP is only looked at for
    a REMB: if there is none, nothing happens; if there is one, one
    RTCP message goes back on the same handle -- a REMB carrying the
    session's bitrate when a bitrate is configured (24 bytes), the
    packet as it came otherwise. *)
Theorem incoming_rtcp_caps_remb st h hs p ss video buf len :
  handles st !! h = Some hs -> flowing st hs p ss ->
  has_incoming_rtcp st = false -> gateway st = true ->
  janus_lua_incoming_rtcp (Some h) video buf len st
  = Done tt
      (set_trace
         (trace st ++
          (if 0 <? janus_rtcp_get_remb buf len then
             [if 0 <? bitrate ss
              then EvRelayRtcp (Some h) true (RtcpRemb (bitrate ss)) 24
              else EvRelayRtcp (Some h) true (Bytes buf) len]
           else [])) st).
Proof.
  intros Hh (Hs & Ha & Hp & Hss & Hd & Hhu) Hhas Hg.
  unfold janus_lua_incoming_rtcp.
  rewrite (bind_deref_handle _ _ _ _ Hh), !bind_gets, gate_open by done.
  rewrite Hp, (bind_deref _ _ _ _ Hss), Hd, Hhu. cbn [negb orb Z.eqb].
  rewrite bind_gets, Hhas. unfold_prims.
  destruct (0 <? janus_rtcp_get_remb buf len); [destruct (0 <? bitrate ss)|];
    repeat mstep; rewrite ?Hg; repeat mstep; try done.
  rewrite app_nil_r. by destruct st.
Qed.

End Gates.

(** X21 on handle 11 of [hung]. *)
Lemma media_gated_witness :
  @janus_lua_incoming_rtp sample_env 5000000 (Some 11%positive) true
    (Some sample_rtp) 900 hung = Done (Some sample_rtp) hung /\
  janus_lua_incoming_data (Some 11%positive) "hello" 5 hung = Done tt hung.
Proof.
  destruct (@media_gated sample_env hung 11%positive
              {| plugin_handle := Some 1%positive; stopped := 0 |} eq_refl)
    as (Hrtp & _ & Hdata & _).
  - right. right. exists 1%positive, (set_hangingup 1 (set_ref 2 (sample_session 11 7))).
    split; [reflexivity|]. split; [reflexivity|]. right. discriminate.
  - split; [apply Hrtp|apply Hdata].
Defined.

Lemma flowing_relaying :
  flowing relaying {| plugin_handle := Some 1%positive; stopped := 0 |} 1%positive
    (set_rates 0 2 0
       (set_recipients [2%positive]
          (set_flags (false, false, false, true, true, true)
             (set_ref 2 (sample_session 11 7))))).
Proof.
  split; [reflexivity|]. split; [split; [discriminate|reflexivity]|].
  repeat split; reflexivity.
Defined.


(** X23 on handle 11 of [capped]: the REMB that arrives is answered
    with the configured 128000. *)
Lemma incoming_rtcp_caps_remb_witness :
  @janus_lua_incoming_rtcp remb_env (Some 11%positive) true "remb" 24 capped
  = Done tt
      (set_trace [EvRelayRtcp (Some 11%positive) true (RtcpRemb 128000) 24] capped).
Proof.
  apply (@incoming_rtcp_caps_remb remb_env capped 11%positive
           {| plugin_handle := Some 1%positive; stopped := 0 |} 1%positive
           (set_bitrate 128000 (set_ref 2 (sample_session 11 7)))).
  - reflexivity.
  - split; [reflexivity|]. split; [split; [discriminate|reflexivity]|].
    repeat split; reflexivity.
  - reflexivity.
  - reflexivity.
Defined.

(** ** Waking the scheduler *)

Lemma pokes_run n : forall s st,
  repeated n (janus_lua_method_pokescheduler s) st
  = Done 0 (set_events (events st ++ replicate n janus_lua_event_resume) st).
Proof.
  induction n as [|n IH]; intros s st.
  - cbn. rewrite run_ret, app_nil_r. by destruct st.
  - cbn [repeated]. unfold janus_lua_method_pokescheduler at 1. unfold_prims.
    repeat mstep. rewrite IH. cbn. rewrite <- app_assoc. done.
Qed.

Lemma scheduler_loop_resumes q : forall st,
  events st = q -> janus_lua_event_exit ∉ q -> active st ->
  exists st',
    janus_lua_scheduler_loop q st = Done SchedulerWaiting st' /\
    events st' = [] /\
    resume_calls (trace st') = (resume_calls (trace st) + resume_tokens q)%nat.
Proof.
  induction q as [|ev q IH]; intros st E Hno Ha.
  - exists st. cbn. rewrite run_ret. repeat split; try done.
  - apply not_elem_of_cons in Hno as [Hne Hno].
    destruct (scheduler_turn_other st ev q E) as (st1 & status & Hrun & Hev & Hi & Hs & Hc & Hst);
      [congruence|].
    cbn [janus_lua_scheduler_loop]. rewrite (bind_Done _ _ _ _ _ Hrun).
    destruct Ha as [Hai Has]. rewrite Has in Hst.
    destruct (Z.eqb_spec (initialized st) 0) as [|_]; [done|]. cbn in Hst. subst status.
    destruct (IH st1 Hev Hno) as (st' & Hrun' & Hev' & Hc').
    { split; congruence. }
    exists st'. split; [done|]. split; [done|].
    rewrite Hc', Hc. cbn. lia.
Qed.

Lemma resume_tokens_replicate n :
  resume_tokens (replicate n janus_lua_event_resume) = n.
Proof. induction n as [|n IH]; [done|]. cbn. by rewrite IH. Qed.

(** X24: each pokeScheduler call queues one resume token and answers 0;
    when the scheduler thread then runs on an active plugin whose queue
    held nothing else, it asks the script to resume once per poke,
    drains the queue and is left waiting for the next token (it does
    not leave its loop). *)
Theorem pokescheduler_wakes n s st :
  active st -> events st = [] ->
  exists st1 st2,
    repeated n (janus_lua_method_pokescheduler s) st = Done 0 st1 /\
    events st1 = replicate n janus_lua_event_resume /\
    janus_lua_scheduler st1 = Done SchedulerWaiting st2 /\
    events st2 = [] /\
    resume_calls (trace st2) = (resume_calls (trace st) + n)%nat.
Proof.
  intros [Hi Hs] Hev.
  set (st1 := set_events (replicate n janus_lua_event_resume) st).
  set (st1' := set_trace (trace st ++ [EvLog LOG_VERB "Joining Lua scheduler thread"]) st1).
  destruct (scheduler_loop_resumes (replicate n janus_lua_event_resume) st1')
    as (st2 & Hrun & Hev2 & Hc); [done| |done|].
  { intros Hin. apply elem_of_replicate in Hin as [? _]. done. }
  exists st1, st2. split; [by rewrite pokes_run, Hev|].
  split; [done|].
  unfold janus_lua_scheduler, scheduler_condition. unfold_prims. repeat mstep.
  cbn. rewrite Hs.
  destruct (Z.eqb_spec (initialized st) 0) as [|_]; [done|]. cbn.
  repeat mstep. fold st1 st1'. split; [exact Hrun|]. split; [done|].
  rewrite Hc, resume_tokens_replicate. subst st1' st1. cbn.
  rewrite resume_calls_app. cbn. lia.
Qed.

(** X24 with three pokes on [two_sessions] and an empty queue. *)
Lemma pokescheduler_wakes_witness :
  exists st1 st2,
    repeated 3 (janus_lua_method_pokescheduler []) (set_events [] two_sessions) = Done 0 st1 /\
    events st1 = replicate 3 janus_lua_event_resume /\
    janus_lua_scheduler st1 = Done SchedulerWaiting st2 /\
    events st2 = [] /\
    resume_calls (trace st2) = (resume_calls (trace (set_events [] two_sessions)) + 3)%nat.
Proof.
  apply (pokescheduler_wakes 3 [] (set_events [] two_sessions)).
  - split; [vm_compute; discriminate|reflexivity].
  - reflexivity.
Defined.

(** ** Sessions come and go

    The call-outs assume [registry_ok]; creating and destroying
    sessions keeps it. *)

Section Lifecycle.
Context `{!environment}.

Lemma registry_ok_intro st :
  (forall sid p, ids st !! sid = Some p ->
     exists ss, heap st !! p = Some ss /\ 0 < ref ss /\ id ss = sid) ->
  registry_ok st = true.
Proof.
  intros Hall. unfold registry_ok. rewrite forallb_forall. intros [sid p] Hin.
  apply list_elem_of_In, elem_of_map_to_list in Hin.
  destruct (Hall sid p Hin) as (ss & Hh & Hr & Hid). cbn. rewrite Hh.
  apply andb_true_intro. split; [by apply Z.ltb_lt|by apply Z.eqb_eq].
Qed.

Lemma draw_session_id_spec draws taken sid :
  draw_session_id draws taken = Some sid ->
  sid <> 0 /\ taken !! sid = None /\ sid ∈ draws.
Proof.
  induction draws as [|r draws IH]; cbn; [done|].
  destruct (Z.eqb_spec r 0) as [|Hr].
  { intros Hd. destruct (IH Hd) as (? & ? & ?). repeat split; try done. by right. }
  destruct (taken !! r) eqn:Ht; cbn.
  { intros Hd. destruct (IH Hd) as (? & ? & ?). repeat split; try done. by right. }
  intros [= <-]. repeat split; try done. by left.
Qed.

Lemma create_session_state st draws h hs sid :
  active st -> handles st !! h = Some hs -> sessions st !! h = None ->
  draw_session_id draws (ids st) = Some sid ->
  exists ss,
    janus_lua_create_session draws (Some h) st
    = Done None
        (set_trace (trace st ++
                    [EvLock sessions_mutex;
                     EvLog LOG_VERB "Creating new Lua session %u...";
                     EvUnlock sessions_mutex;
                     EvLock lua_mutex;
                     EvLuaCall (Some "createSession"%string) [LNumber sid];
                     EvUnlock lua_mutex])
           (set_ids (<[sid := next_block st]> (ids st))
              (set_sessions (<[h := next_block st]> (sessions st))
                 (set_handles (<[h := {| plugin_handle := Some (next_block st);
                                         stopped := stopped hs |}]> (handles st))
                    (set_heap (<[next_block st := ss]> (heap st))
                       (set_blocks (blocks st) (Pos.succ (next_block st)) st)))))) /\
    id ss = sid /\ handle ss = Some h /\ destroyed ss = 0 /\ ref ss = 1 /\
    recipients ss = [] /\ started ss = 0 /\ hangingup ss = 0 /\
    recorder_of Audio ss = None /\ recorder_of Video ss = None /\
    recorder_of Data ss = None.
Proof.
  intros [Hi Hs] Hh Hnone Hdraw.
  unfold janus_lua_create_session, g_hash_table_insert_sessions,
    janus_lua_session_destroy. unfold_prims.
  repeat mstep. rewrite Hs. destruct (Z.eqb_spec (initialized st) 0) as [|_]; [done|].
  cbn. repeat mstep. rewrite Hdraw. repeat mstep.
  erewrite bind_deref_handle by (cbn; exact Hh). repeat mstep. rewrite Hnone. repeat mstep.
  eexists. split.
  - cbn. rewrite <- !app_assoc. cbn. reflexivity.
  - repeat split.
Qed.


(** X25: janus_lua_create_session gives the new session an id that is
    not zero and was not in use (the first such value drawn), keeps
    the registry well formed, leaves every other id and every other
    handle resolving as before, and tells the script createSession
    with the new id once the sessions mutex is released. *)
Theorem create_session_keeps_registry st draws h hs sid :
  active st -> registry_ok st = true -> heap st !! next_block st = None ->
  handles st !! h = Some hs -> sessions st !! h = None ->
  draw_session_id draws (ids st) = Some sid ->
  exists st',
    janus_lua_create_session draws (Some h) st = Done None st' /\
    sid <> 0 /\ sid ∈ draws /\ ids st !! sid = None /\
    registry_ok st' = true /\
    (forall sid', sid' <> sid -> lookup_by_id st' sid' = lookup_by_id st sid') /\
    (forall h', h' <> h ->
       lookup_by_handle st' h' = lookup_by_handle st h' /\
       back_pointer st' h' = back_pointer st h') /\
    trace st' = trace st ++
                [EvLock sessions_mutex;
                 EvLog LOG_VERB "Creating new Lua session %u...";
                 EvUnlock sessions_mutex;
                 EvLock lua_mutex;
                 EvLuaCall (Some "createSession"%string) [LNumber sid];
                 EvUnlock lua_mutex].
Proof.
  intros Ha Hok Hnew Hh Hnone Hdraw.
  destruct (create_session_state st draws h hs sid Ha Hh Hnone Hdraw)
    as (ss & Hrun & Hid & _ & _ & Hr & _).
  destruct (draw_session_id_spec _ _ _ Hdraw) as (Hnz & Hfree & Hin).
  eexists. split; [exact Hrun|]. split; [done|]. split; [done|]. split; [done|].
  assert (Hold : forall sid' q, ids st !! sid' = Some q -> q <> next_block st).
  { intros sid' q Hq ->. destruct (registry_ok_lookup _ _ _ Hok Hq) as (? & Hx & _).
    congruence. }
  split; [|split; [|split]].
  - apply registry_ok_intro. cbn. intros sid' q Hq.
    destruct (decide (sid' = sid)) as [->|Hne].
    + rewrite lookup_insert_eq in Hq. injection Hq as <-.
      rewrite lookup_insert_eq. exists ss. repeat split; [lia|done].
    + rewrite lookup_insert_ne in Hq by done.
      rewrite lookup_insert_ne by (intros E; by apply (Hold sid' q)).
      by apply registry_ok_lookup.
  - intros sid' Hne. unfold lookup_by_id. cbn. rewrite lookup_insert_ne by done.
    destruct (ids st !! sid') as [q|] eqn:Hq; [|done].
    rewrite lookup_insert_ne by (intros E; by apply (Hold sid' q)). done.
  - intros h' Hne. unfold lookup_by_handle, back_pointer. cbn.
    by rewrite !lookup_insert_ne.
  - done.
Qed.

(** X26: janus_lua_destroy_session takes the handle out of the
    handle-keyed table, tells the script destroySession with the id
    and keeps the registry well formed.  While other references
    remain, the session is only flagged and loses one reference: its
    id and its recorders stay.  With the last reference the session is
    freed: the reference on the core handle is dropped, the id leaves
    the id table and the three recorders are released. *)
Theorem destroy_session_releases st h hs p ss :
  active st -> registry_ok st = true ->
  handles st !! h = Some hs -> plugin_handle hs = Some p ->
  sessions st !! h = Some p ->
  heap st !! p = Some ss -> handle ss = Some h ->
  destroyed ss = 0 -> 0 < ref ss ->
  exists st',
    janus_lua_destroy_session (Some h) st = Done None st' /\
    sessions st' = delete h (sessions st) /\
    registry_ok st' = true /\
    (1 < ref ss ->
       heap st' = <[p := set_ref (ref ss - 1) (set_destroyed 1 ss)]> (heap st) /\
       ids st' = ids st /\ recorders st' = recorders st /\
       trace st' = trace st ++
                   [EvLog LOG_VERB "Removing Lua session %u...";
                    EvLock sessions_mutex; EvUnlock sessions_mutex;
                    EvLock lua_mutex;
                    EvLuaCall (Some "destroySession"%string) [LNumber (id ss)];
                    EvUnlock lua_mutex]) /\
    (ref ss = 1 ->
       heap st' = delete p (heap st) /\
       ids st' = delete (id ss) (ids st) /\
       recorders st' = free_locals (arc ss, vrc ss, drc ss) (recorders st) /\
       trace st' = trace st ++
                   [EvLog LOG_VERB "Removing Lua session %u...";
                    EvLock sessions_mutex; EvHandleUnref (Some h);
                    EvUnlock sessions_mutex;
                    EvLock lua_mutex;
                    EvLuaCall (Some "destroySession"%string) [LNumber (id ss)];
                    EvUnlock lua_mutex]).
Proof.
  intros [Hi Hs] Hok Hh Hp Hsess Hss Hhandle Hd Hr.
  unfold janus_lua_destroy_session, g_hash_table_remove_sessions,
    janus_lua_session_destroy. unfold_prims.
  repeat mstep. rewrite Hs. destruct (Z.eqb_spec (initialized st) 0) as [|_]; [done|].
  cbn. rewrite (bind_deref_handle _ _ _ _ Hh), Hp. repeat mstep.
  rewrite Hsess. repeat mstep. rewrite Hd. cbn. repeat mstep.
  destruct (decide (ref ss = 1)) as [H1|Hn1].
  - unfold janus_refcount_decrease, janus_lua_session_free. unfold_prims.
    repeat mstep. rewrite H1. change (1 - 1 =? 0) with true. cbv iota.
    repeat mstep. rewrite Hhandle.
    rewrite bind_deref_handle with (hs := hs) by (cbn; done).
    repeat mstep. rewrite bind_recorder_free. repeat mstep.
    rewrite bind_recorder_free. repeat mstep. rewrite bind_recorder_free. repeat mstep.
    eexists. split; [reflexivity|]. cbn. split; [done|]. split.
    + apply registry_ok_intro. cbn. intros sid q Hq.
      apply lookup_delete_Some in Hq as [Hne Hq].
      destruct (registry_ok_lookup _ _ _ Hok Hq) as (sq & Hsq & Hrq & Hidq).
      assert (q <> p) by (intros ->; congruence).
      exists sq. rewrite delete_insert_eq, lookup_delete_ne by done. done.
    + split; [lia|]. intros _. rewrite delete_insert_eq, <- !app_assoc. done.
  - repeat mstep. eexists. split; [reflexivity|]. cbn. split; [done|]. split.
    + apply registry_ok_intro. cbn. intros sid q Hq.
      destruct (registry_ok_lookup _ _ _ Hok Hq) as (sq & Hsq & Hrq & Hidq).
      destruct (decide (q = p)) as [->|Hne].
      * rewrite lookup_insert_eq. eexists. split; [done|]. cbn.
        assert (sq = ss) as -> by congruence. split; [lia|done].
      * rewrite lookup_insert_ne by done. eauto.
    + split; [|lia]. intros _. rewrite <- !app_assoc. done.
Qed.

End Lifecycle.

(** X25 on [newcomer]: of the draws 0, 7 and 42 the first is zero and
    the second is in use, so handle 13 gets id 42. *)
Lemma create_session_keeps_registry_witness :
  exists st',
    @janus_lua_create_session sample_env [0; 7; 42] (Some 13%positive) newcomer
    = Done None st' /\
    registry_ok st' = true /\
    lookup_by_id st' 7 = lookup_by_id newcomer 7 /\
    lookup_by_handle st' 12%positive = lookup_by_handle newcomer 12%positive /\
    last (trace st') = Some (EvUnlock lua_mutex).
Proof.
  destruct (@create_session_keeps_registry sample_env newcomer [0; 7; 42] 13%positive
              {| plugin_handle := None; stopped := 0 |} 42)
    as (st' & Hrun & _ & _ & _ & Hok & Hids & Hhs & Htr).
  - split; [discriminate|reflexivity].
  - reflexivity.
  - reflexivity.
  - reflexivity.
  - reflexivity.
  - reflexivity.
  - exists st'. split; [exact Hrun|]. split; [exact Hok|].
    split; [by apply Hids|]. split; [by apply Hhs|]. by rewrite Htr.
Defined.

(** X26 on handle 11 of [recording], which holds the only reference
    to session 7: the session and its audio recorder are released. *)
Lemma destroy_session_releases_witness :
  exists st',
    janus_lua_destroy_session (Some 11%positive) recording = Done None st' /\
    registry_ok st' = true /\
    heap st' !! 1%positive = None /\
    recorders st' = ∅.
Proof.
  destruct (destroy_session_releases recording 11%positive
              {| plugin_handle := Some 1%positive; stopped := 0 |} 1%positive
              (set_arc (Some 50%positive) (sample_session 11 7)))
    as (st' & Hrun & _ & Hok & _ & Hlast).
  - split; [discriminate|reflexivity].
  - reflexivity.
  - reflexivity.
  - reflexivity.
  - reflexivity.
  - reflexivity.
  - reflexivity.
  - reflexivity.
  - reflexivity.
  - destruct (Hlast eq_refl) as (Hheap & _ & Hrec & _).
    exists st'. split; [exact Hrun|]. split; [exact Hok|].
    split; [by rewrite Hheap|]. rewrite Hrec. by vm_compute.
Defined.

(** ** Setting up and hanging up media *)

Section Hangup.
Context `{!environment}.

Lemma hangup_recipients_run p : forall l st sp,
  heap st !! p = Some sp -> recipients sp = l ->
  NoDup l -> p ∉ l -> Z.of_nat (length l) < ref sp ->
  (forall r, r ∈ l -> exists sr, heap st !! r = Some sr /\ 1 < ref sr) ->
  exists hp,
    hangup_recipients p l st = Done tt (set_heap hp st) /\
    hp !! p = Some (set_ref (ref sp - Z.of_nat (length l)) (set_recipients [] sp)) /\
    (forall r sr, r ∈ l -> heap st !! r = Some sr ->
                  hp !! r = Some (set_ref (ref sr - 1) sr)) /\
    (forall q, q <> p -> q ∉ l -> hp !! q = heap st !! q).
Proof.
  induction l as [|r l IH]; intros st sp Hp Hl Hnd Hnot Hlen Hrs.
  - exists (heap st). cbn. rewrite run_ret. split; [by destruct st|].
    split; [|split; [intros ? ? Hin; by apply elem_of_nil in Hin|done]].
    rewrite Hp. f_equal. apply session_ext; cbn; try done. lia.
  - apply NoDup_cons in Hnd as [Hrl Hnd]. apply not_elem_of_cons in Hnot as [Hpr Hnot].
    destruct (Hrs r) as (sr & Hr & Hrr); [by left|].
    cbn [hangup_recipients]. unfold store.
    rewrite !bind_bind, (bind_deref _ _ _ _ Hp), bind_modify, Hl.
    unfold g_slist_remove. rewrite Pos.eqb_refl. fold g_slist_remove.
    cbn [length] in Hlen.
    erewrite bind_refcount_decrease by (first [solve_lookup | cbn; lia]).
    cbn. rewrite insert_insert_eq.
    erewrite bind_refcount_decrease by (first [solve_lookup | cbn; lia]).
    cbn.
    match goal with |- context [hangup_recipients p l ?s] => set (st1 := s) end.
    destruct (IH st1 (set_ref (ref sp - 1) (set_recipients l sp)))
      as (hp & Hrun & Hhp & Hin & Hout).
    + subst st1. cbn. by rewrite lookup_insert_ne, lookup_insert_eq.
    + done.
    + done.
    + done.
    + cbn. lia.
    + intros q Hq. subst st1. cbn.
      assert (q <> r) by (intros ->; done).
      assert (q <> p) by (intros ->; done).
      rewrite !lookup_insert_ne by done. apply Hrs. by right.
    + exists hp. split; [rewrite Hrun; subst st1; by destruct st|].
      split; [|split].
      * rewrite Hhp. f_equal. apply session_ext; cbn; try done. lia.
      * intros q sq Hq Hsq. apply elem_of_cons in Hq as [->|Hq].
        -- rewrite Hout by done. subst st1. cbn. rewrite lookup_insert_eq.
           congruence.
        -- apply Hin; [done|]. subst st1. cbn.
           assert (q <> r) by (intros ->; done).
           assert (q <> p) by (intros ->; done).
           by rewrite !lookup_insert_ne.
      * intros q Hqp Hq. apply not_elem_of_cons in Hq as [Hqr Hq].
        rewrite Hout by done. subst st1. cbn. by rewrite !lookup_insert_ne.
Qed.


Lemma hangup_media_run st h hs p ss :
  active st -> handles st !! h = Some hs -> plugin_handle hs = Some p ->
  heap st !! p = Some ss -> destroyed ss = 0 -> hangingup ss = 0 ->
  linked st p ss ->
  exists hp,
    janus_lua_hangup_media (Some h) st
    = Done tt
        (set_trace (trace st ++
                    [EvLog LOG_INFO "No WebRTC media anymore";
                     EvLock (recipients_mutex p); EvUnlock (recipients_mutex p);
                     EvLock lua_mutex;
                     EvLuaCall (Some "hangupMedia"%string) [LNumber (id ss)];
                     EvUnlock lua_mutex])
           (set_heap hp st)) /\
    hp !! p = Some (hung_up janus_rtp_switching_context_reset
                      (length (recipients ss)) ss) /\
    (forall r sr, r ∈ recipients ss -> heap st !! r = Some sr ->
                  hp !! r = Some (set_ref (ref sr - 1) sr)) /\
    (forall q, q <> p -> q ∉ recipients ss -> hp !! q = heap st !! q).
Proof.
  intros [Hi Hs] Hh Hp Hss Hd Hhu (Hnd & Hnot & Hlen & Hrs).
  unfold janus_lua_hangup_media. unfold_prims. repeat mstep.
  rewrite Hs. destruct (Z.eqb_spec (initialized st) 0) as [|_]; [done|]. cbn.
  erewrite bind_deref_handle by (cbn; exact Hh). rewrite Hp.
  repeat mstep. rewrite Hd, Hhu. cbn. repeat mstep.
  match goal with |- context [bind (hangup_recipients p _) _ ?s] => set (st1 := s) end.
  match type of st1 with _ => idtac end.
  destruct (hangup_recipients_run p (recipients ss) st1
              (set_rtpctx janus_rtp_switching_context_reset
                 (set_rates 0 0 0
                    (set_flags (false, false, false, false, false, false)
                       (set_started 0 (set_hangingup 1 ss))))))
    as (hp & Hrun & Hhp & Hin & Hout).
  - subst st1. cbn. rewrite lookup_insert_eq. first [reflexivity | f_equal; by apply session_ext].
  - done.
  - done.
  - done.
  - cbn. lia.
  - intros r Hr. subst st1. cbn.
    assert (r <> p) by (intros ->; done). rewrite lookup_insert_ne by done. by apply Hrs.
  - exists hp. rewrite (bind_Done _ _ _ _ _ Hrun). repeat mstep.
    split; [subst st1; cbn; rewrite <- !app_assoc; cbn; by destruct st|].
    split; [|split].
    + rewrite Hhp. first [reflexivity | f_equal; by apply session_ext].
    + intros r sr Hr Hsr. apply Hin; [done|]. subst st1. cbn.
      assert (r <> p) by (intros ->; done). by rewrite lookup_insert_ne.
    + intros q Hq Hql. rewrite Hout by done. subst st1. cbn. by rewrite lookup_insert_ne.
Qed.


Lemma setup_media_run now st h hs p ss :
  active st -> handles st !! h = Some hs -> plugin_handle hs = Some p ->
  heap st !! p = Some ss -> destroyed ss = 0 ->
  janus_lua_setup_media now (Some h) st
  = Done tt
      (set_trace (trace st ++
                  [EvLog LOG_INFO "WebRTC media is now available";
                   EvLock lua_mutex;
                   EvLuaCall (Some "setupMedia"%string) [LNumber (id ss)];
                   EvUnlock lua_mutex])
         (set_heap (<[p := set_pli_latest now (set_started 1 (set_hangingup 0 ss))]>
                      (heap st)) st)).
Proof.
  intros [Hi Hs] Hh Hp Hss Hd.
  unfold janus_lua_setup_media. unfold_prims. repeat mstep.
  rewrite Hs. destruct (Z.eqb_spec (initialized st) 0) as [|_]; [done|]. cbn.
  erewrite bind_deref_handle by (cbn; exact Hh). rewrite Hp.
  repeat mstep. rewrite Hd. cbn. repeat mstep.
  rewrite <- !app_assoc. cbn. by destruct st.
Qed.

Lemma hangup_media_again st h hs p sp :
  active st -> handles st !! h = Some hs -> plugin_handle hs = Some p ->
  heap st !! p = Some sp -> destroyed sp = 0 -> hangingup sp <> 0 ->
  janus_lua_hangup_media (Some h) st
  = Done tt
      (set_trace (trace st ++ [EvLog LOG_INFO "No WebRTC media anymore"])
         (set_heap (<[p := set_hangingup (hangingup sp + 1) sp]> (heap st)) st)).
Proof.
  intros [Hi Hs] Hh Hp Hss Hd Hhu.
  unfold janus_lua_hangup_media. unfold_prims. repeat mstep.
  rewrite Hs. destruct (Z.eqb_spec (initialized st) 0) as [|_]; [done|]. cbn.
  erewrite bind_deref_handle by (cbn; exact Hh). rewrite Hp.
  repeat mstep. rewrite Hd. cbn. repeat mstep.
  destruct (Z.eqb_spec (hangingup sp) 0) as [|_]; [done|]. cbn.
  rewrite run_ret. by destruct st.
Qed.

(** X27: the first janus_lua_hangup_media on a session resets it --
    not started, nothing sent or accepted, no bitrate cap, no keyframe
    pacing, a cleared switching context -- and unlinks all of its
    recipients under the recipients mutex: the session loses one
    reference per recipient, each recipient loses one, and no other
    session changes; then the script is told hangupMedia with the id. *)
Theorem hangup_media_resets st h hs p ss :
  active st -> handles st !! h = Some hs -> plugin_handle hs = Some p ->
  heap st !! p = Some ss -> destroyed ss = 0 -> hangingup ss = 0 ->
  linked st p ss ->
  exists hp,
    janus_lua_hangup_media (Some h) st
    = Done tt
        (set_trace (trace st ++
                    [EvLog LOG_INFO "No WebRTC media anymore";
                     EvLock (recipients_mutex p); EvUnlock (recipients_mutex p);
                     EvLock lua_mutex;
                     EvLuaCall (Some "hangupMedia"%string) [LNumber (id ss)];
                     EvUnlock lua_mutex])
           (set_heap hp st)) /\
    hp !! p = Some (hung_up janus_rtp_switching_context_reset
                      (length (recipients ss)) ss) /\
    (forall r sr, r ∈ recipients ss -> heap st !! r = Some sr ->
                  hp !! r = Some (set_ref (ref sr - 1) sr)) /\
    (forall q, q <> p -> q ∉ recipients ss -> hp !! q = heap st !! q).
Proof. apply hangup_media_run. Qed.

(** X28: janus_lua_setup_media re-arms a session whatever its hang-up
    counter was, so that the hang-up that follows is carried out and
    reported to the script; a second hang-up in a row only logs and
    bumps the counter: the script hears setupMedia and hangupMedia
    once each. *)
Theorem hangup_once_per_setup now st h hs p ss :
  active st -> handles st !! h = Some hs -> plugin_handle hs = Some p ->
  heap st !! p = Some ss -> destroyed ss = 0 -> linked st p ss ->
  exists st',
    (janus_lua_setup_media now (Some h) ;;
     janus_lua_hangup_media (Some h) ;;
     janus_lua_hangup_media (Some h))%C st = Done tt st' /\
    trace st' = trace st ++
                [EvLog LOG_INFO "WebRTC media is now available";
                 EvLock lua_mutex;
                 EvLuaCall (Some "setupMedia"%string) [LNumber (id ss)];
                 EvUnlock lua_mutex;
                 EvLog LOG_INFO "No WebRTC media anymore";
                 EvLock (recipients_mutex p); EvUnlock (recipients_mutex p);
                 EvLock lua_mutex;
                 EvLuaCall (Some "hangupMedia"%string) [LNumber (id ss)];
                 EvUnlock lua_mutex;
                 EvLog LOG_INFO "No WebRTC media anymore"] /\
    heap st' !! p
    = Some (set_hangingup 2
              (hung_up janus_rtp_switching_context_reset (length (recipients ss)) ss)).
Proof.
  intros Ha Hh Hp Hss Hd (Hnd & Hnot & Hlen & Hrs).
  rewrite (bind_Done _ _ _ _ _ (setup_media_run now st h hs p ss Ha Hh Hp Hss Hd)).
  set (s1 := set_pli_latest now (set_started 1 (set_hangingup 0 ss))).
  match goal with |- context [bind _ _ ?s] => set (st1 := s) end.
  destruct (hangup_media_run st1 h hs p s1) as (hp & Hrun & Hhp & _); try done.
  { subst st1. cbn. apply lookup_insert_eq. }
  { repeat split; try done. intros r Hr. subst st1. cbn.
    assert (r <> p) by (intros ->; done). rewrite lookup_insert_ne by done.
    by apply Hrs. }
  rewrite (bind_Done _ _ _ _ _ Hrun).
  erewrite hangup_media_again; [| | | |exact Hhp| |]; try done.
  eexists. split; [reflexivity|]. cbn. rewrite <- !app_assoc. cbn.
  split; [done|]. rewrite lookup_insert_eq.
  first [reflexivity | f_equal; by apply session_ext].
Qed.

End Hangup.

Lemma linked_relaying :
  linked relaying 1%positive
    (set_rates 0 2 0
       (set_recipients [2%positive]
          (set_flags (false, false, false, true, true, true)
             (set_ref 2 (sample_session 11 7))))).
Proof.
  split; [apply NoDup_singleton|]. split.
  { intros Hin. apply list_elem_of_singleton in Hin. discriminate Hin. }
  split; [reflexivity|]. intros r Hr. apply list_elem_of_singleton in Hr. subst r.
  eexists. split; [reflexivity|]. reflexivity.
Defined.

(** X27 on handle 11 of [relaying]: session 7 is left without
    recipients, and session 8 with its own reference only. *)
Lemma hangup_media_resets_witness :
  exists st',
    @janus_lua_hangup_media sample_env (Some 11%positive) relaying = Done tt st' /\
    (recipients <$> heap st' !! 1%positive) = Some [] /\
    (ref <$> heap st' !! 1%positive) = Some 1 /\
    (ref <$> heap st' !! 2%positive) = Some 1.
Proof.
  destruct (@hangup_media_resets sample_env relaying 11%positive
              {| plugin_handle := Some 1%positive; stopped := 0 |} 1%positive
              (set_rates 0 2 0
                 (set_recipients [2%positive]
                    (set_flags (false, false, false, true, true, true)
                       (set_ref 2 (sample_session 11 7))))))
    as (hp & Hrun & Hp & Hin & _).
  - split; [discriminate|reflexivity].
  - reflexivity.
  - reflexivity.
  - reflexivity.
  - reflexivity.
  - reflexivity.
  - exact linked_relaying.
  - eexists. split; [exact Hrun|]. cbn. rewrite Hp. split; [reflexivity|].
    split; [reflexivity|].
    rewrite (Hin 2%positive
               (set_started 1
                  (set_flags (true, true, true, false, false, false)
                     (set_ref 2 (sample_session 12 8)))));
      [reflexivity| |reflexivity].
    apply list_elem_of_singleton. reflexivity.
Defined.

(** X28 on handle 11 of [hung], whose session had already hung up. *)
Lemma hangup_once_per_setup_witness :
  exists st',
    (janus_lua_setup_media 5 (Some 11%positive) ;;
     @janus_lua_hangup_media sample_env (Some 11%positive) ;;
     @janus_lua_hangup_media sample_env (Some 11%positive))%C hung = Done tt st' /\
    last (trace st') = Some (EvLog LOG_INFO "No WebRTC media anymore") /\
    (hangingup <$> heap st' !! 1%positive) = Some 2.
Proof.
  destruct (@hangup_once_per_setup sample_env 5 hung 11%positive
              {| plugin_handle := Some 1%positive; stopped := 0 |} 1%positive
              (set_hangingup 1 (set_ref 2 (sample_session 11 7))))
    as (st' & Hrun & Htr & Hp).
  - split; [discriminate|reflexivity].
  - reflexivity.
  - reflexivity.
  - reflexivity.
  - reflexivity.
  - split; [apply NoDup_nil_2|]. split; [apply not_elem_of_nil|].
    split; [reflexivity|]. intros r Hr. by apply elem_of_nil in Hr.
  - exists st'. split; [exact Hrun|]. rewrite Htr, Hp. split; reflexivity.
Defined.

(** ** Data messages *)

Section DataFanout.
Context `{!environment}.

Lemma c_string_length s : (String.length (c_string s) <= String.length s)%nat.
Proof.
  induction s as [|c s IH]; cbn; [done|].
  destruct (uchar c =? 0); cbn; lia.
Qed.

Lemma relay_data_packet_exact r sr buf st :
  heap st !! r = Some sr -> gateway st = true ->
  janus_lua_relay_data_packet (Some r) (Some buf) st
  = Done tt (set_trace (trace st ++ data_relays buf (data_targets (heap st) [r])) st).
Proof.
  intros Hr Hg. unfold janus_lua_relay_data_packet, data_targets, data_relays.
  unfold_prims. rewrite (bind_deref _ _ _ _ Hr). cbn. rewrite Hr.
  destruct (handle sr) as [t|]; cbn.
  - destruct (started sr =? 0); cbn.
    { rewrite run_ret, app_nil_r. by destruct st. }
    destruct (accept_data sr); cbn.
    + repeat mstep. rewrite Hg. repeat mstep. by rewrite <- app_assoc.
    + rewrite run_ret, app_nil_r. by destruct st.
  - rewrite run_ret. destruct (negb (started sr =? 0) && accept_data sr); cbn;
      rewrite app_nil_r; by destruct st.
Qed.

Lemma foreach_relay_data_exact buf l : forall st,
  Forall (fun r => is_Some (heap st !! r)) l -> gateway st = true ->
  foreach_relay_data l (Some buf) st
  = Done tt (set_trace (trace st ++ data_relays buf (data_targets (heap st) l)) st).
Proof.
  induction l as [|r l IH]; intros st Hall Hg.
  - cbn. rewrite run_ret, app_nil_r. by destruct st.
  - apply Forall_cons in Hall as [[sr Hr] Hall].
    cbn [foreach_relay_data].
    rewrite (bind_Done _ _ _ _ _ (relay_data_packet_exact r sr buf st Hr Hg)).
    rewrite IH by done. cbn [trace heap set_trace set_runtime].
    change (r :: l) with ([r] ++ l).
    unfold data_targets, data_relays. rewrite omap_app, flat_map_app, app_assoc.
    by destruct st.
Qed.

(** X29: without a script handler, a data message of [len] bytes
    (within the buffer) from a session that may send data is copied
    and forwarded, under the recipients mutex of the sender, to exactly
    those recipients that have a handle, are started and accept data,
    once each and in list order.  What is passed on is the copy of the
    first len bytes, with the length up to its first NUL byte, so no
    relay is longer than len; no session changes and the copy is freed
    again. *)
Theorem incoming_data_fans_out st h hs p ss buf len :
  handles st !! h = Some hs -> flowing st hs p ss ->
  has_incoming_data st = false -> send_data ss = true -> gateway st = true ->
  Forall (fun r => is_Some (heap st !! r)) (recipients ss) ->
  blocks_fresh st ->
  0 <= len <= Z.of_nat (String.length buf) ->
  let text := first_bytes_of buf len in
  exists st' relays,
    janus_lua_incoming_data (Some h) buf len st = Done tt st' /\
    relays = data_relays text (data_targets (heap st) (recipients ss)) /\
    trace st' = trace st ++
                [EvLog LOG_VERB "Got a DataChannel message (%zu bytes) to forward: %s";
                 EvLock (recipients_mutex p)] ++
                relays ++
                [EvUnlock (recipients_mutex p)] /\
    heap st' = heap st /\ blocks st' = blocks st /\
    (forall t payload n,
       EvRelayData t payload n ∈ relays -> payload = Bytes text /\ 0 <= n <= len).
Proof.
  intros Hh (Hs & Ha & Hp & Hss & Hd & Hhu) Hhas Hsend Hg Hall Hfresh Hlen text.
  unfold janus_lua_incoming_data.
  rewrite (bind_deref_handle _ _ _ _ Hh), !bind_gets, gate_open by done.
  rewrite Hp, (bind_deref _ _ _ _ Hss), Hd, Hhu. cbn [negb orb Z.eqb].
  rewrite bind_gets, Hhas, Hsend. cbn [negb].
  destruct (save_frame_run (drc ss) None len st) as [rs Hsave].
  rewrite (bind_Done _ _ _ _ _ Hsave). unfold g_malloc0, memcpy. unfold_prims.
  destruct (Z.leb_spec (len + 1) 0) as [|_]; [lia|]. repeat mstep. fold text.
  match goal with
  | |- context [bind (foreach_relay_data _ _) _ ?s] => set (st1 := s)
  end.
  rewrite (bind_Done _ _ _ _ _ (foreach_relay_data_exact text (recipients ss) st1 Hall Hg)).
  subst st1. cbn. repeat mstep.
  eexists _, _. split; [reflexivity|]. split; [reflexivity|]. cbn.
  rewrite <- !app_assoc. cbn.
  split; [done|]. split; [done|]. split.
  - apply map_eq. intros q. destruct (decide (q = next_block st)) as [->|Hne].
    + rewrite lookup_delete_eq. symmetry. apply Hfresh. lia.
    + by rewrite lookup_delete_ne, !lookup_insert_ne.
  - intros t payload n Hin. unfold data_relays in Hin.
    apply list_elem_of_In, in_flat_map in Hin as (x & _ & Hin).
    destruct Hin as [Hin|[Hin|[]]]; [discriminate|]. injection Hin as <- <- <-.
    split; [done|]. pose proof (c_string_length text) as Hc.
    pose proof (first_bytes_of_length buf len Hlen) as Hf. fold text in Hf. lia.
Qed.

End DataFanout.

Lemma blocks_fresh_relaying : blocks_fresh relaying.
Proof. intros q _. reflexivity. Defined.

(** X29 on handle 11 of [relaying]: of the five bytes ab, NUL, cd the
    first four are copied, and they reach handle 12 with length 2. *)
Lemma incoming_data_fans_out_witness :
  exists st',
    janus_lua_incoming_data (Some 11%positive)
      ("ab" ++ String Ascii.zero "cd") 4 relaying = Done tt st' /\
    trace st'
    = [EvLog LOG_VERB "Got a DataChannel message (%zu bytes) to forward: %s";
       EvLock (recipients_mutex 1);
       EvLog LOG_VERB "Forwarding DataChannel message (%zu bytes) to session %u: %s";
       EvRelayData (Some 12%positive) (Bytes ("ab" ++ String Ascii.zero "c")) 2;
       EvUnlock (recipients_mutex 1)] /\
    blocks st' = blocks relaying.
Proof.
  assert (Hlen : 0 <= 4 <= Z.of_nat (String.length ("ab" ++ String Ascii.zero "cd")))
    by (vm_compute; split; discriminate).
  destruct (incoming_data_fans_out relaying 11%positive
              {| plugin_handle := Some 1%positive; stopped := 0 |} 1%positive
              (set_rates 0 2 0
                 (set_recipients [2%positive]
                    (set_flags (false, false, false, true, true, true)
                       (set_ref 2 (sample_session 11 7)))))
              ("ab" ++ String Ascii.zero "cd") 4)
    as (st' & relays & Hrun & -> & Htr & _ & Hb & _).
  - reflexivity.
  - exact flowing_relaying.
  - reflexivity.
  - reflexivity.
  - reflexivity.
  - apply Forall_cons. split; [by eexists|apply Forall_nil_2].
  - exact blocks_fresh_relaying.
  - exact Hlen.
  - exists st'. split; [exact Hrun|]. split; [exact Htr|exact Hb].
Defined.

(** ** Shutting the plugin down *)

Section Shutdown.
Context `{!environment}.

Lemma session_destroy_run p ss st :
  heap st !! p = Some ss ->
  (exists h' hs, handle ss = Some h' /\ handles st !! h' = Some hs) ->
  exists st1,
    janus_lua_session_destroy (Some p) st = Done tt st1 /\
    handles st1 = handles st /\
    resume_calls (trace st1) = resume_calls (trace st) /\
    gone st1 p /\
    (forall q, q <> p -> heap st1 !! q = heap st !! q).
Proof.
  intros Hp (h' & hs & Hh & Hhs). unfold janus_lua_session_destroy, gone. unfold_prims.
  rewrite (bind_deref _ _ _ _ Hp).
  destruct (Z.eqb_spec (destroyed ss) 0) as [Hd|Hd].
  - repeat mstep. destruct (decide (ref ss = 1)) as [H1|Hn1].
    + unfold janus_refcount_decrease, janus_lua_session_free. unfold_prims.
      repeat mstep. rewrite H1. change (1 - 1 =? 0) with true. cbv iota.
      repeat mstep. rewrite Hh.
      rewrite bind_deref_handle with (hs := hs) by (cbn; done).
      repeat mstep. rewrite bind_recorder_free. repeat mstep.
      rewrite bind_recorder_free. repeat mstep. rewrite bind_recorder_free.
      repeat mstep. eexists. split; [reflexivity|]. cbn.
      rewrite lookup_delete_eq, resume_calls_app. cbn.
      repeat split; try done; try lia.
      intros q Hq. by rewrite lookup_delete_ne, !lookup_insert_ne.
    + repeat mstep. eexists. split; [reflexivity|]. cbn.
      rewrite lookup_insert_eq. cbn. repeat split; try done.
      intros q Hq. by rewrite lookup_insert_ne.
  - rewrite run_ret. exists st. rewrite Hp. repeat split; done.
Qed.

Lemma destroy_all_run : forall l st,
  NoDup l.*2 ->
  (forall e, e ∈ l ->
     exists ss h' hs,
       heap st !! e.2 = Some ss /\ handle ss = Some h' /\ handles st !! h' = Some hs) ->
  exists st',
    destroy_all l st = Done tt st' /\
    handles st' = handles st /\
    resume_calls (trace st') = resume_calls (trace st) /\
    (forall e, e ∈ l -> gone st' e.2) /\
    (forall q, q ∉ l.*2 -> heap st' !! q = heap st !! q).
Proof.
  induction l as [|[h p] l IH]; intros st Hnd Hall.
  - exists st. cbn. rewrite run_ret. repeat split; try done.
    intros e He. by apply elem_of_nil in He.
  - cbn in Hnd. apply NoDup_cons in Hnd as [Hpl Hnd].
    destruct (Hall (h, p)) as (ss & h' & hs & Hp & Hh & Hhs); [by left|].
    destruct (session_destroy_run p ss st Hp) as (st1 & Hrun & Hhd & Hrc & Hgone & Hout);
      [by eauto|].
    destruct (IH st1 Hnd) as (st' & Hrun' & Hhd' & Hrc' & Hgone' & Hout').
    { intros e He. destruct (Hall e) as (se & he & hse & H1 & H2 & H3); [by right|].
      exists se, he, hse. rewrite Hhd. split; [|done].
      rewrite Hout; [done|]. intros E. apply Hpl. rewrite <- E.
      apply list_elem_of_fmap. by exists e. }
    exists st'. cbn [destroy_all]. rewrite (bind_Done _ _ _ _ _ Hrun).
    split; [done|]. split; [congruence|]. split; [congruence|]. split.
    + intros e He. apply elem_of_cons in He as [->|He]; [|by apply Hgone'].
      unfold gone in *. cbn. by rewrite Hout'.
    + intros q Hq. cbn in Hq. apply not_elem_of_cons in Hq as [Hqp Hq].
      rewrite Hout' by done. by apply Hout.
Qed.

Lemma scheduler_loop_stopping st ev rest :
  events st = ev :: rest -> stopping st <> 0 ->
  exists tr,
    janus_lua_scheduler_loop (ev :: rest) st
    = Done SchedulerLeft (set_trace (trace st ++ tr) (set_events rest st)) /\
    (resume_calls tr <= 1)%nat.
Proof.
  intros E Hs. cbn [janus_lua_scheduler_loop].
  unfold janus_lua_scheduler_turn, scheduler_condition. unfold_prims.
  rewrite bind_bind, bind_gets, E.
  assert (Hc : negb (initialized st =? 0) && (stopping st =? 0) = false).
  { destruct (Z.eqb_spec (stopping st) 0); [done|]. by rewrite andb_false_r. }
  destruct ev; repeat mstep; rewrite ?Hc; repeat mstep;
    eexists; (split; [rewrite <- ?app_assoc; reflexivity|]); cbn; lia.
Qed.


(** X30: janus_lua_destroy does nothing on a plugin that is not
    initialized.  Otherwise it ends with the plugin uninitialized and
    not stopping, the Lua state closed, and the session table, the id
    table and the event queue empty; every session that was in the
    handle-keyed table is freed or flagged as destroyed, and no other
    session is touched.  Because the stopping flag is raised before the
    scheduler is joined, at most one of the resume tokens still queued
    reaches the script. *)
Theorem destroy_tears_down st :
  (initialized st = 0 -> janus_lua_destroy st = Done tt st) /\
  (initialized st <> 0 -> sessions_ok st ->
   exists st',
     janus_lua_destroy st = Done tt st' /\
     initialized st' = 0 /\ stopping st' = 0 /\ lua_state st' = false /\
     sessions st' = ∅ /\ ids st' = ∅ /\ events st' = [] /\
     (forall h p, sessions st !! h = Some p -> gone st' p) /\
     (forall q, (forall h, sessions st !! h <> Some q) -> heap st' !! q = heap st !! q) /\
     (resume_calls (trace st') <= resume_calls (trace st) + 1)%nat /\
     last (trace st') = Some (EvLog LOG_INFO "%s destroyed!")).
Proof.
  split.
  - intros Hi. unfold janus_lua_destroy. rewrite bind_gets, Hi. done.
  - intros Hi [Hall Hinj]. unfold janus_lua_destroy. unfold_prims.
    rewrite bind_gets. destruct (Z.eqb_spec (initialized st) 0) as [|_]; [done|].
    repeat mstep.
    match goal with |- context [bind (janus_lua_scheduler_loop ?q) _ ?s] =>
      set (st1 := s); set (queue := q) end.
    assert (Hq : exists ev rest, queue = ev :: rest).
    { subst queue. destruct (events st) as [|ev rest]; cbn; eauto. }
    destruct Hq as (ev & rest & Hq).
    destruct (scheduler_loop_stopping st1 ev rest) as (tr & Hloop & Htr).
    { subst st1. cbn. exact Hq. }
    { subst st1. cbn. done. }
    rewrite Hq, (bind_Done _ _ _ _ _ Hloop). repeat mstep.
    match goal with |- context [bind (destroy_all ?l) _ ?s] =>
      set (st2 := s); set (all := l) end.
    destruct (destroy_all_run all st2) as (st3 & Hrun & _ & Hrc & Hgone & Hout).
    { subst all st2 st1. cbn. apply NoDup_fmap_2_strong; [|apply NoDup_map_to_list].
      intros [h1 p1] [h2 p2] H1 H2 E. cbn in E. subst p2.
      apply elem_of_map_to_list in H1, H2. by rewrite (Hinj h1 h2 p1). }
    { intros [h p] He. subst all st2 st1. cbn in *.
      apply elem_of_map_to_list in He. by apply (Hall h). }
    rewrite (bind_Done _ _ _ _ _ Hrun). unfold lua_close. repeat mstep.
    eexists. split; [reflexivity|]. cbn.
    repeat split; try done.
    + intros h p Hp. specialize (Hgone (h, p)). unfold gone in *. cbn in *.
      apply Hgone. subst all st2 st1. cbn. by apply elem_of_map_to_list.
    + intros q Hq'. rewrite Hout; [by subst st2 st1|].
      intros Hin. apply list_elem_of_fmap in Hin as ([h p] & -> & Hin).
      subst all st2 st1. cbn in Hin. apply elem_of_map_to_list in Hin.
      by apply (Hq' h).
    + rewrite !resume_calls_app, Hrc. subst st2 st1. cbn.
      rewrite !resume_calls_app. cbn. lia.
    + by rewrite last_snoc.
Qed.

End Shutdown.

Lemma sessions_ok_relaying :
  sessions_ok (set_events [janus_lua_event_resume; janus_lua_event_resume] relaying).
Proof.
  split.
  - intros h p Hp. cbn in Hp.
    destruct (decide (h = 11%positive)) as [->|H11].
    { rewrite lookup_insert_eq in Hp. injection Hp as <-.
      eexists _, _, _. split; [reflexivity|]. split; reflexivity. }
    rewrite lookup_insert_ne in Hp by done.
    destruct (decide (h = 12%positive)) as [->|H12].
    { rewrite lookup_insert_eq in Hp. injection Hp as <-.
      eexists _, _, _. split; [reflexivity|]. split; reflexivity. }
    rewrite lookup_insert_ne in Hp by done. done.
  - intros h1 h2 p H1 H2. cbn in H1, H2.
    destruct (decide (h1 = 11%positive)) as [->|A1];
      [rewrite lookup_insert_eq in H1|rewrite lookup_insert_ne in H1 by done;
       destruct (decide (h1 = 12%positive)) as [->|B1];
       [rewrite lookup_insert_eq in H1|rewrite lookup_insert_ne in H1 by done; done]];
    injection H1 as <-;
    (destruct (decide (h2 = 11%positive)) as [->|A2];
      [rewrite lookup_insert_eq in H2|rewrite lookup_insert_ne in H2 by done;
       destruct (decide (h2 = 12%positive)) as [->|B2];
       [rewrite lookup_insert_eq in H2|rewrite lookup_insert_ne in H2 by done; done]]);
    first [reflexivity | discriminate H2].
Defined.

(** X30 on [relaying] with two resume tokens still queued. *)
Lemma destroy_tears_down_witness :
  exists st',
    janus_lua_destroy
      (set_events [janus_lua_event_resume; janus_lua_event_resume] relaying)
    = Done tt st' /\
    initialized st' = 0 /\ sessions st' = ∅ /\ ids st' = ∅ /\ events st' = [] /\
    gone st' 1%positive /\ gone st' 2%positive /\
    (resume_calls (trace st') <= 1)%nat.
Proof.
  destruct (destroy_tears_down
              (set_events [janus_lua_event_resume; janus_lua_event_resume] relaying))
    as [_ Hrun].
  destruct Hrun as (st' & Hrun & Hi & _ & _ & Hs & Hids & Hev & Hgone & _ & Hrc & _).
  - discriminate.
  - exact sessions_ok_relaying.
  - exists st'. split; [exact Hrun|]. split; [exact Hi|]. split; [exact Hs|].
    split; [exact Hids|]. split; [exact Hev|].
    split; [by apply (Hgone 11%positive)|]. split; [by apply (Hgone 12%positive)|].
    exact Hrc.
Defined.
